(** * Tilt-axis motion subsystem of the rotating LIDAR firmware

    A shallow embedding of [tilt_stepper_motor_control.c] (state machine,
    step timer, home-flag interrupt) and of [TMC260.c] (register packing,
    SPI datagrams, status decoding), followed by the properties of the
    subsystem that the design document states about them, by further
    properties of the two files, and by a model of [lepton_transfer]
    ([lepton_functions.c]) with its properties.

    Globals of the two C files are fields of one [machine] record, every C
    function is a computation in a state monad over it, and everything the
    firmware does to the outside (pins, SPI, timers, packets) is appended
    to an event trace. *)

From Stdlib Require Import ZArith List Bool Lia.
From Stdlib Require Import Floats.SpecFloat.
Import ListNotations.
Local Open Scope Z_scope.

(** ** C integer types

    [uint8_t], [uint32_t] and [int32_t] values are integers of [Z]; the
    wrap-around of each type is written where the C code can overflow.
    Overflow of [int32_t] is undefined in C; the Cortex-M4 target wraps,
    and so does [wrap_s32]. *)
Module Cint.

Definition wrap_u32 (z : Z) : Z := z mod 2 ^ 32.
Definition wrap_s32 (z : Z) : Z := (z + 2 ^ 31) mod 2 ^ 32 - 2 ^ 31.

Definition INT32_MAX : Z := 2 ^ 31 - 1.
Definition INT32_MIN : Z := - 2 ^ 31.

(** [~x] at type [uint32_t]. *)
Definition not_u32 (z : Z) : Z := wrap_u32 (Z.lnot z).

(** What saturating arithmetic on an [int32_t] would give. *)
Definition sat_s32 (z : Z) : Z := Z.max INT32_MIN (Z.min INT32_MAX z).

End Cint.

(** ** The C type [float]

    IEEE 754 binary32 with round-to-nearest-even, as the FPU of the target
    computes it: the operations of [SpecFloat] at precision 24. *)
Module F32.

Definition prec : Z := 24.
Definition emax : Z := 128.

Definition float : Type := spec_float.

Definition zero : float := S754_zero false.

(** [(float)z] for an integer [z]. *)
Definition of_Z (z : Z) : float := binary_normalize prec emax z 0 false.

Definition mul : float -> float -> float := SFmul prec emax.
Definition div : float -> float -> float := SFdiv prec emax.
Definition sub : float -> float -> float := SFsub prec emax.
Definition abs : float -> float := SFabs.

(** [x < y] and [x > y]; both are false on a NaN. *)
Definition ltb (x y : float) : bool := SFltb x y.
Definition gtb (x y : float) : bool := SFltb y x.

(** The decimal literal [n/d] for [n] and [d] below [2^24]: both are exact
    in binary32, so the correctly rounded quotient is the literal. *)
Definition lit (n d : Z) : float := div (of_Z n) (of_Z d).

(** [(int32_t)x]: truncation toward zero.  Out of range the conversion is
    undefined in C; the model does what the target's VCVT does (saturate,
    NaN to 0). *)
Definition to_int32 (x : float) : Z :=
  match x with
  | S754_zero _ => 0
  | S754_nan => 0
  | S754_infinity s => if s then Cint.INT32_MIN else Cint.INT32_MAX
  | S754_finite s m e => Cint.sat_s32 (cond_Zopp s (Z.shiftl (Zpos m) e))
  end.

End F32.

(** ** Enumerations of the two modules *)

Inductive tilt_stepper_states : Type :=
| TILT_STEPPER_INITIALIZE
| TILT_STEPPER_HOME
| TILT_STEPPER_TILT_TABLE
| TILT_STEPPER_TEST_CW
| TILT_STEPPER_TEST_CCW
| TILT_STEPPER_TEST_DELAY
| TILT_STEPPER_ERROR.

Inductive tilt_stepper_dirs : Type :=
| TILT_STEPPER_DIR_STOPPED
| TILT_STEPPER_DIR_CW
| TILT_STEPPER_DIR_CCW.

Inductive tmc260_status_types : Type :=
| TMC260_STATUS_POSITION
| TMC260_STATUS_STALLGUARD
| TMC260_STATUS_CURRENT.

(** Return codes of the driver functions. *)
Inductive tmc260_retval : Type :=
| TMC260_SUCCESS
| TMC260_ERROR_INVALID_INPUT.

(** Level of a pin, as [GPIO_ReadInputDataBit] reports it. *)
Inductive BitAction : Type := Bit_RESET | Bit_SET.

Inductive gpio_port : Type := GPIOA | GPIOC.
Inductive timer : Type := TIM5 | TIM11.
Inductive debug_led : Type :=
| DEBUG_LED_GREEN | DEBUG_LED_ORANGE | DEBUG_LED_RED | DEBUG_LED_BLUE.
Inductive led_action : Type := LedSet | LedClear | LedToggle.
Inductive irq_line : Type := IT_EXTI_Line1 | IT_TIM5_Update | IT_TIM11_Update.

Definition state_eqb (a b : tilt_stepper_states) : bool :=
  match a, b with
  | TILT_STEPPER_INITIALIZE, TILT_STEPPER_INITIALIZE
  | TILT_STEPPER_HOME, TILT_STEPPER_HOME
  | TILT_STEPPER_TILT_TABLE, TILT_STEPPER_TILT_TABLE
  | TILT_STEPPER_TEST_CW, TILT_STEPPER_TEST_CW
  | TILT_STEPPER_TEST_CCW, TILT_STEPPER_TEST_CCW
  | TILT_STEPPER_TEST_DELAY, TILT_STEPPER_TEST_DELAY
  | TILT_STEPPER_ERROR, TILT_STEPPER_ERROR => true
  | _, _ => false
  end.

Definition dir_eqb (a b : tilt_stepper_dirs) : bool :=
  match a, b with
  | TILT_STEPPER_DIR_STOPPED, TILT_STEPPER_DIR_STOPPED
  | TILT_STEPPER_DIR_CW, TILT_STEPPER_DIR_CW
  | TILT_STEPPER_DIR_CCW, TILT_STEPPER_DIR_CCW => true
  | _, _ => false
  end.

Definition bit_eqb (a b : BitAction) : bool :=
  match a, b with
  | Bit_RESET, Bit_RESET | Bit_SET, Bit_SET => true
  | _, _ => false
  end.

Definition port_eqb (a b : gpio_port) : bool :=
  match a, b with
  | GPIOA, GPIOA | GPIOC, GPIOC => true
  | _, _ => false
  end.

(** The pin masks of the peripheral library. *)
Definition GPIO_Pin_0 : Z := 0x0001.
Definition GPIO_Pin_1 : Z := 0x0002.
Definition GPIO_Pin_2 : Z := 0x0004.
Definition GPIO_Pin_13 : Z := 0x2000.

(** The value that selects a status kind in RDSEL, as the comment of
    [TMC260_send_drvconf] lists them. *)
Definition status_code (k : tmc260_status_types) : Z :=
  match k with
  | TMC260_STATUS_POSITION => 0
  | TMC260_STATUS_STALLGUARD => 1
  | TMC260_STATUS_CURRENT => 2
  end.

(** ** Events

    What the firmware asks of its collaborators, most recent first in the
    trace. *)

Inductive packet : Type :=
| UniversalByte (b : Z)
| MotorTmc260RespStatus (position stall_guard current status_byte : Z).

Inductive event : Type :=
| GpioWrite (port : gpio_port) (pin : Z) (level : BitAction)
| SpiSend (byte : Z)
| SpiReceive (byte : Z)
| DelayCall
| TimSetAutoreload (t : timer) (arr : Z)
| TimCmd (t : timer) (enable : bool)
| ClearPending (l : irq_line)
| DebugOutput (a : led_action) (l : debug_led)
| UsartQueue (p : packet)
| GpioSetup
| SpiSetup
| ProfileRead (index : Z).

Definition is_spi_event (e : event) : bool :=
  match e with
  | SpiSend _ | SpiReceive _ | GpioWrite GPIOC 0x2000 _ => true
  | _ => false
  end.

(** The events on the SPI bus and its chip select (PC13). *)
Definition spi_events (t : list event) : list event := filter is_spi_event t.

(** ** The headers

    [TMC260.h], [tilt_stepper_motor_control.h] and
    [tilt_stepper_motor_profile.h] declare the masks, shifts, cadences and
    mechanical constants the two C files use.  The embedding takes what
    they declare as parameters. *)

(** A register field [X]: the macros [X_SHIFT] and [X_MASK].  (The field of
    the stall metric is [TMC260_STATUS_STALLGUARD_FLD] below, its macro
    prefix being the name of an enumerator too.) *)
Record field : Type := { shift : Z; mask : Z }.

(** [((uint32_t)v << X_SHIFT) & X_MASK] *)
Definition pack (f : field) (v : Z) : Z :=
  Z.land (Cint.wrap_u32 (Z.shiftl v (shift f))) (mask f).

(** [(rd & X_MASK) >> X_SHIFT] *)
Definition unpack (f : field) (rd : Z) : Z :=
  Z.shiftr (Z.land rd (mask f)) (shift f).

(** A value exceeds the width of a field when packing loses some of its
    bits. *)
Definition exceeds_width (f : field) (v : Z) : bool :=
  negb (unpack f (pack f v) =? v).

Record tmc260_header : Type := {
  TMC260_SPI_DELAY_COUNT : Z;
  MICROSTEP_CONFIG_64 : Z;
  TOS_100_DEV_BOARD : bool;
  TMC260_DRVCTRL_SDOFF_INIT : Z;
  TMC260_DRVCTRL_SDOFF_PHA_DIR : field;
  TMC260_DRVCTRL_SDOFF_PHA_CUR : field;
  TMC260_DRVCTRL_SDOFF_PHB_DIR : field;
  TMC260_DRVCTRL_SDOFF_PHB_CUR : field;
  TMC260_DRVCTRL_SDON_INIT : Z;
  TMC260_DRVCTRL_SDON_INTPOL : field;
  TMC260_DRVCTRL_SDON_DEDGE : field;
  TMC260_DRVCTRL_SDON_MRES : field;
  TMC260_CHOPCONF_INIT : Z;
  TMC260_CHOPCONF_TBL : field;
  TMC260_CHOPCONF_CHM : field;
  TMC260_CHOPCONF_RNDTF : field;
  TMC260_CHOPCONF_HDEC : field;
  TMC260_CHOPCONF_HEND : field;
  TMC260_CHOPCONF_HSTRT : field;
  TMC260_CHOPCONF_TOFF : field;
  TMC260_SMARTEN_INIT : Z;
  TMC260_SMARTEN_SEIMIN : field;
  TMC260_SMARTEN_SEDN : field;
  TMC260_SMARTEN_SEMAX : field;
  TMC260_SMARTEN_SEUP : field;
  TMC260_SMARTEN_SEMIN : field;
  TMC260_SGCSCONF_INIT : Z;
  TMC260_SGCSCONF_SFILT : field;
  TMC260_SGCSCONF_SGT : field;
  TMC260_SGCSCONF_CS : field;
  TMC260_DRVCONF_INIT : Z;
  TMC260_DRVCONF_TST : field;
  TMC260_DRVCONF_SLPH : field;
  TMC260_DRVCONF_SLPL : field;
  TMC260_DRVCONF_DISS2G : field;
  TMC260_DRVCONF_TS2G : field;
  TMC260_DRVCONF_SDOFF : field;
  TMC260_DRVCONF_VSENSE : field;
  TMC260_DRVCONF_RDSEL : field;
  TMC260_STATUS_STST : field;
  TMC260_STATUS_OLB : field;
  TMC260_STATUS_OLA : field;
  TMC260_STATUS_S2GB : field;
  TMC260_STATUS_S2GA : field;
  TMC260_STATUS_OTPW : field;
  TMC260_STATUS_OT : field;
  TMC260_STATUS_SG : field;
  TMC260_STATUS_MSTEP : field;
  TMC260_STATUS_STALLGUARD_FLD : field;
  TMC260_STATUS_CUR_SG : field;
  TMC260_STATUS_CUR_SE : field
}.

(** The mechanical constants and the sweep table.  The gear ratio is used
    in [float] expressions without a cast, [micro_steps_per_rev] only under
    [(float)]: the first two are taken as [float] constants, the third as
    an integer. *)
Record tilt_header : Type := {
  SystemCoreClock : Z;
  DEFAULT_STEP_FREQ_HZ : Z;
  HOME_STEP_FREQ_HZ : Z;
  TILT_STEPPER_TWO_PI : F32.float;
  micro_steps_per_rev : Z;
  stepper_gear_ratio_num : F32.float;
  stepper_gear_ratio_den : F32.float;
  tilt_elements : Z;
  stepper_profile : list Z
}.

(** ** State *)

(** [tmc260_status_struct] *)
Record tmc260_status_struct : Type := {
  status_type : tmc260_status_types;
  position : Z;
  stall_guard : Z;
  current : Z;
  status_byte : Z;
  STST : Z;
  OLB : Z;
  OLA : Z;
  S2GB : Z;
  S2GA : Z;
  OTPW : Z;
  OT : Z;
  SG : Z
}.

(** The file-scope variables of [tilt_stepper_motor_control.c]. *)
Record tilt_globals : Type := {
  ts_state_timer : Z;
  ts_state : tilt_stepper_states;
  stat_struct : tmc260_status_struct;
  last_dir : Z;
  tilt_index : Z;
  steps_from_home : Z;
  current_step_dir : tilt_stepper_dirs;
  current_pos_rad : F32.float;
  tilt_stepper_motor_send_angle : Z;
  TimerPeriod : Z;
  pscale : Z
}.

(** The file-scope variables of [TMC260.c]: the initialised flag and the
    shadows of the five control registers. *)
Record tmc260_globals : Type := {
  TMC260_initialized : Z;
  TMC260_DRVCTRL_regval : Z;
  TMC260_CHOPCONF_regval : Z;
  TMC260_SMARTEN_regval : Z;
  TMC260_SGCSCONF_regval : Z;
  TMC260_DRVCONF_regval : Z
}.

(** The hardware the two files touch: pin levels by port and pin mask, the
    reload register of the step timer, the bytes the driver chip shifts out
    (one per byte shifted in, numbered from the first transfer), and the
    trace. *)
Record hardware : Type := {
  pins : gpio_port -> Z -> BitAction;
  TIM5_ARR : Z;
  spi_miso : nat -> Z;
  spi_count : nat;
  trace : list event
}.

Record machine : Type := {
  tilt : tilt_globals;
  tmc : tmc260_globals;
  hw : hardware
}.

Definition set_ts_state_timer (v : Z) (g : tilt_globals) : tilt_globals :=
  {| ts_state_timer := v; ts_state := ts_state g;
     stat_struct := stat_struct g; last_dir := last_dir g;
     tilt_index := tilt_index g; steps_from_home := steps_from_home g;
     current_step_dir := current_step_dir g;
     current_pos_rad := current_pos_rad g;
     tilt_stepper_motor_send_angle := tilt_stepper_motor_send_angle g;
     TimerPeriod := TimerPeriod g; pscale := pscale g |}.

Definition set_ts_state (v : tilt_stepper_states) (g : tilt_globals) : tilt_globals :=
  {| ts_state_timer := ts_state_timer g; ts_state := v;
     stat_struct := stat_struct g; last_dir := last_dir g;
     tilt_index := tilt_index g; steps_from_home := steps_from_home g;
     current_step_dir := current_step_dir g;
     current_pos_rad := current_pos_rad g;
     tilt_stepper_motor_send_angle := tilt_stepper_motor_send_angle g;
     TimerPeriod := TimerPeriod g; pscale := pscale g |}.

Definition set_stat_struct (v : tmc260_status_struct) (g : tilt_globals) : tilt_globals :=
  {| ts_state_timer := ts_state_timer g; ts_state := ts_state g;
     stat_struct := v; last_dir := last_dir g; tilt_index := tilt_index g;
     steps_from_home := steps_from_home g;
     current_step_dir := current_step_dir g;
     current_pos_rad := current_pos_rad g;
     tilt_stepper_motor_send_angle := tilt_stepper_motor_send_angle g;
     TimerPeriod := TimerPeriod g; pscale := pscale g |}.

Definition set_last_dir (v : Z) (g : tilt_globals) : tilt_globals :=
  {| ts_state_timer := ts_state_timer g; ts_state := ts_state g;
     stat_struct := stat_struct g; last_dir := v; tilt_index := tilt_index g;
     steps_from_home := steps_from_home g;
     current_step_dir := current_step_dir g;
     current_pos_rad := current_pos_rad g;
     tilt_stepper_motor_send_angle := tilt_stepper_motor_send_angle g;
     TimerPeriod := TimerPeriod g; pscale := pscale g |}.

Definition set_tilt_index (v : Z) (g : tilt_globals) : tilt_globals :=
  {| ts_state_timer := ts_state_timer g; ts_state := ts_state g;
     stat_struct := stat_struct g; last_dir := last_dir g; tilt_index := v;
     steps_from_home := steps_from_home g;
     current_step_dir := current_step_dir g;
     current_pos_rad := current_pos_rad g;
     tilt_stepper_motor_send_angle := tilt_stepper_motor_send_angle g;
     TimerPeriod := TimerPeriod g; pscale := pscale g |}.

Definition set_steps_from_home (v : Z) (g : tilt_globals) : tilt_globals :=
  {| ts_state_timer := ts_state_timer g; ts_state := ts_state g;
     stat_struct := stat_struct g; last_dir := last_dir g;
     tilt_index := tilt_index g; steps_from_home := v;
     current_step_dir := current_step_dir g;
     current_pos_rad := current_pos_rad g;
     tilt_stepper_motor_send_angle := tilt_stepper_motor_send_angle g;
     TimerPeriod := TimerPeriod g; pscale := pscale g |}.

Definition set_current_step_dir (v : tilt_stepper_dirs) (g : tilt_globals) : tilt_globals :=
  {| ts_state_timer := ts_state_timer g; ts_state := ts_state g;
     stat_struct := stat_struct g; last_dir := last_dir g;
     tilt_index := tilt_index g; steps_from_home := steps_from_home g;
     current_step_dir := v; current_pos_rad := current_pos_rad g;
     tilt_stepper_motor_send_angle := tilt_stepper_motor_send_angle g;
     TimerPeriod := TimerPeriod g; pscale := pscale g |}.

Definition set_current_pos_rad (v : F32.float) (g : tilt_globals) : tilt_globals :=
  {| ts_state_timer := ts_state_timer g; ts_state := ts_state g;
     stat_struct := stat_struct g; last_dir := last_dir g;
     tilt_index := tilt_index g; steps_from_home := steps_from_home g;
     current_step_dir := current_step_dir g; current_pos_rad := v;
     tilt_stepper_motor_send_angle := tilt_stepper_motor_send_angle g;
     TimerPeriod := TimerPeriod g; pscale := pscale g |}.

Definition set_tilt_stepper_motor_send_angle (v : Z) (g : tilt_globals) : tilt_globals :=
  {| ts_state_timer := ts_state_timer g; ts_state := ts_state g;
     stat_struct := stat_struct g; last_dir := last_dir g;
     tilt_index := tilt_index g; steps_from_home := steps_from_home g;
     current_step_dir := current_step_dir g;
     current_pos_rad := current_pos_rad g;
     tilt_stepper_motor_send_angle := v; TimerPeriod := TimerPeriod g;
     pscale := pscale g |}.

Definition set_TimerPeriod (v : Z) (g : tilt_globals) : tilt_globals :=
  {| ts_state_timer := ts_state_timer g; ts_state := ts_state g;
     stat_struct := stat_struct g; last_dir := last_dir g;
     tilt_index := tilt_index g; steps_from_home := steps_from_home g;
     current_step_dir := current_step_dir g;
     current_pos_rad := current_pos_rad g;
     tilt_stepper_motor_send_angle := tilt_stepper_motor_send_angle g;
     TimerPeriod := v; pscale := pscale g |}.

Definition set_pscale (v : Z) (g : tilt_globals) : tilt_globals :=
  {| ts_state_timer := ts_state_timer g; ts_state := ts_state g;
     stat_struct := stat_struct g; last_dir := last_dir g;
     tilt_index := tilt_index g; steps_from_home := steps_from_home g;
     current_step_dir := current_step_dir g;
     current_pos_rad := current_pos_rad g;
     tilt_stepper_motor_send_angle := tilt_stepper_motor_send_angle g;
     TimerPeriod := TimerPeriod g; pscale := v |}.

Definition set_TMC260_initialized (v : Z) (g : tmc260_globals) : tmc260_globals :=
  {| TMC260_initialized := v;
     TMC260_DRVCTRL_regval := TMC260_DRVCTRL_regval g;
     TMC260_CHOPCONF_regval := TMC260_CHOPCONF_regval g;
     TMC260_SMARTEN_regval := TMC260_SMARTEN_regval g;
     TMC260_SGCSCONF_regval := TMC260_SGCSCONF_regval g;
     TMC260_DRVCONF_regval := TMC260_DRVCONF_regval g |}.

Definition set_TMC260_DRVCTRL_regval (v : Z) (g : tmc260_globals) : tmc260_globals :=
  {| TMC260_initialized := TMC260_initialized g; TMC260_DRVCTRL_regval := v;
     TMC260_CHOPCONF_regval := TMC260_CHOPCONF_regval g;
     TMC260_SMARTEN_regval := TMC260_SMARTEN_regval g;
     TMC260_SGCSCONF_regval := TMC260_SGCSCONF_regval g;
     TMC260_DRVCONF_regval := TMC260_DRVCONF_regval g |}.

Definition set_TMC260_CHOPCONF_regval (v : Z) (g : tmc260_globals) : tmc260_globals :=
  {| TMC260_initialized := TMC260_initialized g;
     TMC260_DRVCTRL_regval := TMC260_DRVCTRL_regval g;
     TMC260_CHOPCONF_regval := v;
     TMC260_SMARTEN_regval := TMC260_SMARTEN_regval g;
     TMC260_SGCSCONF_regval := TMC260_SGCSCONF_regval g;
     TMC260_DRVCONF_regval := TMC260_DRVCONF_regval g |}.

Definition set_TMC260_SMARTEN_regval (v : Z) (g : tmc260_globals) : tmc260_globals :=
  {| TMC260_initialized := TMC260_initialized g;
     TMC260_DRVCTRL_regval := TMC260_DRVCTRL_regval g;
     TMC260_CHOPCONF_regval := TMC260_CHOPCONF_regval g;
     TMC260_SMARTEN_regval := v;
     TMC260_SGCSCONF_regval := TMC260_SGCSCONF_regval g;
     TMC260_DRVCONF_regval := TMC260_DRVCONF_regval g |}.

Definition set_TMC260_SGCSCONF_regval (v : Z) (g : tmc260_globals) : tmc260_globals :=
  {| TMC260_initialized := TMC260_initialized g;
     TMC260_DRVCTRL_regval := TMC260_DRVCTRL_regval g;
     TMC260_CHOPCONF_regval := TMC260_CHOPCONF_regval g;
     TMC260_SMARTEN_regval := TMC260_SMARTEN_regval g;
     TMC260_SGCSCONF_regval := v;
     TMC260_DRVCONF_regval := TMC260_DRVCONF_regval g |}.

Definition set_TMC260_DRVCONF_regval (v : Z) (g : tmc260_globals) : tmc260_globals :=
  {| TMC260_initialized := TMC260_initialized g;
     TMC260_DRVCTRL_regval := TMC260_DRVCTRL_regval g;
     TMC260_CHOPCONF_regval := TMC260_CHOPCONF_regval g;
     TMC260_SMARTEN_regval := TMC260_SMARTEN_regval g;
     TMC260_SGCSCONF_regval := TMC260_SGCSCONF_regval g;
     TMC260_DRVCONF_regval := v |}.

Definition set_pins (v : gpio_port -> Z -> BitAction) (h : hardware) : hardware :=
  {| pins := v; TIM5_ARR := TIM5_ARR h; spi_miso := spi_miso h;
     spi_count := spi_count h; trace := trace h |}.

Definition set_TIM5_ARR (v : Z) (h : hardware) : hardware :=
  {| pins := pins h; TIM5_ARR := v; spi_miso := spi_miso h;
     spi_count := spi_count h; trace := trace h |}.

Definition set_spi_miso (v : nat -> Z) (h : hardware) : hardware :=
  {| pins := pins h; TIM5_ARR := TIM5_ARR h; spi_miso := v;
     spi_count := spi_count h; trace := trace h |}.

Definition set_spi_count (v : nat) (h : hardware) : hardware :=
  {| pins := pins h; TIM5_ARR := TIM5_ARR h; spi_miso := spi_miso h;
     spi_count := v; trace := trace h |}.

Definition set_trace (v : list event) (h : hardware) : hardware :=
  {| pins := pins h; TIM5_ARR := TIM5_ARR h; spi_miso := spi_miso h;
     spi_count := spi_count h; trace := v |}.

Definition set_tilt (v : tilt_globals) (m : machine) : machine :=
  {| tilt := v; tmc := tmc m; hw := hw m |}.

Definition set_tmc (v : tmc260_globals) (m : machine) : machine :=
  {| tilt := tilt m; tmc := v; hw := hw m |}.

Definition set_hw (v : hardware) (m : machine) : machine :=
  {| tilt := tilt m; tmc := tmc m; hw := v |}.

Definition upd_tilt (f : tilt_globals -> tilt_globals) (m : machine) : machine :=
  set_tilt (f (tilt m)) m.
Definition upd_tmc (f : tmc260_globals -> tmc260_globals) (m : machine) : machine :=
  set_tmc (f (tmc m)) m.
Definition upd_hw (f : hardware -> hardware) (m : machine) : machine :=
  set_hw (f (hw m)) m.

(** ** The state monad *)

Definition M (A : Type) : Type := machine -> A * machine.

Definition ret {A : Type} (a : A) : M A := fun m => (a, m).

Definition bind {A B : Type} (c : M A) (k : A -> M B) : M B :=
  fun m => let '(a, m') := c m in k a m'.

Definition load {A : Type} (f : machine -> A) : M A := fun m => (f m, m).
Definition store (f : machine -> machine) : M unit := fun m => (tt, f m).

Definition exec {A : Type} (c : M A) (m : machine) : machine := snd (c m).
Definition eval {A : Type} (c : M A) (m : machine) : A := fst (c m).

Declare Scope firmware_scope.
Delimit Scope firmware_scope with fw.
Notation "x <- c ;; k" := (bind c (fun x => k))
  (at level 61, c at next level, right associativity) : firmware_scope.
Notation "c ;; k" := (bind c (fun _ => k))
  (at level 61, right associativity) : firmware_scope.
Local Open Scope firmware_scope.

Definition when (b : bool) (c : M unit) : M unit := if b then c else ret tt.

Definition emit (e : event) : M unit :=
  store (upd_hw (fun h => set_trace (e :: trace h) h)).

Fixpoint times (n : nat) (c : M unit) : M unit :=
  match n with
  | O => ret tt
  | S n' => c ;; times n' c
  end.

(** ** Collaborators

    The peripheral library, the delay primitive, the debug outputs and the
    packet queue, each reduced to its effect on [hardware].  The polling
    loops on the SPI flags ([while(SPI_I2S_GetFlagStatus(...) == RESET);])
    have no bound in the source; the model takes the link as answering, so
    a poll returns at once. *)

Definition GPIO_WriteBit (p : gpio_port) (pin : Z) (l : BitAction) : M unit :=
  store (upd_hw (fun h =>
    set_pins (fun p' pin' =>
      if port_eqb p p' && (pin =? pin') then l else pins h p' pin') h)) ;;
  emit (GpioWrite p pin l).

Definition GPIO_SetBits (p : gpio_port) (pin : Z) : M unit :=
  GPIO_WriteBit p pin Bit_SET.

Definition GPIO_ResetBits (p : gpio_port) (pin : Z) : M unit :=
  GPIO_WriteBit p pin Bit_RESET.

Definition GPIO_ReadInputDataBit (p : gpio_port) (pin : Z) : M BitAction :=
  load (fun m => pins (hw m) p pin).

Definition Delay (count : Z) : M unit := emit DelayCall.

Definition SPI_poll_flag : M unit := ret tt.

Definition SPI_I2S_SendData (data : Z) : M unit :=
  store (upd_hw (fun h => set_spi_count (S (spi_count h)) h)) ;;
  emit (SpiSend data).

Definition SPI_I2S_ReceiveData : M Z :=
  v <- load (fun m => spi_miso (hw m) (Nat.pred (spi_count (hw m)))) ;;
  emit (SpiReceive v) ;;
  ret v.

Definition TIM_SetAutoreload (t : timer) (arr : Z) : M unit :=
  match t with
  | TIM5 => store (upd_hw (set_TIM5_ARR arr))
  | TIM11 => ret tt
  end ;;
  emit (TimSetAutoreload t arr).

Definition TIM_Cmd (t : timer) (enable : bool) : M unit :=
  emit (TimCmd t enable).

Definition ClearITPendingBit (l : irq_line) : M unit := emit (ClearPending l).

Definition debug_output_set (l : debug_led) : M unit :=
  emit (DebugOutput LedSet l).
Definition debug_output_clear (l : debug_led) : M unit :=
  emit (DebugOutput LedClear l).
Definition debug_output_toggle (l : debug_led) : M unit :=
  emit (DebugOutput LedToggle l).

Definition full_duplex_usart_dma_add_to_queue (p : packet) : M unit :=
  emit (UsartQueue p).

(** ** TMC260.c

    Parameters of type [uint8_t] are the integers [0..255]; a value
    returned through a pointer is returned next to the status code. *)

Section Firmware.

Variable H : tmc260_header.
Variable P : tilt_header.

Definition TMC260_init_gpio : M unit := emit GpioSetup.
Definition TMC260_init_spi : M unit := emit SpiSetup.

Definition TMC260_spi_write_byte (byte : Z) : M tmc260_retval :=
  SPI_poll_flag ;;
  SPI_I2S_SendData byte ;;
  ret TMC260_SUCCESS.

Definition TMC260_spi_write_read_byte (write_byte : Z)
  : M (tmc260_retval * Z) :=
  SPI_poll_flag ;;
  SPI_I2S_SendData write_byte ;;
  SPI_poll_flag ;;
  SPI_poll_flag ;;
  tmpval <- SPI_I2S_ReceiveData ;;
  ret (TMC260_SUCCESS, Z.land tmpval 0xFF).

(** The three bytes of a datagram, most significant first. *)
Definition datagram_bytes (datagram : Z) : Z * Z * Z :=
  let sdatagram := Cint.wrap_u32 (Z.shiftl datagram 8) in
  (Z.land (Z.shiftr sdatagram 24) 0xFF,
   Z.land (Z.shiftr sdatagram 16) 0xFF,
   Z.land (Z.shiftr sdatagram 8) 0xFF).

Definition TMC260_spi_write_datagram (datagram : Z) : M tmc260_retval :=
  let '(byte1, byte2, byte3) := datagram_bytes datagram in
  Delay (TMC260_SPI_DELAY_COUNT H) ;;
  GPIO_ResetBits GPIOC GPIO_Pin_13 ;;
  Delay (TMC260_SPI_DELAY_COUNT H) ;;
  _ <- TMC260_spi_write_byte byte1 ;;
  _ <- TMC260_spi_write_byte byte2 ;;
  _ <- TMC260_spi_write_byte byte3 ;;
  SPI_poll_flag ;;
  times 8 (Delay (TMC260_SPI_DELAY_COUNT H)) ;;
  GPIO_SetBits GPIOC GPIO_Pin_13 ;;
  times 8 (Delay (TMC260_SPI_DELAY_COUNT H)) ;;
  ret TMC260_SUCCESS.

(** The 20-bit reply assembled from the three bytes read. *)
Definition reply_of_bytes (rb1 rb2 rb3 : Z) : Z :=
  let t1 := Z.land rb1 0x000000FF in
  let t2 := Z.land rb2 0x000000FF in
  let t3 := Z.land rb3 0x000000FF in
  let rd := 0x00000000 in
  let rd := Z.lor rd (Z.land (Cint.wrap_u32 (Z.shiftl t1 24)) 0xFF000000) in
  let rd := Z.lor rd (Z.land (Cint.wrap_u32 (Z.shiftl t2 16)) 0x00FF0000) in
  let rd := Z.lor rd (Z.land (Cint.wrap_u32 (Z.shiftl t3 8)) 0x0000FF00) in
  Z.shiftr rd 12.

Definition TMC260_spi_read_write_datagram (write_datagram : Z)
  : M (tmc260_retval * Z) :=
  let '(byte1, byte2, byte3) := datagram_bytes write_datagram in
  Delay (TMC260_SPI_DELAY_COUNT H) ;;
  GPIO_ResetBits GPIOC GPIO_Pin_13 ;;
  Delay (TMC260_SPI_DELAY_COUNT H) ;;
  r1 <- TMC260_spi_write_read_byte byte1 ;;
  r2 <- TMC260_spi_write_read_byte byte2 ;;
  r3 <- TMC260_spi_write_read_byte byte3 ;;
  let read_datagram := reply_of_bytes (snd r1) (snd r2) (snd r3) in
  full_duplex_usart_dma_add_to_queue (UniversalByte (snd r1)) ;;
  full_duplex_usart_dma_add_to_queue (UniversalByte (snd r2)) ;;
  full_duplex_usart_dma_add_to_queue (UniversalByte (snd r3)) ;;
  SPI_poll_flag ;;
  times 8 (Delay (TMC260_SPI_DELAY_COUNT H)) ;;
  GPIO_SetBits GPIOC GPIO_Pin_13 ;;
  times 8 (Delay (TMC260_SPI_DELAY_COUNT H)) ;;
  ret (TMC260_SUCCESS, read_datagram).

(** The status structure filled from a reply [rd]. *)
Definition parse_status (status_type : tmc260_status_types) (rd : Z)
  : tmc260_status_struct :=
  {| status_type := status_type;
     position :=
       match status_type with
       | TMC260_STATUS_POSITION => unpack (TMC260_STATUS_MSTEP H) rd
       | _ => 0
       end;
     stall_guard :=
       match status_type with
       | TMC260_STATUS_POSITION => 0
       | TMC260_STATUS_STALLGUARD => unpack (TMC260_STATUS_STALLGUARD_FLD H) rd
       | TMC260_STATUS_CURRENT => unpack (TMC260_STATUS_CUR_SG H) rd
       end;
     current :=
       match status_type with
       | TMC260_STATUS_CURRENT => unpack (TMC260_STATUS_CUR_SE H) rd
       | _ => 0
       end;
     status_byte := Z.land rd 0xff;
     STST := unpack (TMC260_STATUS_STST H) rd;
     OLB := unpack (TMC260_STATUS_OLB H) rd;
     OLA := unpack (TMC260_STATUS_OLA H) rd;
     S2GB := unpack (TMC260_STATUS_S2GB H) rd;
     S2GA := unpack (TMC260_STATUS_S2GA H) rd;
     OTPW := unpack (TMC260_STATUS_OTPW H) rd;
     OT := unpack (TMC260_STATUS_OT H) rd;
     SG := unpack (TMC260_STATUS_SG H) rd |}.

Definition TMC260_spi_read_status (status_type : tmc260_status_types)
  : M (tmc260_retval * tmc260_status_struct) :=
  v <- load (fun m => TMC260_DRVCONF_regval (tmc m)) ;;
  when (v =? 0x00000000)
    (store (upd_tmc (set_TMC260_DRVCONF_regval 0xEF000))) ;;
  store (upd_tmc (fun g => set_TMC260_DRVCONF_regval
    (Z.land (TMC260_DRVCONF_regval g)
            (Cint.not_u32 (mask (TMC260_DRVCONF_RDSEL H)))) g)) ;;
  store (upd_tmc (fun g => set_TMC260_DRVCONF_regval
    (Z.lor (TMC260_DRVCONF_regval g)
           (pack (TMC260_DRVCONF_RDSEL H) (status_code status_type))) g)) ;;
  v <- load (fun m => TMC260_DRVCONF_regval (tmc m)) ;;
  _ <- TMC260_spi_write_datagram v ;;
  v <- load (fun m => TMC260_DRVCONF_regval (tmc m)) ;;
  r <- TMC260_spi_read_write_datagram v ;;
  ret (TMC260_SUCCESS, parse_status status_type (snd r)).

Definition TMC260_send_drvctrl_sdoff (ph_a_dir ph_a_cur ph_b_dir ph_b_cur : Z)
  : M tmc260_retval :=
  if (1 <? ph_a_dir) || (1 <? ph_b_dir) then ret TMC260_ERROR_INVALID_INPUT
  else
    let regval := TMC260_DRVCTRL_SDOFF_INIT H in
    let regval := Z.lor regval (pack (TMC260_DRVCTRL_SDOFF_PHA_DIR H) ph_a_dir) in
    let regval := Z.lor regval (pack (TMC260_DRVCTRL_SDOFF_PHA_CUR H) ph_a_cur) in
    let regval := Z.lor regval (pack (TMC260_DRVCTRL_SDOFF_PHB_DIR H) ph_b_dir) in
    let regval := Z.lor regval (pack (TMC260_DRVCTRL_SDOFF_PHB_CUR H) ph_b_cur) in
    _ <- TMC260_spi_write_datagram regval ;;
    store (upd_tmc (set_TMC260_DRVCTRL_regval regval)) ;;
    ret TMC260_SUCCESS.

Definition TMC260_send_drvctrl_sdon (intpol dedge mres : Z) : M tmc260_retval :=
  if (1 <? intpol) || (1 <? dedge) then ret TMC260_ERROR_INVALID_INPUT
  else
    let regval := TMC260_DRVCTRL_SDON_INIT H in
    let regval := Z.lor regval (pack (TMC260_DRVCTRL_SDON_INTPOL H) intpol) in
    let regval := Z.lor regval (pack (TMC260_DRVCTRL_SDON_DEDGE H) dedge) in
    let regval := Z.lor regval (pack (TMC260_DRVCTRL_SDON_MRES H) mres) in
    _ <- TMC260_spi_write_datagram regval ;;
    store (upd_tmc (set_TMC260_DRVCTRL_regval regval)) ;;
    ret TMC260_SUCCESS.

(** The value [TMC260_send_chopconf] packs. *)
Definition chopconf_regval (tbl chm rndtf hdec hend hstrt toff : Z) : Z :=
  let regval := TMC260_CHOPCONF_INIT H in
  let regval := Z.lor regval (pack (TMC260_CHOPCONF_TBL H) tbl) in
  let regval := Z.lor regval (pack (TMC260_CHOPCONF_CHM H) chm) in
  let regval := Z.lor regval (pack (TMC260_CHOPCONF_RNDTF H) rndtf) in
  let regval := Z.lor regval (pack (TMC260_CHOPCONF_HDEC H) hdec) in
  let regval := Z.lor regval (pack (TMC260_CHOPCONF_HEND H) hend) in
  let regval := Z.lor regval (pack (TMC260_CHOPCONF_HSTRT H) hstrt) in
  let regval := Z.lor regval (pack (TMC260_CHOPCONF_TOFF H) toff) in
  regval.

Definition TMC260_send_chopconf (tbl chm rndtf hdec hend hstrt toff : Z)
  : M tmc260_retval :=
  let regval := chopconf_regval tbl chm rndtf hdec hend hstrt toff in
  _ <- TMC260_spi_write_datagram regval ;;
  store (upd_tmc (set_TMC260_CHOPCONF_regval regval)) ;;
  ret TMC260_SUCCESS.

(** The value [TMC260_send_smarten] packs. *)
Definition smarten_regval (seimin sedn semax seup semin : Z) : Z :=
  let regval := TMC260_SMARTEN_INIT H in
  let regval := Z.lor regval (pack (TMC260_SMARTEN_SEIMIN H) seimin) in
  let regval := Z.lor regval (pack (TMC260_SMARTEN_SEDN H) sedn) in
  let regval := Z.lor regval (pack (TMC260_SMARTEN_SEMAX H) semax) in
  let regval := Z.lor regval (pack (TMC260_SMARTEN_SEUP H) seup) in
  let regval := Z.lor regval (pack (TMC260_SMARTEN_SEMIN H) semin) in
  regval.

Definition TMC260_send_smarten (seimin sedn semax seup semin : Z)
  : M tmc260_retval :=
  let regval := smarten_regval seimin sedn semax seup semin in
  _ <- TMC260_spi_write_datagram regval ;;
  store (upd_tmc (set_TMC260_SMARTEN_regval regval)) ;;
  ret TMC260_SUCCESS.

(** The value [TMC260_send_sgcsconf] packs. *)
Definition sgcsconf_regval (sfilt sgt cs : Z) : Z :=
  let regval := TMC260_SGCSCONF_INIT H in
  let regval := Z.lor regval (pack (TMC260_SGCSCONF_SFILT H) sfilt) in
  let regval := Z.lor regval (pack (TMC260_SGCSCONF_SGT H) sgt) in
  let regval := Z.lor regval (pack (TMC260_SGCSCONF_CS H) cs) in
  regval.

Definition TMC260_send_sgcsconf (sfilt sgt cs : Z) : M tmc260_retval :=
  let regval := sgcsconf_regval sfilt sgt cs in
  _ <- TMC260_spi_write_datagram regval ;;
  store (upd_tmc (set_TMC260_SGCSCONF_regval regval)) ;;
  ret TMC260_SUCCESS.

(** The value [TMC260_send_drvconf] packs. *)
Definition drvconf_regval (tst slph slpl diss2g ts2g sdoff vsense rdsel : Z) : Z :=
  let regval := TMC260_DRVCONF_INIT H in
  let regval := Z.lor regval (pack (TMC260_DRVCONF_TST H) tst) in
  let regval := Z.lor regval (pack (TMC260_DRVCONF_SLPH H) slph) in
  let regval := Z.lor regval (pack (TMC260_DRVCONF_SLPL H) slpl) in
  let regval := Z.lor regval (pack (TMC260_DRVCONF_DISS2G H) diss2g) in
  let regval := Z.lor regval (pack (TMC260_DRVCONF_TS2G H) ts2g) in
  let regval := Z.lor regval (pack (TMC260_DRVCONF_SDOFF H) sdoff) in
  let regval := Z.lor regval (pack (TMC260_DRVCONF_VSENSE H) vsense) in
  let regval := Z.lor regval (pack (TMC260_DRVCONF_RDSEL H) rdsel) in
  regval.

Definition TMC260_send_drvconf
  (tst slph slpl diss2g ts2g sdoff vsense rdsel : Z) : M tmc260_retval :=
  let regval := drvconf_regval tst slph slpl diss2g ts2g sdoff vsense rdsel in
  _ <- TMC260_spi_write_datagram regval ;;
  store (upd_tmc (set_TMC260_DRVCONF_regval regval)) ;;
  ret TMC260_SUCCESS.

Definition TMC260_init_config : M unit :=
  debug_output_set DEBUG_LED_RED ;;
  _ <- TMC260_send_drvconf 0x00 0x00 0x00 0x00 0x00 0x00 0x00 0x00 ;;
  _ <- TMC260_send_drvctrl_sdon 0x00 0x01 (MICROSTEP_CONFIG_64 H) ;;
  _ <- TMC260_send_chopconf 0x00 0x01 0x00 0x00 0x00 0x04 0x04 ;;
  _ <- TMC260_send_smarten 0x00 0x00 0x02 0x00 0x00 ;;
  _ <- TMC260_send_sgcsconf 0x01 0x3F 0x05 ;;
  debug_output_clear DEBUG_LED_RED.

Definition TMC260_initialize : M unit :=
  TMC260_init_gpio ;;
  TMC260_init_spi ;;
  TMC260_init_config ;;
  store (upd_tmc (set_TMC260_initialized 1)).

Definition TMC260_enable : M unit :=
  when (TOS_100_DEV_BOARD H) (GPIO_ResetBits GPIOA GPIO_Pin_0).

Definition TMC260_disable : M unit :=
  when (TOS_100_DEV_BOARD H) (GPIO_SetBits GPIOA GPIO_Pin_0).

Definition TMC260_dir_CW : M unit := GPIO_ResetBits GPIOA GPIO_Pin_1.
Definition TMC260_dir_CCW : M unit := GPIO_SetBits GPIOA GPIO_Pin_1.

Definition TMC260_step : M unit :=
  l <- GPIO_ReadInputDataBit GPIOA GPIO_Pin_2 ;;
  if bit_eqb l Bit_SET then GPIO_ResetBits GPIOA GPIO_Pin_2
  else GPIO_SetBits GPIOA GPIO_Pin_2.

Definition TMC260_status (status_type : tmc260_status_types)
  (send_packet : Z) : M tmc260_status_struct :=
  r <- TMC260_spi_read_status status_type ;;
  let status := snd r in
  when (negb (send_packet =? 0))
    (full_duplex_usart_dma_add_to_queue
       (MotorTmc260RespStatus (position status) (stall_guard status)
          (current status) (status_byte status))) ;;
  ret status.

(** ** tilt_stepper_motor_control.c *)

Definition tilt_stepper_motor_state_change
  (new_state : tilt_stepper_states) (reset_timer : Z) : M unit :=
  when (negb (reset_timer =? 0)) (store (upd_tilt (set_ts_state_timer 0))) ;;
  store (upd_tilt (set_ts_state new_state)).

(** The expression [tilt_stepper_motor_step] assigns to [current_pos_rad]. *)
Definition pos_of_steps (steps : Z) : F32.float :=
  F32.mul
    (F32.mul
       (F32.div (F32.of_Z steps) (F32.of_Z (micro_steps_per_rev P)))
       (F32.div (stepper_gear_ratio_den P) (stepper_gear_ratio_num P)))
    (TILT_STEPPER_TWO_PI P).

(** The expression [EXTI1_IRQHandler] assigns to [steps_from_home] on the
    far side of the flag. *)
Definition steps_of_pos (pos : F32.float) : Z :=
  F32.to_int32
    (F32.div
       (F32.mul (F32.mul pos (F32.of_Z (micro_steps_per_rev P)))
          (stepper_gear_ratio_num P))
       (F32.mul (stepper_gear_ratio_den P) (TILT_STEPPER_TWO_PI P))).

Definition tilt_stepper_motor_set_CW : M unit :=
  store (upd_tilt (set_current_step_dir TILT_STEPPER_DIR_CW)) ;;
  TMC260_dir_CW.

Definition tilt_stepper_motor_set_CCW : M unit :=
  store (upd_tilt (set_current_step_dir TILT_STEPPER_DIR_CCW)) ;;
  TMC260_dir_CCW.

Definition tilt_stepper_motor_step : M unit :=
  d <- load (fun m => current_step_dir (tilt m)) ;;
  when (dir_eqb d TILT_STEPPER_DIR_CW)
    (store (upd_tilt (fun g =>
       set_steps_from_home (Cint.wrap_s32 (steps_from_home g + 1)) g))) ;;
  d <- load (fun m => current_step_dir (tilt m)) ;;
  when (dir_eqb d TILT_STEPPER_DIR_CCW)
    (store (upd_tilt (fun g =>
       set_steps_from_home (Cint.wrap_s32 (steps_from_home g - 1)) g))) ;;
  store (upd_tilt (fun g =>
    set_current_pos_rad (pos_of_steps (steps_from_home g)) g)) ;;
  TMC260_enable ;;
  TMC260_step.

Definition tilt_stepper_motor_pos : M F32.float :=
  load (fun m => current_pos_rad (tilt m)).

(** The far-side branch of the home handler. *)
Definition home_far_side (led : debug_led) : M unit :=
  store (upd_tilt (set_current_pos_rad (F32.lit 314 100))) ;;
  store (upd_tilt (fun g =>
    set_steps_from_home (steps_of_pos (current_pos_rad g)) g)) ;;
  debug_output_clear led.

(** The crossing branch of the home handler. *)
Definition home_crossed (led : debug_led) : M unit :=
  store (upd_tilt (set_current_pos_rad F32.zero)) ;;
  store (upd_tilt (set_steps_from_home 0)) ;;
  debug_output_set led.

(** [pending] is the answer of [EXTI_GetITStatus(EXTI_Line1) != RESET]. *)
Definition EXTI1_IRQHandler (pending : bool) : M unit :=
  when pending (
    l <- GPIO_ReadInputDataBit GPIOC GPIO_Pin_1 ;;
    (if bit_eqb l Bit_SET then
       d <- load (fun m => current_step_dir (tilt m)) ;;
       if dir_eqb d TILT_STEPPER_DIR_CW then home_crossed DEBUG_LED_RED
       else home_far_side DEBUG_LED_RED
     else
       d <- load (fun m => current_step_dir (tilt m)) ;;
       if dir_eqb d TILT_STEPPER_DIR_CW then home_far_side DEBUG_LED_ORANGE
       else home_crossed DEBUG_LED_ORANGE) ;;
    s <- load (fun m => steps_from_home (tilt m)) ;;
    st <- load (fun m => ts_state (tilt m)) ;;
    when ((s =? 0) && state_eqb st TILT_STEPPER_HOME) (
      store (upd_tilt (set_last_dir 1)) ;;
      tilt_stepper_motor_state_change TILT_STEPPER_TEST_DELAY 1) ;;
    ClearITPendingBit IT_EXTI_Line1).

(** [stepper_profile[index]]; the access is recorded, and an index past the
    table, which C leaves undefined, reads 0. *)
Definition read_profile (index : Z) : M Z :=
  emit (ProfileRead index) ;;
  ret (nth (Z.to_nat index) (stepper_profile P) 0).

(** [pending] is the answer of [TIM_GetITStatus(TIM5, TIM_IT_Update) != RESET]. *)
Definition TIM5_IRQHandler (pending : bool) : M unit :=
  when pending (
    debug_output_toggle DEBUG_LED_GREEN ;;
    st <- load (fun m => ts_state (tilt m)) ;;
    when (state_eqb st TILT_STEPPER_TEST_CW || state_eqb st TILT_STEPPER_TEST_CCW)
      tilt_stepper_motor_step ;;
    st <- load (fun m => ts_state (tilt m)) ;;
    when (state_eqb st TILT_STEPPER_HOME) tilt_stepper_motor_step ;;
    st <- load (fun m => ts_state (tilt m)) ;;
    when (state_eqb st TILT_STEPPER_TILT_TABLE) (
      store (upd_tilt (fun g =>
        set_tilt_index (Cint.wrap_u32 (tilt_index g + 1)) g)) ;;
      i <- load (fun m => tilt_index (tilt m)) ;;
      go <- (if i <? tilt_elements P
             then (v <- read_profile i ;; ret (0 <? v))
             else ret false) ;;
      if go then
        tilt_stepper_motor_step ;;
        i <- load (fun m => tilt_index (tilt m)) ;;
        v <- read_profile i ;;
        TIM_SetAutoreload TIM5 v
      else
        tilt_stepper_motor_state_change TILT_STEPPER_TILT_TABLE 1) ;;
    ClearITPendingBit IT_TIM5_Update).

(** [(SystemCoreClock / (hz * 2 * (pscale + 1))) - 1] *)
Definition step_period (hz pscale : Z) : Z :=
  Cint.wrap_u32
    (SystemCoreClock P / Cint.wrap_u32 (hz * 2 * (pscale + 1)) - 1).

Definition program_default_cadence : M unit :=
  ps <- load (fun m => pscale (tilt m)) ;;
  store (upd_tilt (set_TimerPeriod (step_period (DEFAULT_STEP_FREQ_HZ P) ps))) ;;
  tp <- load (fun m => TimerPeriod (tilt m)) ;;
  TIM_SetAutoreload TIM5 tp.

(** [pending] is the answer of [TIM_GetITStatus(TIM11, TIM_IT_Update) != RESET]. *)
Definition TIM1_TRG_COM_TIM11_IRQHandler (pending : bool) : M unit :=
  when pending (
    debug_output_toggle DEBUG_LED_BLUE ;;
    store (upd_tilt (fun g =>
      set_ts_state_timer (Cint.wrap_u32 (ts_state_timer g + 1)) g)) ;;
    t <- load (fun m => ts_state_timer (tilt m)) ;;
    when (t mod 25 =? 0) (
      a <- load (fun m => tilt_stepper_motor_send_angle (tilt m)) ;;
      when (a =? 0) (store (upd_tilt (set_tilt_stepper_motor_send_angle 1)))) ;;
    st <- load (fun m => ts_state (tilt m)) ;;
    when (negb (state_eqb st TILT_STEPPER_HOME)
          && negb (state_eqb st TILT_STEPPER_INITIALIZE)) (
      p <- load (fun m => current_pos_rad (tilt m)) ;;
      when (F32.gtb p (F32.lit 35 10))
        (tilt_stepper_motor_state_change TILT_STEPPER_HOME 1) ;;
      p <- load (fun m => current_pos_rad (tilt m)) ;;
      when (F32.ltb p (F32.lit (-5) 10))
        (tilt_stepper_motor_state_change TILT_STEPPER_HOME 1)) ;;
    st <- load (fun m => ts_state (tilt m)) ;;
    t <- load (fun m => ts_state_timer (tilt m)) ;;
    match st with
    | TILT_STEPPER_INITIALIZE =>
        TMC260_initialize ;;
        tilt_stepper_motor_state_change TILT_STEPPER_HOME 1
    | TILT_STEPPER_HOME =>
        when (t =? 1) (
          TIM_Cmd TIM5 false ;;
          ps <- load (fun m => pscale (tilt m)) ;;
          store (upd_tilt (set_TimerPeriod (step_period (HOME_STEP_FREQ_HZ P) ps))) ;;
          tp <- load (fun m => TimerPeriod (tilt m)) ;;
          TIM_SetAutoreload TIM5 tp ;;
          TIM_Cmd TIM5 true ;;
          s <- load (fun m => steps_from_home (tilt m)) ;;
          if s =? 0 then
            l <- GPIO_ReadInputDataBit GPIOC GPIO_Pin_1 ;;
            if bit_eqb l Bit_SET then tilt_stepper_motor_set_CCW
            else tilt_stepper_motor_set_CW
          else
            p <- load (fun m => current_pos_rad (tilt m)) ;;
            if F32.gtb p F32.zero then tilt_stepper_motor_set_CCW
            else tilt_stepper_motor_set_CW)
    | TILT_STEPPER_TILT_TABLE =>
        when (t =? 1) (
          ld <- load (fun m => last_dir (tilt m)) ;;
          (if negb (ld =? 0) then
             store (upd_tilt (set_last_dir 0)) ;;
             tilt_stepper_motor_set_CW
           else
             store (upd_tilt (set_last_dir 1)) ;;
             tilt_stepper_motor_set_CCW) ;;
          store (upd_tilt (set_tilt_index 0)) ;;
          i <- load (fun m => tilt_index (tilt m)) ;;
          v <- read_profile i ;;
          TIM_SetAutoreload TIM5 v)
    | TILT_STEPPER_TEST_CW =>
        when (t =? 1) (
          program_default_cadence ;;
          tilt_stepper_motor_set_CW) ;;
        t <- load (fun m => ts_state_timer (tilt m)) ;;
        when (80000 <? t) (
          TMC260_disable ;;
          tilt_stepper_motor_state_change TILT_STEPPER_TEST_CCW 1)
    | TILT_STEPPER_TEST_CCW =>
        when (t =? 1) (
          program_default_cadence ;;
          tilt_stepper_motor_set_CCW) ;;
        t <- load (fun m => ts_state_timer (tilt m)) ;;
        when (80000 <? t) (
          TMC260_disable ;;
          tilt_stepper_motor_state_change TILT_STEPPER_TEST_CW 1)
    | TILT_STEPPER_TEST_DELAY =>
        when (t =? 1) (
          s <- TMC260_status TMC260_STATUS_POSITION 1 ;;
          store (upd_tilt (set_stat_struct s))) ;;
        t <- load (fun m => ts_state_timer (tilt m)) ;;
        when (200 <? t)
          (tilt_stepper_motor_state_change TILT_STEPPER_TILT_TABLE 1)
    | TILT_STEPPER_ERROR => ret tt
    end ;;
    ClearITPendingBit IT_TIM11_Update).

End Firmware.

(** ** The machine after reset

    The initialisers of the file-scope variables, with the cadence
    [tilt_stepper_motor_init_step_timer] computes, all pins low except the
    one the caller drives, and the driver chip answering [miso]. *)

Definition zero_status : tmc260_status_struct :=
  {| status_type := TMC260_STATUS_POSITION; position := 0; stall_guard := 0;
     current := 0; status_byte := 0; STST := 0; OLB := 0; OLA := 0;
     S2GB := 0; S2GA := 0; OTPW := 0; OT := 0; SG := 0 |}.

Definition power_on (P : tilt_header) (miso : nat -> Z) : machine :=
  {| tilt :=
       {| ts_state_timer := 0; ts_state := TILT_STEPPER_INITIALIZE;
          stat_struct := zero_status; last_dir := 0; tilt_index := 0;
          steps_from_home := 0;
          current_step_dir := TILT_STEPPER_DIR_STOPPED;
          current_pos_rad := F32.zero;
          tilt_stepper_motor_send_angle := 0;
          TimerPeriod := step_period P (DEFAULT_STEP_FREQ_HZ P) 0;
          pscale := 0 |};
     tmc :=
       {| TMC260_initialized := 0; TMC260_DRVCTRL_regval := 0;
          TMC260_CHOPCONF_regval := 0; TMC260_SMARTEN_regval := 0;
          TMC260_SGCSCONF_regval := 0; TMC260_DRVCONF_regval := 0 |};
     hw :=
       {| pins := fun _ _ => Bit_RESET;
          TIM5_ARR := step_period P (DEFAULT_STEP_FREQ_HZ P) 0;
          spi_miso := miso; spi_count := O; trace := [] |} |}.

(** The home flag moves: the level of PC1 changes. *)
Definition sensor_level (l : BitAction) (m : machine) : machine :=
  upd_hw (fun h =>
    set_pins (fun p pin =>
      if port_eqb p GPIOC && (pin =? GPIO_Pin_1) then l else pins h p pin) h) m.

(** The comment of [TMC260_init_gpio] on the home input: covered is low,
    uncovered is high. *)
Definition covered : BitAction := Bit_RESET.
Definition uncovered : BitAction := Bit_SET.

(** ** A concrete board

    The register layout of the TMC260 data sheet, whose base patterns the
    literals left in the comments of [TMC260.c] carry ([0x94557],
    [0xA8202], [0xD001F], [0xEF000]), and a tilt axis of 200 full steps at
    the 64 microsteps [TMC260_init_config] selects, geared 1:1, sweeping
    with the five-entry profile of the design document.  They instantiate
    the header parameters wherever a statement is evaluated. *)

Definition bits (hi lo : Z) : field :=
  {| shift := lo; mask := Z.shiftl (Z.ones (hi - lo + 1)) lo |}.

Definition datasheet_header : tmc260_header :=
  {| TMC260_SPI_DELAY_COUNT := 1;
     MICROSTEP_CONFIG_64 := 2;
     TOS_100_DEV_BOARD := false;
     TMC260_DRVCTRL_SDOFF_INIT := 0x00000;
     TMC260_DRVCTRL_SDOFF_PHA_DIR := bits 17 17;
     TMC260_DRVCTRL_SDOFF_PHA_CUR := bits 16 9;
     TMC260_DRVCTRL_SDOFF_PHB_DIR := bits 8 8;
     TMC260_DRVCTRL_SDOFF_PHB_CUR := bits 7 0;
     TMC260_DRVCTRL_SDON_INIT := 0x00000;
     TMC260_DRVCTRL_SDON_INTPOL := bits 9 9;
     TMC260_DRVCTRL_SDON_DEDGE := bits 8 8;
     TMC260_DRVCTRL_SDON_MRES := bits 3 0;
     TMC260_CHOPCONF_INIT := 0x80000;
     TMC260_CHOPCONF_TBL := bits 16 15;
     TMC260_CHOPCONF_CHM := bits 14 14;
     TMC260_CHOPCONF_RNDTF := bits 13 13;
     TMC260_CHOPCONF_HDEC := bits 12 11;
     TMC260_CHOPCONF_HEND := bits 10 7;
     TMC260_CHOPCONF_HSTRT := bits 6 4;
     TMC260_CHOPCONF_TOFF := bits 3 0;
     TMC260_SMARTEN_INIT := 0xA0000;
     TMC260_SMARTEN_SEIMIN := bits 15 15;
     TMC260_SMARTEN_SEDN := bits 14 13;
     TMC260_SMARTEN_SEMAX := bits 11 8;
     TMC260_SMARTEN_SEUP := bits 6 5;
     TMC260_SMARTEN_SEMIN := bits 3 0;
     TMC260_SGCSCONF_INIT := 0xC0000;
     TMC260_SGCSCONF_SFILT := bits 16 16;
     TMC260_SGCSCONF_SGT := bits 14 8;
     TMC260_SGCSCONF_CS := bits 4 0;
     TMC260_DRVCONF_INIT := 0xE0000;
     TMC260_DRVCONF_TST := bits 16 16;
     TMC260_DRVCONF_SLPH := bits 15 14;
     TMC260_DRVCONF_SLPL := bits 13 12;
     TMC260_DRVCONF_DISS2G := bits 10 10;
     TMC260_DRVCONF_TS2G := bits 9 8;
     TMC260_DRVCONF_SDOFF := bits 7 7;
     TMC260_DRVCONF_VSENSE := bits 6 6;
     TMC260_DRVCONF_RDSEL := bits 5 4;
     TMC260_STATUS_STST := bits 7 7;
     TMC260_STATUS_OLB := bits 6 6;
     TMC260_STATUS_OLA := bits 5 5;
     TMC260_STATUS_S2GB := bits 4 4;
     TMC260_STATUS_S2GA := bits 3 3;
     TMC260_STATUS_OTPW := bits 2 2;
     TMC260_STATUS_OT := bits 1 1;
     TMC260_STATUS_SG := bits 0 0;
     TMC260_STATUS_MSTEP := bits 19 10;
     TMC260_STATUS_STALLGUARD_FLD := bits 19 10;
     TMC260_STATUS_CUR_SG := bits 19 15;
     TMC260_STATUS_CUR_SE := bits 14 10 |}.

(** [6.2831853f], the binary32 value nearest to two pi. *)
Definition two_pi_f : F32.float := S754_finite false 13176795 (-21).

Definition example_tilt : tilt_header :=
  {| SystemCoreClock := 168000000;
     DEFAULT_STEP_FREQ_HZ := 2000;
     HOME_STEP_FREQ_HZ := 500;
     TILT_STEPPER_TWO_PI := two_pi_f;
     micro_steps_per_rev := 12800;
     stepper_gear_ratio_num := F32.of_Z 1;
     stepper_gear_ratio_den := F32.of_Z 1;
     tilt_elements := 5;
     stepper_profile := [100; 80; 60; 80; 100] |}.

(** The driver chip answering the same byte on every transfer. *)
Definition miso_const (b : Z) : nat -> Z := fun _ => b.

(** Handlers run one after the other from a state. *)
Definition run (cs : list (machine -> machine)) (m : machine) : machine :=
  fold_left (fun m c => c m) cs m.

(** ** Vocabulary of the statements *)

Definition toggled (l : BitAction) : BitAction :=
  match l with Bit_SET => Bit_RESET | Bit_RESET => Bit_SET end.

(** The pairs of direction and sensor level on which the home handler
    zeroes the tracker. *)
Definition home_crossing (d : tilt_stepper_dirs) (l : BitAction) : bool :=
  (dir_eqb d TILT_STEPPER_DIR_CW && bit_eqb l uncovered)
  || (negb (dir_eqb d TILT_STEPPER_DIR_CW) && bit_eqb l covered).

(** The pairs the design document names as the genuine crossing. *)
Definition documented_crossing (d : tilt_stepper_dirs) (l : BitAction) : bool :=
  (dir_eqb d TILT_STEPPER_DIR_CW && bit_eqb l covered)
  || (dir_eqb d TILT_STEPPER_DIR_CCW && bit_eqb l uncovered).

(** The writers of the position tracker and of the direction it reads. *)
Inductive tracker_op : Type :=
| Advance
| HomeEdge (level : BitAction)
| Command (d : tilt_stepper_dirs).

Definition apply_op (H : tmc260_header) (P : tilt_header)
  (o : tracker_op) (m : machine) : machine :=
  match o with
  | Advance => exec (tilt_stepper_motor_step H P) m
  | HomeEdge l => exec (EXTI1_IRQHandler P true) (sensor_level l m)
  | Command TILT_STEPPER_DIR_CW => exec tilt_stepper_motor_set_CW m
  | Command TILT_STEPPER_DIR_CCW => exec tilt_stepper_motor_set_CCW m
  | Command TILT_STEPPER_DIR_STOPPED => m
  end.

Definition apply_ops (H : tmc260_header) (P : tilt_header)
  (ops : list tracker_op) (m : machine) : machine :=
  fold_left (fun m o => apply_op H P o m) ops m.

(** The events a computation adds to the trace. *)
Definition adds (new : list event) (m m' : machine) : Prop :=
  trace (hw m') = new ++ trace (hw m).

(** A machine with the tracker, or the phase, set as given. *)
Definition with_tracker (d : tilt_stepper_dirs) (steps : Z) (pos : F32.float)
  (m : machine) : machine :=
  upd_tilt (fun g =>
    set_current_step_dir d
      (set_steps_from_home steps (set_current_pos_rad pos g))) m.

Definition in_phase (st : tilt_stepper_states) (timer : Z) (m : machine)
  : machine :=
  upd_tilt (fun g => set_ts_state st (set_ts_state_timer timer g)) m.

Definition at_index (i : Z) (m : machine) : machine :=
  upd_tilt (set_tilt_index i) m.

(** The example board after reset. *)
Definition board : machine := power_on example_tilt (miso_const 0).

(** The events of a datagram on the bus, in the order they happen: written
    without reading the reply, and written while reading the three reply
    bytes. *)
Definition spi_write_frame (v : Z) : list event :=
  let '(b1, b2, b3) := datagram_bytes v in
  [GpioWrite GPIOC GPIO_Pin_13 Bit_RESET; SpiSend b1; SpiSend b2; SpiSend b3;
   GpioWrite GPIOC GPIO_Pin_13 Bit_SET].

Definition spi_exchange_frame (v r1 r2 r3 : Z) : list event :=
  let '(b1, b2, b3) := datagram_bytes v in
  [GpioWrite GPIOC GPIO_Pin_13 Bit_RESET;
   SpiSend b1; SpiReceive r1; SpiSend b2; SpiReceive r2;
   SpiSend b3; SpiReceive r3;
   GpioWrite GPIOC GPIO_Pin_13 Bit_SET].

(** The DRVCONF value a status request leaves in the shadow [old]. *)
Definition rdsel_update (H : tmc260_header) (k : tmc260_status_types)
  (old : Z) : Z :=
  Z.lor (Z.land (if old =? 0 then 0xEF000 else old)
           (Cint.not_u32 (mask (TMC260_DRVCONF_RDSEL H))))
    (pack (TMC260_DRVCONF_RDSEL H) (status_code k)).

(** ** Vocabulary of the further properties *)

(** A register value built as the writers build it: the base pattern with
    each field or-ed in, in order. *)
Definition pack_fields (init : Z) (fvs : list (field * Z)) : Z :=
  fold_left (fun regval fv => Z.lor regval (pack (fst fv) (snd fv))) fvs init.

(** A register layout in which no two fields share a bit and the base
    pattern lies outside every field. *)
Definition layout_ok (init : Z) (fs : list field) : Prop :=
  Forall (fun f => Z.land init (mask f) = 0) fs
  /\ ForallOrdPairs (fun f g => Z.land (mask f) (mask g) = 0) fs.

(** The values fit their fields. *)
Definition values_fit (fvs : list (field * Z)) : Prop :=
  Forall (fun fv => exceeds_width (fst fv) (snd fv) = false) fvs.

(** Decoding every field gives back its value. *)
Definition decodes_to (regval : Z) (fvs : list (field * Z)) : Prop :=
  Forall (fun fv => unpack (fst fv) regval = snd fv) fvs.

(** The fields of each register, in the order its writer packs them. *)
Definition drvctrl_sdoff_fields (H : tmc260_header) : list field :=
  [TMC260_DRVCTRL_SDOFF_PHA_DIR H; TMC260_DRVCTRL_SDOFF_PHA_CUR H;
   TMC260_DRVCTRL_SDOFF_PHB_DIR H; TMC260_DRVCTRL_SDOFF_PHB_CUR H].

Definition drvctrl_sdon_fields (H : tmc260_header) : list field :=
  [TMC260_DRVCTRL_SDON_INTPOL H; TMC260_DRVCTRL_SDON_DEDGE H;
   TMC260_DRVCTRL_SDON_MRES H].

Definition chopconf_fields (H : tmc260_header) : list field :=
  [TMC260_CHOPCONF_TBL H; TMC260_CHOPCONF_CHM H; TMC260_CHOPCONF_RNDTF H;
   TMC260_CHOPCONF_HDEC H; TMC260_CHOPCONF_HEND H; TMC260_CHOPCONF_HSTRT H;
   TMC260_CHOPCONF_TOFF H].

Definition smarten_fields (H : tmc260_header) : list field :=
  [TMC260_SMARTEN_SEIMIN H; TMC260_SMARTEN_SEDN H; TMC260_SMARTEN_SEMAX H;
   TMC260_SMARTEN_SEUP H; TMC260_SMARTEN_SEMIN H].

Definition sgcsconf_fields (H : tmc260_header) : list field :=
  [TMC260_SGCSCONF_SFILT H; TMC260_SGCSCONF_SGT H; TMC260_SGCSCONF_CS H].

Definition drvconf_fields (H : tmc260_header) : list field :=
  [TMC260_DRVCONF_TST H; TMC260_DRVCONF_SLPH H; TMC260_DRVCONF_SLPL H;
   TMC260_DRVCONF_DISS2G H; TMC260_DRVCONF_TS2G H; TMC260_DRVCONF_SDOFF H;
   TMC260_DRVCONF_VSENSE H; TMC260_DRVCONF_RDSEL H].

(** Every base pattern and every mask of the header lies below [2^20], the
    width of a datagram. *)
Definition header_20_bits (H : tmc260_header) : Prop :=
  Forall (fun init => 0 <= init < 2 ^ 20)
    [TMC260_DRVCTRL_SDOFF_INIT H; TMC260_DRVCTRL_SDON_INIT H;
     TMC260_CHOPCONF_INIT H; TMC260_SMARTEN_INIT H; TMC260_SGCSCONF_INIT H;
     TMC260_DRVCONF_INIT H]
  /\ Forall (fun f => 0 <= mask f < 2 ^ 20)
       (drvctrl_sdoff_fields H ++ drvctrl_sdon_fields H ++ chopconf_fields H
        ++ smarten_fields H ++ sgcsconf_fields H ++ drvconf_fields H).

(** The interrupts of the subsystem, each entered with its flag pending;
    the sensor edge brings the level the home input has after it.  A
    handler runs to its end before the next one starts. *)
Inductive irq : Type :=
| StateTick
| StepTick
| SensorEdge (level : BitAction).

Definition fire (H : tmc260_header) (P : tilt_header) (i : irq)
  (m : machine) : machine :=
  match i with
  | StateTick => exec (TIM1_TRG_COM_TIM11_IRQHandler H P true) m
  | StepTick => exec (TIM5_IRQHandler H P true) m
  | SensorEdge l => exec (EXTI1_IRQHandler P true) (sensor_level l m)
  end.

Definition fire_all (H : tmc260_header) (P : tilt_header) (irqs : list irq)
  (m : machine) : machine :=
  fold_left (fun m i => fire H P i m) irqs m.

(** The phases of the normal flow. *)
Definition normal_phase (st : tilt_stepper_states) : bool :=
  match st with
  | TILT_STEPPER_INITIALIZE | TILT_STEPPER_HOME
  | TILT_STEPPER_TILT_TABLE | TILT_STEPPER_TEST_DELAY => true
  | _ => false
  end.

(** A write of the step line. *)
Definition is_step_pulse (e : event) : bool :=
  match e with GpioWrite GPIOA 0x0004 _ => true | _ => false end.

(** The direction line carries the commanded direction: low for CW, high
    for CCW. *)
Definition dir_line_agrees (m : machine) : Prop :=
  match current_step_dir (tilt m) with
  | TILT_STEPPER_DIR_CW => pins (hw m) GPIOA GPIO_Pin_1 = Bit_RESET
  | TILT_STEPPER_DIR_CCW => pins (hw m) GPIOA GPIO_Pin_1 = Bit_SET
  | TILT_STEPPER_DIR_STOPPED => True
  end.

(** What holds of the machine whenever no handler is running. *)
Definition sane (m : machine) : Prop :=
  normal_phase (ts_state (tilt m)) = true
  /\ dir_line_agrees m
  /\ (TMC260_initialized (tmc m) = 1
      \/ existsb is_step_pulse (trace (hw m)) = false)
  /\ (ts_state (tilt m) <> TILT_STEPPER_INITIALIZE ->
      TMC260_initialized (tmc m) = 1
      /\ pins (hw m) GPIOC GPIO_Pin_13 = Bit_SET).

(** The phase changes of the subsystem: from phase [a], the phases a
    handler may leave behind. *)
Definition may_follow (i : irq) (a b : tilt_stepper_states) : bool :=
  match i with
  | StepTick => state_eqb a b
  | SensorEdge _ =>
      state_eqb a b
      || (state_eqb a TILT_STEPPER_HOME
          && state_eqb b TILT_STEPPER_TEST_DELAY)
  | StateTick =>
      match a with
      | TILT_STEPPER_INITIALIZE => state_eqb b TILT_STEPPER_HOME
      | TILT_STEPPER_HOME => state_eqb b TILT_STEPPER_HOME
      | TILT_STEPPER_TILT_TABLE =>
          state_eqb b TILT_STEPPER_TILT_TABLE
          || state_eqb b TILT_STEPPER_HOME
      | TILT_STEPPER_TEST_CW =>
          state_eqb b TILT_STEPPER_TEST_CW
          || state_eqb b TILT_STEPPER_TEST_CCW
          || state_eqb b TILT_STEPPER_HOME
      | TILT_STEPPER_TEST_CCW =>
          state_eqb b TILT_STEPPER_TEST_CCW
          || state_eqb b TILT_STEPPER_TEST_CW
          || state_eqb b TILT_STEPPER_HOME
      | TILT_STEPPER_TEST_DELAY =>
          state_eqb b TILT_STEPPER_TEST_DELAY
          || state_eqb b TILT_STEPPER_TILT_TABLE
          || state_eqb b TILT_STEPPER_HOME
      | TILT_STEPPER_ERROR =>
          state_eqb b TILT_STEPPER_ERROR
          || state_eqb b TILT_STEPPER_HOME
      end
  end.

(** A timer tick, as against a sensor edge. *)
Definition is_tick (i : irq) : bool :=
  match i with StateTick | StepTick => true | SensorEdge _ => false end.

Definition is_state_tick (i : irq) : bool :=
  match i with StateTick => true | _ => false end.


(** The position is within the bounds of the over-rotation guard. *)
Definition within_guard (p : F32.float) : Prop :=
  F32.gtb p (F32.lit 35 10) = false /\ F32.ltb p (F32.lit (-5) 10) = false.

(** The step count after one step in direction [d]; the change of the
    count as long as it stays within [int32_t]. *)
Definition stepped (d : tilt_stepper_dirs) (s : Z) : Z :=
  match d with
  | TILT_STEPPER_DIR_CW => Cint.wrap_s32 (s + 1)
  | TILT_STEPPER_DIR_CCW => Cint.wrap_s32 (s - 1)
  | TILT_STEPPER_DIR_STOPPED => s
  end.

Definition step_delta (d : tilt_stepper_dirs) : Z :=
  match d with
  | TILT_STEPPER_DIR_CW => 1
  | TILT_STEPPER_DIR_CCW => -1
  | TILT_STEPPER_DIR_STOPPED => 0
  end.

(** The entries of a profile a sweep steps on: those after the first, up
    to the first that is not positive. *)
Fixpoint leading_positive (l : list Z) : nat :=
  match l with
  | v :: l' => if 0 <? v then S (leading_positive l') else O
  | [] => O
  end.

Definition sweep_steps (P : tilt_header) : nat :=
  leading_positive (tl (stepper_profile P)).

(** The direction a sweep takes, from the flag [last_dir] it finds. *)
Definition sweep_dir (last_dir : Z) : tilt_stepper_dirs :=
  if last_dir =? 0 then TILT_STEPPER_DIR_CCW else TILT_STEPPER_DIR_CW.

(** The state-machine ticks among a sequence of interrupts. *)
Definition state_ticks (irqs : list irq) : Z :=
  Z.of_nat (length (filter is_state_tick irqs)).

(** The interrupts of one sweep with nothing in between: the tick of the
    state machine that enters it, a step tick for each entry stepped on
    and the step tick that finds the end of the profile. *)
Definition sweep_irqs (P : tilt_header) : list irq :=
  StateTick :: repeat StepTick (S (sweep_steps P)).

(** The interrupts that leave the SPI bus and the register shadows alone:
    all but the state-machine tick that runs bring-up (in [Initialize])
    and the one that requests the status (the first tick of the delay). *)
Definition bus_idle (i : irq) (m : machine) : bool :=
  match i with
  | StateTick =>
      match ts_state (tilt m) with
      | TILT_STEPPER_INITIALIZE => false
      | TILT_STEPPER_TEST_DELAY =>
          negb (Cint.wrap_u32 (ts_state_timer (tilt m) + 1) =? 1)
      | _ => true
      end
  | _ => true
  end.

(** The value [TMC260_send_drvctrl_sdon] packs. *)
Definition drvctrl_sdon_regval (H : tmc260_header) (intpol dedge mres : Z)
  : Z :=
  let regval := TMC260_DRVCTRL_SDON_INIT H in
  let regval := Z.lor regval (pack (TMC260_DRVCTRL_SDON_INTPOL H) intpol) in
  let regval := Z.lor regval (pack (TMC260_DRVCTRL_SDON_DEDGE H) dedge) in
  let regval := Z.lor regval (pack (TMC260_DRVCTRL_SDON_MRES H) mres) in
  regval.

(** The datagrams [TMC260_init_config] writes, in its order: DRVCONF,
    DRVCTRL, CHOPCONF, SMARTEN, SGCSCONF. *)
Definition init_config_datagrams (H : tmc260_header) : list Z :=
  [drvconf_regval H 0x00 0x00 0x00 0x00 0x00 0x00 0x00 0x00;
   drvctrl_sdon_regval H 0x00 0x01 (MICROSTEP_CONFIG_64 H);
   chopconf_regval H 0x00 0x01 0x00 0x00 0x00 0x04 0x04;
   smarten_regval H 0x00 0x00 0x02 0x00 0x00;
   sgcsconf_regval H 0x01 0x3F 0x05].

(** The four configuration registers hold what bring-up wrote. *)
Definition configured (H : tmc260_header) (m : machine) : Prop :=
  TMC260_DRVCTRL_regval (tmc m)
  = drvctrl_sdon_regval H 0x00 0x01 (MICROSTEP_CONFIG_64 H)
  /\ TMC260_CHOPCONF_regval (tmc m)
     = chopconf_regval H 0x00 0x01 0x00 0x00 0x00 0x04 0x04
  /\ TMC260_SMARTEN_regval (tmc m) = smarten_regval H 0x00 0x00 0x02 0x00 0x00
  /\ TMC260_SGCSCONF_regval (tmc m) = sgcsconf_regval H 0x01 0x3F 0x05.

(** [TMC260_send_default_regs]; nothing calls it. *)
Definition TMC260_send_default_regs (H : tmc260_header) : M tmc260_retval :=
  _ <- TMC260_spi_write_datagram H 0x00000 ;;
  _ <- TMC260_spi_write_datagram H 0x90131 ;;
  _ <- TMC260_spi_write_datagram H 0xA0000 ;;
  _ <- TMC260_spi_write_datagram H 0xD0505 ;;
  _ <- TMC260_spi_write_datagram H 0xEF440 ;;
  ret TMC260_SUCCESS.

(** * lepton_functions.c

    [lepton_transfer] reads one image of the thermal camera over VoSPI, 60
    frames of 164 bytes, and queues the frames.  The camera side is the
    sequence of bytes it shifts out.  The elements of [data] are taken to
    be [uint8_t], the type [spi_read_byte] returns.  The local array
    [frame], which C leaves uninitialised, starts with whatever the
    caller's [camera] holds.  [create_thermal_lepton_frame] and the three
    queue calls that go with it are declared elsewhere: together they
    appear as one event carrying the row they are given. *)

Module Lepton.

Definition VOSPI_NUM_FRAMES_IN_IMAGE : Z := 60.
Definition VOSPI_FRAME_SIZE : Z := 164.

Inductive event : Type :=
| LedOrange (level : BitAction)
| SpiCs (enable : bool)
| FrameStore (ii : Z)
| BlockingWait (delay_ms : Z)
| VospiWrite (data : list Z).

(** [rx n] is the [n]-th byte the camera shifts out; [frame ii] is
    [frame[ii].data]. *)
Record camera : Type := {
  rx : nat -> Z;
  rx_count : nat;
  frame : Z -> list Z;
  trace : list event
}.

Definition emit (e : event) (c : camera) : camera :=
  {| rx := rx c; rx_count := rx_count c; frame := frame c;
     trace := e :: trace c |}.

(** [uint8_t spi_read_byte(void)] *)
Definition spi_read_byte (c : camera) : Z * camera :=
  (Z.land (rx c (rx_count c)) 0xFF,
   {| rx := rx c; rx_count := S (rx_count c); frame := frame c;
      trace := trace c |}).

(** [for(jj=0; jj<VOSPI_FRAME_SIZE; jj++) frame[ii].data[jj] = spi_read_byte();]
    The bytes read, in order, and the row they fill; the store is recorded
    with the index of the row. *)
Fixpoint read_bytes (n : nat) (c : camera) : list Z * camera :=
  match n with
  | O => ([], c)
  | S n' =>
      let '(b, c) := spi_read_byte c in
      let '(bs, c) := read_bytes n' c in
      (b :: bs, c)
  end.

Definition fill_frame (ii : Z) (c : camera) : camera :=
  let '(data, c) := read_bytes (Z.to_nat VOSPI_FRAME_SIZE) c in
  {| rx := rx c; rx_count := rx_count c;
     frame := fun i => if i =? ii then data else frame c i;
     trace := FrameStore ii :: trace c |}.

(** The state of the acquisition loop: at its exit ([finished]) or at the
    head of an iteration that was not run. *)
Record run : Type := {
  finished : bool;
  index : Z;
  resets : Z;
  cam : camera
}.

(** The first loop of [lepton_transfer], from the test [ii < 60], for at
    most [fuel] iterations. *)
Fixpoint acquire (fuel : nat) (ii resets : Z) (c : camera) : run :=
  if ii <? VOSPI_NUM_FRAMES_IN_IMAGE then
    match fuel with
    | O => {| finished := false; index := ii; resets := resets; cam := c |}
    | S fuel' =>
        let c := fill_frame ii c in
        let '(ii, resets, c) :=
          if Z.land (nth 0 (frame c ii) 0) 0x0F =? 0x0F
          then (ii - 1, resets, c)
          else
            let last_frame_number := nth 1 (frame c ii) 0 in
            if negb (last_frame_number =? ii)
            then (-1, resets + 1, emit (BlockingWait 1) c)
            else (ii, resets, c) in
        let ii :=
          if resets =? 750 then VOSPI_NUM_FRAMES_IN_IMAGE + 1 else ii in
        acquire fuel' (ii + 1) resets c
    end
  else {| finished := true; index := ii; resets := resets; cam := c |}.

(** The second loop: every row of [frame] is packed and queued. *)
Definition upload (c : camera) : camera :=
  fold_left (fun c ii => emit (VospiWrite (frame c ii)) c)
    (map Z.of_nat (seq 0 (Z.to_nat VOSPI_NUM_FRAMES_IN_IMAGE))) c.

(** [lepton_transfer], when its first loop ends within [fuel] frames. *)
Definition lepton_transfer (fuel : nat) (c : camera) : option camera :=
  let c := emit (LedOrange Bit_SET) c in
  let c := emit (SpiCs true) c in
  let r := acquire fuel 0 0 c in
  if finished r then
    let c := emit (SpiCs false) (cam r) in
    let c := upload c in
    Some (emit (LedOrange Bit_RESET) c)
  else None.

(** ** Vocabulary *)

(** The [n]-th frame the camera sends from where [c] stands. *)
Definition stream_frame (c : camera) (n : nat) : list Z :=
  map (fun j => Z.land (rx c (rx_count c + 164 * n + j)) 0xFF) (seq 0 164).

(** A discard frame, and the number a frame carries. *)
Definition is_discard (data : list Z) : bool :=
  Z.land (nth 0 data 0) 0x0F =? 0x0F.

Definition frame_number (data : list Z) : Z := nth 1 data 0.

Definition kept (fs : list (list Z)) : list (list Z) :=
  filter (fun f => negb (is_discard f)) fs.

(** The camera sends the frames [fs] next. *)
Definition sends (c : camera) (fs : list (list Z)) : Prop :=
  forall n : nat, (n < length fs)%nat -> stream_frame c n = nth n fs [].

(** The rows queued, oldest first, and the waits made. *)
Definition uploaded (t : list event) : list (list Z) :=
  rev (flat_map (fun e => match e with VospiWrite d => [d] | _ => [] end) t).

Definition waits (t : list event) : nat :=
  length (filter (fun e => match e with BlockingWait _ => true | _ => false end)
            t).

(** A camera that sends image after image without discard frames, every
    byte zero but the frame number. *)
Definition steady : camera :=
  {| rx := fun k =>
       if (k mod 164 =? 1)%nat then Z.of_nat ((k / 164) mod 60) else 0;
     rx_count := O;
     frame := fun _ => [];
     trace := [] |}.

End Lepton.

(** * Properties *)

Ltac fw_unfold :=
  unfold exec, eval, when, bind, ret, load, store, emit.

Ltac open_machine m :=
  destruct m as [[timer0 state0 stat0 ldir0 index0 steps0 dir0 pos0 angle0
                   period0 pscale0]
                  [init0 drvctrl0 chopconf0 smarten0 sgcsconf0 drvconf0]
                  [pins0 arr0 miso0 count0 trace0]].

Ltac unfold_gpio :=
  unfold GPIO_ResetBits, GPIO_SetBits, GPIO_WriteBit, GPIO_ReadInputDataBit.

Arguments pos_of_steps : simpl never.
Arguments steps_of_pos : simpl never.
Arguments F32.lit : simpl never.
Arguments Cint.wrap_s32 : simpl never.
Arguments Cint.wrap_u32 : simpl never.

(** ** The model on the example board *)

Example lit_3_14 : F32.lit 314 100 = S754_finite false 13170115 (-22).
Proof. reflexivity. Qed.

Example lit_3_5_exceeds_bound :
  F32.gtb (F32.lit 36 10) (F32.lit 35 10) = true
  /\ F32.gtb (F32.lit 35 10) (F32.lit 35 10) = false
  /\ F32.ltb (F32.lit (-6) 10) (F32.lit (-5) 10) = true.
Proof. vm_compute. auto. Qed.

Example to_int32_truncates :
  F32.to_int32 (F32.lit 79 10) = 7 /\ F32.to_int32 (F32.lit (-79) 10) = -7.
Proof. vm_compute. auto. Qed.

Example datagram_bytes_drvconf : datagram_bytes 0xEF020 = (0x0E, 0xF0, 0x20).
Proof. reflexivity. Qed.

Example reply_of_bytes_20_bits : reply_of_bytes 0x12 0x34 0x56 = 0x12345.
Proof. reflexivity. Qed.

(** The shadows after bring-up. *)
Example shadows_after_initialize :
  tmc (exec (TMC260_initialize datasheet_header) board)
  = {| TMC260_initialized := 1;
       TMC260_DRVCTRL_regval := 0x00102;
       TMC260_CHOPCONF_regval := 0x84044;
       TMC260_SMARTEN_regval := 0xA0200;
       TMC260_SGCSCONF_regval := 0xD3F05;
       TMC260_DRVCONF_regval := 0xE0000 |}.
Proof. reflexivity. Qed.

(** A status request for the current scale when the chip answers
    [0xAB 0xCD 0xEF] on the second frame. *)
Example read_status_current :
  let miso := fun n => nth n [0; 0; 0; 0xAB; 0xCD; 0xEF] 0 in
  let m := power_on example_tilt miso in
  let r := TMC260_spi_read_status datasheet_header TMC260_STATUS_CURRENT m in
  fst r
  = (TMC260_SUCCESS,
     {| status_type := TMC260_STATUS_CURRENT;
        position := 0; stall_guard := 0x15; current := 0x0F;
        status_byte := 0xDE;
        STST := 1; OLB := 1; OLA := 0; S2GB := 1; S2GA := 1;
        OTPW := 1; OT := 1; SG := 0 |})
  /\ TMC260_DRVCONF_regval (tmc (snd r)) = 0xEF020
  /\ rev (spi_events (trace (hw (snd r))))
     = [GpioWrite GPIOC GPIO_Pin_13 Bit_RESET;
        SpiSend 0x0E; SpiSend 0xF0; SpiSend 0x20;
        GpioWrite GPIOC GPIO_Pin_13 Bit_SET;
        GpioWrite GPIOC GPIO_Pin_13 Bit_RESET;
        SpiSend 0x0E; SpiReceive 0xAB; SpiSend 0xF0; SpiReceive 0xCD;
        SpiSend 0x20; SpiReceive 0xEF;
        GpioWrite GPIOC GPIO_Pin_13 Bit_SET].
Proof. vm_compute. auto. Qed.

(** ** Position tracker *)

(** What one call of the step routine does to the tilt variables and to
    the step line. *)
Lemma step_tracker (H : tmc260_header) (P : tilt_header) (m : machine) :
  let m' := exec (tilt_stepper_motor_step H P) m in
  steps_from_home (tilt m') =
    match current_step_dir (tilt m) with
    | TILT_STEPPER_DIR_STOPPED => steps_from_home (tilt m)
    | TILT_STEPPER_DIR_CW => Cint.wrap_s32 (steps_from_home (tilt m) + 1)
    | TILT_STEPPER_DIR_CCW => Cint.wrap_s32 (steps_from_home (tilt m) - 1)
    end
  /\ current_pos_rad (tilt m') = pos_of_steps P (steps_from_home (tilt m'))
  /\ current_step_dir (tilt m') = current_step_dir (tilt m)
  /\ ts_state (tilt m') = ts_state (tilt m)
  /\ ts_state_timer (tilt m') = ts_state_timer (tilt m)
  /\ tilt_index (tilt m') = tilt_index (tilt m)
  /\ pins (hw m') GPIOA GPIO_Pin_2 = toggled (pins (hw m) GPIOA GPIO_Pin_2)
  /\ TIM5_ARR (hw m') = TIM5_ARR (hw m)
  /\ tmc m' = tmc m.
Proof.
  open_machine m.
  unfold tilt_stepper_motor_step, TMC260_enable, TMC260_step.
  unfold_gpio. fw_unfold. cbn.
  destruct dir0; cbn; destruct (TOS_100_DEV_BOARD H); cbn;
    destruct (pins0 GPIOA GPIO_Pin_2); cbn; auto 12.
Qed.

(** The events of one call of the step routine: the enable line is driven
    only in the build for the development board, the step line always. *)
Lemma step_events (H : tmc260_header) (P : tilt_header) (m : machine) :
  adds
    (GpioWrite GPIOA GPIO_Pin_2 (toggled (pins (hw m) GPIOA GPIO_Pin_2))
     :: (if TOS_100_DEV_BOARD H
         then [GpioWrite GPIOA GPIO_Pin_0 Bit_RESET] else []))
    m (exec (tilt_stepper_motor_step H P) m).
Proof.
  open_machine m.
  unfold adds, tilt_stepper_motor_step, TMC260_enable, TMC260_step.
  unfold_gpio. fw_unfold. cbn.
  destruct dir0; cbn; destruct (TOS_100_DEV_BOARD H); cbn;
    destruct (pins0 GPIOA GPIO_Pin_2); cbn; reflexivity.
Qed.

Lemma wrap_s32_id (z : Z) :
  Cint.INT32_MIN <= z <= Cint.INT32_MAX -> Cint.wrap_s32 z = z.
Proof.
  unfold Cint.wrap_s32, Cint.INT32_MIN, Cint.INT32_MAX. intros Hz.
  rewrite Z.mod_small; lia.
Qed.

(** What the home handler does to the tracker. *)
Lemma home_edge_tracker (P : tilt_header) (m : machine) :
  let m' := exec (EXTI1_IRQHandler P true) m in
  let d := current_step_dir (tilt m) in
  let l := pins (hw m) GPIOC GPIO_Pin_1 in
  (if home_crossing d l
   then steps_from_home (tilt m') = 0
        /\ current_pos_rad (tilt m') = F32.zero
   else current_pos_rad (tilt m') = F32.lit 314 100
        /\ steps_from_home (tilt m') = steps_of_pos P (F32.lit 314 100))
  /\ current_step_dir (tilt m') = d.
Proof.
  open_machine m.
  unfold EXTI1_IRQHandler, home_crossed, home_far_side,
    tilt_stepper_motor_state_change, ClearITPendingBit,
    debug_output_set, debug_output_clear.
  unfold_gpio. fw_unfold. cbn.
  destruct (pins0 GPIOC GPIO_Pin_1); destruct dir0; cbn;
    try (destruct (steps_of_pos P (F32.lit 314 100) =? 0); cbn);
    destruct state0; cbn; auto.
Qed.

Lemma sensor_level_reads (l : BitAction) (m : machine) :
  pins (hw (sensor_level l m)) GPIOC GPIO_Pin_1 = l
  /\ tilt (sensor_level l m) = tilt m.
Proof. open_machine m. cbn. auto. Qed.

(** C4, as amended.  A step changes [steps_from_home] by exactly +1 when
    the direction is CW and by exactly -1 when it is CCW as long as the
    result fits the signed 32-bit counter; the counter does not saturate:
    the increment at [INT32_MAX] and the decrement at [INT32_MIN] are plain
    [int32_t] arithmetic, which wraps to the other bound on the target. *)
Theorem advance_counts_without_saturation
  (H : tmc260_header) (P : tilt_header) (m : machine) :
  Cint.INT32_MIN <= steps_from_home (tilt m) <= Cint.INT32_MAX ->
  let s := steps_from_home (tilt m) in
  let s' := steps_from_home (tilt (exec (tilt_stepper_motor_step H P) m)) in
  match current_step_dir (tilt m) with
  | TILT_STEPPER_DIR_CW =>
      (s < Cint.INT32_MAX -> s' = s + 1)
      /\ (s = Cint.INT32_MAX -> s' = Cint.INT32_MIN)
  | TILT_STEPPER_DIR_CCW =>
      (Cint.INT32_MIN < s -> s' = s - 1)
      /\ (s = Cint.INT32_MIN -> s' = Cint.INT32_MAX)
  | TILT_STEPPER_DIR_STOPPED => s' = s
  end.
Proof.
  intros Hs s s'. subst s s'.
  destruct (step_tracker H P m) as [Hstep _]. rewrite Hstep. clear Hstep.
  destruct (current_step_dir (tilt m)); [reflexivity | |]; split; intros Hb.
  - apply wrap_s32_id. lia.
  - rewrite Hb. reflexivity.
  - apply wrap_s32_id. lia.
  - rewrite Hb. reflexivity.
Qed.

Lemma advance_counts_witness :
  Cint.INT32_MIN <= 41 <= Cint.INT32_MAX
  /\ steps_from_home
       (tilt (exec (tilt_stepper_motor_step datasheet_header example_tilt)
                (with_tracker TILT_STEPPER_DIR_CW 41 F32.zero board))) = 42.
Proof.
  assert (Hr : Cint.INT32_MIN <= 41 <= Cint.INT32_MAX) by (vm_compute; split; discriminate).
  split; [exact Hr |].
  apply (advance_counts_without_saturation datasheet_header example_tilt
           (with_tracker TILT_STEPPER_DIR_CW 41 F32.zero board) Hr).
  vm_compute. reflexivity.
Defined.

(** At [INT32_MAX] a CW step does not leave the counter at the bound, where
    saturating arithmetic would keep it. *)
Lemma advance_wraps_at_int32_max :
  let m := with_tracker TILT_STEPPER_DIR_CW Cint.INT32_MAX F32.zero board in
  let s' := steps_from_home
              (tilt (exec (tilt_stepper_motor_step datasheet_header example_tilt) m)) in
  s' = Cint.INT32_MIN /\ s' <> Cint.sat_s32 (Cint.INT32_MAX + 1).
Proof. vm_compute. split; [reflexivity | discriminate]. Qed.

(** C9, as amended.  With the direction [Stopped] a call of the step
    routine leaves [steps_from_home] unchanged and assigns to
    [current_pos_rad] the closed form of that unchanged count, so the
    position is unchanged whenever it already was that value; the routine
    still calls the enable routine (which drives the enable line in the
    development-board build) and toggles the step line, so a pulse is
    emitted that the tracker does not count. *)
Theorem stopped_step_pulses_uncounted
  (H : tmc260_header) (P : tilt_header) (m : machine) :
  current_step_dir (tilt m) = TILT_STEPPER_DIR_STOPPED ->
  let m' := exec (tilt_stepper_motor_step H P) m in
  steps_from_home (tilt m') = steps_from_home (tilt m)
  /\ current_pos_rad (tilt m') = pos_of_steps P (steps_from_home (tilt m))
  /\ (current_pos_rad (tilt m) = pos_of_steps P (steps_from_home (tilt m)) ->
      current_pos_rad (tilt m') = current_pos_rad (tilt m))
  /\ pins (hw m') GPIOA GPIO_Pin_2 = toggled (pins (hw m) GPIOA GPIO_Pin_2)
  /\ adds
       (GpioWrite GPIOA GPIO_Pin_2 (toggled (pins (hw m) GPIOA GPIO_Pin_2))
        :: (if TOS_100_DEV_BOARD H
            then [GpioWrite GPIOA GPIO_Pin_0 Bit_RESET] else []))
       m m'.
Proof.
  intros Hd m'.
  destruct (step_tracker H P m) as (Hs & Hp & _ & _ & _ & _ & Hpin & _).
  fold m' in Hs, Hp, Hpin. rewrite Hd in Hs.
  repeat split.
  - exact Hs.
  - rewrite Hp, Hs. reflexivity.
  - intros Hc. rewrite Hp, Hs. symmetry. exact Hc.
  - exact Hpin.
  - apply step_events.
Qed.

Lemma stopped_step_witness :
  current_step_dir (tilt board) = TILT_STEPPER_DIR_STOPPED
  /\ current_pos_rad (tilt board)
     = pos_of_steps example_tilt (steps_from_home (tilt board))
  /\ current_pos_rad
       (tilt (exec (tilt_stepper_motor_step datasheet_header example_tilt) board))
     = current_pos_rad (tilt board)
  /\ pins (hw (exec (tilt_stepper_motor_step datasheet_header example_tilt) board))
       GPIOA GPIO_Pin_2 = Bit_SET.
Proof.
  assert (Hd : current_step_dir (tilt board) = TILT_STEPPER_DIR_STOPPED)
    by reflexivity.
  assert (Hc : current_pos_rad (tilt board)
               = pos_of_steps example_tilt (steps_from_home (tilt board)))
    by (vm_compute; reflexivity).
  destruct (stopped_step_pulses_uncounted datasheet_header example_tilt board Hd)
    as (_ & _ & Hkeep & Hpin & _).
  split; [exact Hd |]. split; [exact Hc |].
  split; [exact (Hkeep Hc) | exact Hpin].
Defined.

(** After reset and the first state-machine tick, a sensor edge that reads
    high while no direction has been commanded stores 3.14; the next step
    tick, still with the direction [Stopped], replaces it by the closed
    form of the 6396 steps stored with it. *)
Lemma stopped_step_moves_position :
  let m := run [exec (TIM1_TRG_COM_TIM11_IRQHandler datasheet_header example_tilt true);
                sensor_level uncovered;
                exec (EXTI1_IRQHandler example_tilt true)] board in
  let m' := exec (TIM5_IRQHandler datasheet_header example_tilt true) m in
  ts_state (tilt m) = TILT_STEPPER_HOME
  /\ current_step_dir (tilt m) = TILT_STEPPER_DIR_STOPPED
  /\ steps_from_home (tilt m) = 6396
  /\ steps_from_home (tilt m') = 6396
  /\ current_pos_rad (tilt m) = S754_finite false 13170115 (-22)
  /\ current_pos_rad (tilt m') = S754_finite false 13168559 (-22)
  /\ current_pos_rad (tilt m') <> current_pos_rad (tilt m).
Proof. vm_compute. repeat split; discriminate. Qed.

Lemma apply_ops_snoc (H : tmc260_header) (P : tilt_header)
  (ops : list tracker_op) (o : tracker_op) (m : machine) :
  apply_ops H P (ops ++ [o]) m = apply_op H P o (apply_ops H P ops m).
Proof. unfold apply_ops. rewrite fold_left_app. reflexivity. Qed.

(** C2, as amended.  After every step [current_pos_rad] is exactly the
    closed form of [steps_from_home], in single precision, whatever steps,
    direction commands and home-handler updates came before.  The home
    handler does not recompute the position from the count: on a crossing
    it stores 0.0 with the count 0, and otherwise the literal 3.14 with the
    count truncated from it. *)
Theorem position_closed_form_after_step
  (H : tmc260_header) (P : tilt_header) :
  (forall (ops : list tracker_op) (m : machine),
      let m' := apply_ops H P (ops ++ [Advance]) m in
      current_pos_rad (tilt m') = pos_of_steps P (steps_from_home (tilt m')))
  /\ (forall (ops : list tracker_op) (l : BitAction) (m : machine),
         let m' := apply_ops H P (ops ++ [HomeEdge l]) m in
         (steps_from_home (tilt m') = 0
          /\ current_pos_rad (tilt m') = F32.zero)
         \/ (steps_from_home (tilt m') = steps_of_pos P (F32.lit 314 100)
             /\ current_pos_rad (tilt m') = F32.lit 314 100)).
Proof.
  split.
  - intros ops m m'. subst m'. rewrite apply_ops_snoc. cbn [apply_op].
    apply (step_tracker H P (apply_ops H P ops m)).
  - intros ops l m m'. subst m'. rewrite apply_ops_snoc. cbn [apply_op].
    destruct (home_edge_tracker P (sensor_level l (apply_ops H P ops m)))
      as [Hh _].
    destruct (home_crossing _ _); [left | right]; tauto.
Qed.

(** On the example board, a sensor edge that reads low while the direction
    is CW leaves 3.14 rad next to 6396 steps, whose closed form is
    3.13963 rad: the two differ by more than 1e-4, some 1500 units in the
    last place. *)
Lemma position_off_closed_form_after_home_edge :
  let m := apply_ops datasheet_header example_tilt
             [Command TILT_STEPPER_DIR_CW; HomeEdge covered] board in
  steps_from_home (tilt m) = 6396
  /\ current_pos_rad (tilt m) = S754_finite false 13170115 (-22)
  /\ pos_of_steps example_tilt (steps_from_home (tilt m))
     = S754_finite false 13168559 (-22)
  /\ F32.gtb
       (F32.abs (F32.sub (current_pos_rad (tilt m))
                   (pos_of_steps example_tilt (steps_from_home (tilt m)))))
       (F32.lit 1 10000) = true.
Proof. vm_compute. repeat split. Qed.

(** ** Home sensor handler *)

(** C1, as amended.  On a sensor edge the handler zeroes the tracker
    (count 0, position 0.0) exactly when the direction is CW and the level
    reads high, which is uncovered, or the direction is not CW (CCW or
    Stopped) and the level reads low, which is covered; on every other
    pair it stores 3.14 rad with the step count truncated from it, which
    is not zero whenever the mechanical constants put at least one
    microstep in 3.14 rad. *)
Theorem home_edge_truth_table (P : tilt_header) (m : machine) :
  let m' := exec (EXTI1_IRQHandler P true) m in
  let d := current_step_dir (tilt m) in
  let l := pins (hw m) GPIOC GPIO_Pin_1 in
  (if home_crossing d l
   then steps_from_home (tilt m') = 0
        /\ current_pos_rad (tilt m') = F32.zero
   else current_pos_rad (tilt m') = F32.lit 314 100
        /\ steps_from_home (tilt m') = steps_of_pos P (F32.lit 314 100))
  /\ (current_pos_rad (tilt m') = F32.zero <-> home_crossing d l = true)
  /\ (steps_of_pos P (F32.lit 314 100) <> 0 ->
      (steps_from_home (tilt m') = 0 <-> home_crossing d l = true)).
Proof.
  intros m' d l.
  destruct (home_edge_tracker P m) as [Hh _]. fold m' d l in Hh.
  split; [exact Hh |].
  destruct (home_crossing d l).
  - split; [tauto | intros _; tauto].
  - destruct Hh as [Hp Hs]. rewrite Hp, Hs. split.
    + split; intros Hx; [vm_compute in Hx |]; discriminate Hx.
    + intros Hnz. split; [tauto | discriminate].
Qed.

Lemma home_edge_witness :
  steps_of_pos example_tilt (F32.lit 314 100) <> 0
  /\ steps_from_home
       (tilt (exec (EXTI1_IRQHandler example_tilt true)
                (sensor_level uncovered
                   (with_tracker TILT_STEPPER_DIR_CW 17 (F32.lit 1 100) board))))
     = 0.
Proof.
  assert (Hnz : steps_of_pos example_tilt (F32.lit 314 100) <> 0)
    by (vm_compute; discriminate).
  split; [exact Hnz |].
  apply (proj2 (proj2 (home_edge_truth_table example_tilt
                         (sensor_level uncovered
                            (with_tracker TILT_STEPPER_DIR_CW 17
                               (F32.lit 1 100) board))))
           Hnz).
  vm_compute. reflexivity.
Defined.

(** With the direction CW and the flag covered, the pair the design
    document calls a genuine crossing, the handler stores 3.14 rad and 6396
    steps instead of zero. *)
Lemma home_edge_cw_covered_not_zero :
  let m := sensor_level covered
             (with_tracker TILT_STEPPER_DIR_CW 17 (F32.lit 1 100) board) in
  let m' := exec (EXTI1_IRQHandler example_tilt true) m in
  documented_crossing (current_step_dir (tilt m))
    (pins (hw m) GPIOC GPIO_Pin_1) = true
  /\ steps_from_home (tilt m') = 6396
  /\ steps_from_home (tilt m') <> 0
  /\ current_pos_rad (tilt m') = F32.lit 314 100.
Proof. vm_compute. repeat split. discriminate. Qed.

(** ** Step pulse generator *)

Ltac unfold_tilt :=
  unfold TIM1_TRG_COM_TIM11_IRQHandler, TIM5_IRQHandler, EXTI1_IRQHandler,
    program_default_cadence, read_profile,
    tilt_stepper_motor_step, tilt_stepper_motor_set_CW,
    tilt_stepper_motor_set_CCW, tilt_stepper_motor_state_change,
    TMC260_enable, TMC260_disable, TMC260_step, TMC260_dir_CW, TMC260_dir_CCW,
    TIM_SetAutoreload, TIM_Cmd, ClearITPendingBit,
    debug_output_set, debug_output_clear, debug_output_toggle.

(** Case analysis on the conditions a handler branches on, outermost
    first. *)
Ltac split_ifs :=
  repeat match goal with
         | |- context [if ?b then _ else _] => destruct b eqn:?; cbn
         end.

(** Walks through the events of a trace written out in the goal. *)
Ltac new_reads :=
  let k := fresh "k" in
  let Hk := fresh "Hk" in
  cbn; intros k Hk;
  repeat (destruct Hk as [Hk | Hk];
          [ try discriminate Hk;
            try (injection Hk as Hk; subst k; right) | ]);
  try (left; exact Hk).

Lemma wrap_u32_range (z : Z) : 0 <= Cint.wrap_u32 z < 2 ^ 32.
Proof. unfold Cint.wrap_u32. apply Z.mod_pos_bound. reflexivity. Qed.

(** One tick of the step timer in the sweep phase. *)
Lemma sweep_tick (H : tmc260_header) (P : tilt_header) (m : machine) :
  ts_state (tilt m) = TILT_STEPPER_TILT_TABLE ->
  tilt_elements P = Z.of_nat (length (stepper_profile P)) ->
  let m' := exec (TIM5_IRQHandler H P true) m in
  let i := Cint.wrap_u32 (tilt_index (tilt m) + 1) in
  tilt_index (tilt m') = i
  /\ ts_state (tilt m') = TILT_STEPPER_TILT_TABLE
  /\ (if i <? tilt_elements P
      then
        if 0 <? nth (Z.to_nat i) (stepper_profile P) 0
        then
          pins (hw m') GPIOA GPIO_Pin_2
          = toggled (pins (hw m) GPIOA GPIO_Pin_2)
          /\ steps_from_home (tilt m') =
             match current_step_dir (tilt m) with
             | TILT_STEPPER_DIR_STOPPED => steps_from_home (tilt m)
             | TILT_STEPPER_DIR_CW =>
                 Cint.wrap_s32 (steps_from_home (tilt m) + 1)
             | TILT_STEPPER_DIR_CCW =>
                 Cint.wrap_s32 (steps_from_home (tilt m) - 1)
             end
          /\ current_pos_rad (tilt m')
             = pos_of_steps P (steps_from_home (tilt m'))
          /\ TIM5_ARR (hw m') = nth (Z.to_nat i) (stepper_profile P) 0
          /\ ts_state_timer (tilt m') = ts_state_timer (tilt m)
        else
          ts_state_timer (tilt m') = 0
          /\ pins (hw m') = pins (hw m)
          /\ steps_from_home (tilt m') = steps_from_home (tilt m)
          /\ current_pos_rad (tilt m') = current_pos_rad (tilt m)
          /\ TIM5_ARR (hw m') = TIM5_ARR (hw m)
      else
        ts_state_timer (tilt m') = 0
        /\ pins (hw m') = pins (hw m)
        /\ steps_from_home (tilt m') = steps_from_home (tilt m)
        /\ current_pos_rad (tilt m') = current_pos_rad (tilt m)
        /\ TIM5_ARR (hw m') = TIM5_ARR (hw m))
  /\ (forall k, In (ProfileRead k) (trace (hw m')) ->
                In (ProfileRead k) (trace (hw m))
                \/ 0 <= k < Z.of_nat (length (stepper_profile P))).
Proof.
  open_machine m. cbn [tilt hw ts_state tilt_index]. intros Hs Hlen.
  subst state0.
  pose proof (wrap_u32_range (index0 + 1)) as Hi.
  unfold_tilt. unfold_gpio. fw_unfold. cbn.
  destruct (Cint.wrap_u32 (index0 + 1) <? tilt_elements P) eqn:Ea; cbn.
  - apply Z.ltb_lt in Ea.
    destruct (0 <? nth (Z.to_nat (Cint.wrap_u32 (index0 + 1)))
                     (stepper_profile P) 0) eqn:Eb; cbn.
    + destruct dir0; cbn; destruct (TOS_100_DEV_BOARD H); cbn;
        destruct (pins0 GPIOA GPIO_Pin_2); cbn;
        (repeat split; try reflexivity; []); new_reads; lia.
    + (repeat split; try reflexivity; []); new_reads; lia.
  - (repeat split; try reflexivity; []); new_reads.
Qed.

(** C5.  On a step-timer tick in the sweep phase the cursor is advanced
    first; a step is issued, and the tick period set to the entry, only if
    the new cursor is below the profile length and the entry there is not
    zero; otherwise the sweep ends: the phase is entered again with the
    tick counter at 0, and nothing moves.  No read of the profile is at or
    past its length.  With the cursor on the last entry of
    [100,80,60,80,100] the tick ends the sweep without reading the
    profile at all.  (The profile holds timer periods, which are unsigned,
    and [tilt_elements] is its length.) *)
Theorem sweep_tick_checks_cursor_first :
  (forall (H : tmc260_header) (P : tilt_header) (m : machine),
      ts_state (tilt m) = TILT_STEPPER_TILT_TABLE ->
      tilt_elements P = Z.of_nat (length (stepper_profile P)) ->
      (forall v, In v (stepper_profile P) -> 0 <= v) ->
      let m' := exec (TIM5_IRQHandler H P true) m in
      let i := Cint.wrap_u32 (tilt_index (tilt m) + 1) in
      let issue :=
        (i <? tilt_elements P)
        && negb (nth (Z.to_nat i) (stepper_profile P) 0 =? 0) in
      tilt_index (tilt m') = i
      /\ ts_state (tilt m') = TILT_STEPPER_TILT_TABLE
      /\ (issue = true ->
          pins (hw m') GPIOA GPIO_Pin_2
          = toggled (pins (hw m) GPIOA GPIO_Pin_2)
          /\ steps_from_home (tilt m')
             = steps_from_home (tilt (exec (tilt_stepper_motor_step H P) m))
          /\ current_pos_rad (tilt m')
             = pos_of_steps P (steps_from_home (tilt m'))
          /\ TIM5_ARR (hw m') = nth (Z.to_nat i) (stepper_profile P) 0
          /\ ts_state_timer (tilt m') = ts_state_timer (tilt m))
      /\ (issue = false ->
          ts_state_timer (tilt m') = 0
          /\ pins (hw m') = pins (hw m)
          /\ steps_from_home (tilt m') = steps_from_home (tilt m)
          /\ current_pos_rad (tilt m') = current_pos_rad (tilt m)
          /\ TIM5_ARR (hw m') = TIM5_ARR (hw m))
      /\ (forall k, In (ProfileRead k) (trace (hw m')) ->
                    In (ProfileRead k) (trace (hw m))
                    \/ 0 <= k < Z.of_nat (length (stepper_profile P))))
  /\ (forall (H : tmc260_header) (P : tilt_header) (m : machine),
         stepper_profile P = [100; 80; 60; 80; 100] ->
         tilt_elements P = 5 ->
         ts_state (tilt m) = TILT_STEPPER_TILT_TABLE ->
         tilt_index (tilt m) = 4 ->
         let m' := exec (TIM5_IRQHandler H P true) m in
         ts_state (tilt m') = TILT_STEPPER_TILT_TABLE
         /\ ts_state_timer (tilt m') = 0
         /\ pins (hw m') = pins (hw m)
         /\ steps_from_home (tilt m') = steps_from_home (tilt m)
         /\ (forall k, In (ProfileRead k) (trace (hw m')) ->
                       In (ProfileRead k) (trace (hw m)))).
Proof.
  split.
  - intros H P m Hs Hlen Hpos m' i issue.
    destruct (sweep_tick H P m Hs Hlen) as (Hi & Hst & Hcase & Hreads).
    fold m' i in Hi, Hst, Hcase, Hreads.
    destruct (step_tracker H P m) as (Hstep & _).
    split; [exact Hi |]. split; [exact Hst |].
    pose proof (wrap_u32_range (tilt_index (tilt m) + 1)) as Hr. fold i in Hr.
    subst issue.
    destruct (i <? tilt_elements P) eqn:Ea.
    + assert (Hv : 0 <= nth (Z.to_nat i) (stepper_profile P) 0).
      { apply Hpos, nth_In. apply Z.ltb_lt in Ea. lia. }
      destruct (Z.ltb_spec 0 (nth (Z.to_nat i) (stepper_profile P) 0))
        as [Eb | Eb];
        destruct (Z.eqb_spec (nth (Z.to_nat i) (stepper_profile P) 0) 0)
          as [Ec | Ec];
        try lia;
        cbn [andb negb]; (split; [| split]); try exact Hreads;
        intros Hb; try discriminate Hb; try exact Hcase.
      rewrite Hstep. exact Hcase.
    + cbn [andb]; (split; [| split]); try exact Hreads;
        intros Hb; try discriminate Hb; exact Hcase.
  - intros H P m Hp He Hs Hidx.
    open_machine m. cbn [tilt hw ts_state tilt_index] in *.
    subst state0 index0.
    unfold_tilt. unfold_gpio. fw_unfold. cbn.
    change (Cint.wrap_u32 5) with 5. rewrite He. cbn.
    (repeat split; try reflexivity; []).
    intros k Hk.
    repeat (destruct Hk as [Hk | Hk]; [discriminate Hk |]). exact Hk.
Qed.

Lemma sweep_tick_witness :
  let m := at_index 1 (in_phase TILT_STEPPER_TILT_TABLE 3
                         (with_tracker TILT_STEPPER_DIR_CW 40 F32.zero board)) in
  let m' := exec (TIM5_IRQHandler datasheet_header example_tilt true) m in
  ts_state (tilt m) = TILT_STEPPER_TILT_TABLE
  /\ tilt_elements example_tilt
     = Z.of_nat (length (stepper_profile example_tilt))
  /\ tilt_index (tilt m') = 2
  /\ TIM5_ARR (hw m') = 60
  /\ steps_from_home (tilt m') = 41.
Proof.
  intros m m'.
  assert (Hs : ts_state (tilt m) = TILT_STEPPER_TILT_TABLE) by reflexivity.
  assert (Hl : tilt_elements example_tilt
               = Z.of_nat (length (stepper_profile example_tilt)))
    by reflexivity.
  assert (Hu : forall v, In v (stepper_profile example_tilt) -> 0 <= v).
  { intros v Hv. cbn in Hv.
    repeat (destruct Hv as [Hv | Hv]; [subst v; discriminate |]).
    destruct Hv. }
  destruct (proj1 sweep_tick_checks_cursor_first
              datasheet_header example_tilt m Hs Hl Hu)
    as (Hi & _ & Hgo & _).
  destruct (Hgo eq_refl) as (_ & Hsteps & _ & Harr & _).
  split; [exact Hs |]. split; [exact Hl |].
  split; [exact Hi |]. split; [exact Harr | exact Hsteps].
Defined.

(** ** State machine controller *)

(** C6.  On a state-machine tick in a phase other than [Home] and
    [Initialize], a position above 3.5 or below -0.5 leaves the phase
    [Home] and the tick counter 0 when the tick returns; 3.6 rad in the
    sweep phase is such a position. *)
Theorem overrotation_guard_forces_home :
  (forall (H : tmc260_header) (P : tilt_header) (m : machine),
      ts_state (tilt m) <> TILT_STEPPER_HOME ->
      ts_state (tilt m) <> TILT_STEPPER_INITIALIZE ->
      F32.gtb (current_pos_rad (tilt m)) (F32.lit 35 10) = true
      \/ F32.ltb (current_pos_rad (tilt m)) (F32.lit (-5) 10) = true ->
      let m' := exec (TIM1_TRG_COM_TIM11_IRQHandler H P true) m in
      ts_state (tilt m') = TILT_STEPPER_HOME
      /\ ts_state_timer (tilt m') = 0)
  /\ (forall (H : tmc260_header) (P : tilt_header) (m : machine),
         ts_state (tilt m) = TILT_STEPPER_TILT_TABLE ->
         current_pos_rad (tilt m) = F32.lit 36 10 ->
         let m' := exec (TIM1_TRG_COM_TIM11_IRQHandler H P true) m in
         ts_state (tilt m') = TILT_STEPPER_HOME
         /\ ts_state_timer (tilt m') = 0).
Proof.
  assert (Hguard : forall (H : tmc260_header) (P : tilt_header) (m : machine),
      ts_state (tilt m) <> TILT_STEPPER_HOME ->
      ts_state (tilt m) <> TILT_STEPPER_INITIALIZE ->
      F32.gtb (current_pos_rad (tilt m)) (F32.lit 35 10) = true
      \/ F32.ltb (current_pos_rad (tilt m)) (F32.lit (-5) 10) = true ->
      ts_state (tilt (exec (TIM1_TRG_COM_TIM11_IRQHandler H P true) m))
      = TILT_STEPPER_HOME
      /\ ts_state_timer (tilt (exec (TIM1_TRG_COM_TIM11_IRQHandler H P true) m))
         = 0).
  { intros H P m. open_machine m. cbn [tilt ts_state current_pos_rad].
    intros Hh Hi Hp.
    unfold_tilt. unfold_gpio. fw_unfold.
    destruct state0; try congruence; cbn; split_ifs;
      try (split; reflexivity); destruct Hp; congruence. }
  split.
  - exact Hguard.
  - intros H P m Hs Hp. apply Hguard.
    + rewrite Hs. discriminate.
    + rewrite Hs. discriminate.
    + left. rewrite Hp. vm_compute. reflexivity.
Qed.

Lemma overrotation_guard_witness :
  let m := in_phase TILT_STEPPER_TILT_TABLE 12
             (with_tracker TILT_STEPPER_DIR_CW 7334 (F32.lit 36 10) board) in
  let m' := exec (TIM1_TRG_COM_TIM11_IRQHandler datasheet_header example_tilt true) m in
  ts_state (tilt m) = TILT_STEPPER_TILT_TABLE
  /\ current_pos_rad (tilt m) = F32.lit 36 10
  /\ ts_state (tilt m') = TILT_STEPPER_HOME
  /\ ts_state_timer (tilt m') = 0.
Proof.
  intros m m'.
  assert (Hs : ts_state (tilt m) = TILT_STEPPER_TILT_TABLE) by reflexivity.
  assert (Hp : current_pos_rad (tilt m) = F32.lit 36 10) by reflexivity.
  split; [exact Hs |]. split; [exact Hp |].
  exact (proj2 overrotation_guard_forces_home
           datasheet_header example_tilt m Hs Hp).
Defined.



(** ** Driver protocol engine *)

(** A status request, run on any machine: the new shadow, the reply it
    decodes and the frames it puts on the bus. *)
Lemma read_status_run
  (H : tmc260_header) (k : tmc260_status_types) (m : machine) :
  let m' := exec (TMC260_spi_read_status H k) m in
  let v := rdsel_update H k (TMC260_DRVCONF_regval (tmc m)) in
  let n := spi_count (hw m) in
  let r1 := spi_miso (hw m) (3 + n)%nat in
  let r2 := spi_miso (hw m) (4 + n)%nat in
  let r3 := spi_miso (hw m) (5 + n)%nat in
  tmc m' = set_TMC260_DRVCONF_regval v (tmc m)
  /\ tilt m' = tilt m
  /\ eval (TMC260_spi_read_status H k) m
     = (TMC260_SUCCESS,
        parse_status H k
          (reply_of_bytes (Z.land r1 0xFF) (Z.land r2 0xFF) (Z.land r3 0xFF)))
  /\ spi_events (trace (hw m'))
     = rev (spi_write_frame v ++ spi_exchange_frame v r1 r2 r3)
       ++ spi_events (trace (hw m)).
Proof.
  open_machine m. cbv zeta.
  destruct drvconf0; repeat split; reflexivity.
Qed.

Lemma testbit_not_u32 (a i : Z) :
  0 <= i -> Z.testbit (Cint.not_u32 a) i = (i <? 32) && negb (Z.testbit a i).
Proof.
  intros Hi. unfold Cint.not_u32, Cint.wrap_u32.
  rewrite Z.testbit_mod_pow2 by lia. rewrite Z.lnot_spec by exact Hi.
  reflexivity.
Qed.

(** Clearing a field and or-ing a packed value in leaves that value in the
    field. *)
Lemma rdsel_update_field (f : field) (base c : Z) :
  Z.land (Z.lor (Z.land base (Cint.not_u32 (mask f))) (pack f c)) (mask f)
  = pack f c.
Proof.
  unfold pack. apply Z.bits_inj'. intros i Hi.
  rewrite !Z.land_spec, Z.lor_spec, !Z.land_spec, testbit_not_u32 by exact Hi.
  destruct (Z.testbit (mask f) i), (Z.testbit base i), (i <? 32),
    (Z.testbit (Cint.wrap_u32 (Z.shiftl c (shift f))) i); reflexivity.
Qed.

(** ... and leaves every bit outside the field as it was. *)
Lemma rdsel_update_frame (f : field) (base c i : Z) :
  0 <= base < 2 ^ 32 -> 0 <= i -> Z.testbit (mask f) i = false ->
  Z.testbit (Z.lor (Z.land base (Cint.not_u32 (mask f))) (pack f c)) i
  = Z.testbit base i.
Proof.
  intros Hb Hi Hm. unfold pack.
  rewrite Z.lor_spec, !Z.land_spec, testbit_not_u32, Hm by exact Hi.
  rewrite andb_false_r, orb_false_r. cbn [negb]. rewrite andb_true_r.
  destruct (i <? 32) eqn:E; [apply andb_true_r |].
  rewrite andb_false_r. symmetry.
  rewrite <- (Z.mod_small base (2 ^ 32)) by exact Hb.
  rewrite Z.testbit_mod_pow2 by lia. rewrite E. reflexivity.
Qed.

Lemma pack_masked (f : field) (c : Z) :
  Z.land (pack f c) (mask f) = pack f c.
Proof. unfold pack. rewrite <- Z.land_assoc, Z.land_diag. reflexivity. Qed.

(** The three bytes of a frame are the low 24 bits of the value, most
    significant byte first. *)
Lemma datagram_bytes_value (v : Z) :
  0 <= v ->
  let '(b1, b2, b3) := datagram_bytes v in
  0 <= b1 < 256 /\ 0 <= b2 < 256 /\ 0 <= b3 < 256
  /\ b1 * 65536 + b2 * 256 + b3 = v mod 2 ^ 24.
Proof.
  intros Hv. unfold datagram_bytes, Cint.wrap_u32.
  change 0xFF with (Z.ones 8).
  rewrite !Z.land_ones, !Z.shiftr_div_pow2, Z.shiftl_mul_pow2 by lia.
  change (2 ^ 8) with 256. change (2 ^ 16) with 65536.
  change (2 ^ 24) with 16777216. change (2 ^ 32) with 4294967296.
  Z.div_mod_to_equations. lia.
Qed.

(** Or-ing a value below [2^k] under a multiple of [2^k] adds them. *)
Lemma lor_shiftl_low (a b k : Z) :
  0 <= k -> 0 <= a < 2 ^ k -> 0 <= b ->
  Z.lor (b * 2 ^ k) a = b * 2 ^ k + a.
Proof.
  intros Hk Ha Hb.
  rewrite <- Z.add_lor_land.
  assert (Hz : Z.land (b * 2 ^ k) a = 0).
  { rewrite <- Z.shiftl_mul_pow2 by exact Hk.
    apply Z.bits_inj'. intros n Hn.
    rewrite Z.land_spec, Z.bits_0.
    destruct (Z.lt_ge_cases n k) as [Hlt | Hge].
    - rewrite Z.shiftl_spec_low by exact Hlt. reflexivity.
    - rewrite <- (Z.mod_small a (2 ^ k)) by exact Ha.
      rewrite Z.testbit_mod_pow2 by exact Hk.
      destruct (Z.ltb_spec n k); [lia |]. cbn [andb]. apply andb_false_r. }
  rewrite Hz. lia.
Qed.

(** A byte moved to bit [k] passes the byte mask at bit [k]. *)
Lemma land_byte_at (r k : Z) :
  0 <= k -> 0 <= r < 256 ->
  Z.land (r * 2 ^ k) (Z.shiftl 255 k) = r * 2 ^ k.
Proof.
  intros Hk Hr.
  rewrite <- Z.shiftl_mul_pow2, <- Z.shiftl_land by exact Hk.
  change 255 with (Z.ones 8). rewrite Z.land_ones by lia.
  rewrite Z.mod_small by (change (2 ^ 8) with 256; exact Hr).
  reflexivity.
Qed.

(** The reply is the first 20 of the 24 bits read, most significant byte
    first. *)
Lemma reply_of_bytes_value (rb1 rb2 rb3 : Z) :
  0 <= rb1 < 256 -> 0 <= rb2 < 256 -> 0 <= rb3 < 256 ->
  reply_of_bytes rb1 rb2 rb3 = (rb1 * 65536 + rb2 * 256 + rb3) / 16
  /\ 0 <= reply_of_bytes rb1 rb2 rb3 < 2 ^ 20.
Proof.
  intros H1 H2 H3.
  assert (Hbyte : forall r, 0 <= r < 256 -> Z.land r 0x000000FF = r).
  { intros r Hr. change 0x000000FF with (Z.ones 8).
    rewrite Z.land_ones by lia. apply Z.mod_small.
    change (2 ^ 8) with 256. exact Hr. }
  assert (Hval : reply_of_bytes rb1 rb2 rb3
                 = (rb1 * 65536 + rb2 * 256 + rb3) / 16).
  { unfold reply_of_bytes, Cint.wrap_u32. cbv zeta.
    rewrite !Hbyte by assumption.
    rewrite !Z.shiftl_mul_pow2 by lia.
    rewrite (Z.mod_small (rb1 * 2 ^ 24))
      by (change (2 ^ 32) with 4294967296; change (2 ^ 24) with 16777216; lia).
    rewrite (Z.mod_small (rb2 * 2 ^ 16))
      by (change (2 ^ 32) with 4294967296; change (2 ^ 16) with 65536; lia).
    rewrite (Z.mod_small (rb3 * 2 ^ 8))
      by (change (2 ^ 32) with 4294967296; change (2 ^ 8) with 256; lia).
    change 0xFF000000 with (Z.shiftl 255 24).
    change 0x00FF0000 with (Z.shiftl 255 16).
    change 0x0000FF00 with (Z.shiftl 255 8).
    rewrite !land_byte_at by lia.
    rewrite Z.lor_0_l.
    rewrite (lor_shiftl_low (rb2 * 2 ^ 16) rb1 24)
      by (change (2 ^ 24) with 16777216; change (2 ^ 16) with 65536; lia).
    replace (rb1 * 2 ^ 24 + rb2 * 2 ^ 16)
      with ((rb1 * 256 + rb2) * 2 ^ 16)
      by (change (2 ^ 24) with 16777216; change (2 ^ 16) with 65536; lia).
    rewrite (lor_shiftl_low (rb3 * 2 ^ 8) (rb1 * 256 + rb2) 16)
      by (change (2 ^ 16) with 65536; change (2 ^ 8) with 256; lia).
    rewrite Z.shiftr_div_pow2 by lia.
    change (2 ^ 8) with 256. change (2 ^ 12) with 4096.
    change (2 ^ 16) with 65536.
    Z.div_mod_to_equations. lia. }
  split; [exact Hval |].
  rewrite Hval. change (2 ^ 20) with 1048576.
  Z.div_mod_to_equations. lia.
Qed.

(** A masked byte is a byte. *)
Lemma land_byte_range (z : Z) : 0 <= Z.land z 0xFF < 256.
Proof.
  change 0xFF with (Z.ones 8). rewrite Z.land_ones by lia.
  apply Z.mod_pos_bound. reflexivity.
Qed.

(** The frames and the reading of a status request, in terms of the byte
    split and the reply assembly of the transport. *)
Lemma read_status_frames
  (H : tmc260_header) (k : tmc260_status_types) (m : machine) :
  let m' := exec (TMC260_spi_read_status H k) m in
  let ret := fst (eval (TMC260_spi_read_status H k) m) in
  let s := snd (eval (TMC260_spi_read_status H k) m) in
  let v := TMC260_DRVCONF_regval (tmc m') in
  let n := spi_count (hw m) in
  let r1 := spi_miso (hw m) (3 + n)%nat in
  let r2 := spi_miso (hw m) (4 + n)%nat in
  let r3 := spi_miso (hw m) (5 + n)%nat in
  let rd := reply_of_bytes (Z.land r1 0xFF) (Z.land r2 0xFF) (Z.land r3 0xFF) in
  ret = TMC260_SUCCESS
  /\ Z.land v (mask (TMC260_DRVCONF_RDSEL H))
     = pack (TMC260_DRVCONF_RDSEL H) (status_code k)
  /\ spi_events (trace (hw m'))
     = rev (spi_write_frame v ++ spi_exchange_frame v r1 r2 r3)
       ++ spi_events (trace (hw m))
  /\ status_type s = k
  /\ STST s = unpack (TMC260_STATUS_STST H) rd
  /\ OLB s = unpack (TMC260_STATUS_OLB H) rd
  /\ OLA s = unpack (TMC260_STATUS_OLA H) rd
  /\ S2GB s = unpack (TMC260_STATUS_S2GB H) rd
  /\ S2GA s = unpack (TMC260_STATUS_S2GA H) rd
  /\ OTPW s = unpack (TMC260_STATUS_OTPW H) rd
  /\ OT s = unpack (TMC260_STATUS_OT H) rd
  /\ SG s = unpack (TMC260_STATUS_SG H) rd
  /\ match k with
     | TMC260_STATUS_POSITION =>
         position s = unpack (TMC260_STATUS_MSTEP H) rd
         /\ stall_guard s = 0 /\ current s = 0
     | TMC260_STATUS_STALLGUARD =>
         position s = 0
         /\ stall_guard s = unpack (TMC260_STATUS_STALLGUARD_FLD H) rd
         /\ current s = 0
     | TMC260_STATUS_CURRENT =>
         position s = 0
         /\ stall_guard s = unpack (TMC260_STATUS_CUR_SG H) rd
         /\ current s = unpack (TMC260_STATUS_CUR_SE H) rd
     end.
Proof.
  intros m' ret s v n r1 r2 r3 rd.
  destruct (read_status_run H k m) as (Htmc & _ & Heval & Hbus).
  fold m' n r1 r2 r3 rd in Htmc, Heval, Hbus.
  subst ret s. rewrite Heval. cbn [fst snd].
  assert (Hv : v = rdsel_update H k (TMC260_DRVCONF_regval (tmc m))).
  { subst v. rewrite Htmc. reflexivity. }
  split; [reflexivity |].
  split; [rewrite Hv; apply rdsel_update_field |].
  split; [rewrite Hv; exact Hbus |].
  destruct k; repeat split; reflexivity.
Qed.

(** The DRVCONF value a status request sends is not negative. *)
Lemma rdsel_update_nonneg (H : tmc260_header) (k : tmc260_status_types)
  (old : Z) :
  0 <= rdsel_update H k old.
Proof.
  unfold rdsel_update, pack, Cint.not_u32.
  apply Z.lor_nonneg. split; apply Z.land_nonneg.
  - right. apply wrap_u32_range.
  - left. apply wrap_u32_range.
Qed.

(** C7.  For every status kind, the request puts two frames on the bus,
    both carrying the low 24 bits of the DRVCONF value whose RDSEL field is
    the kind, most significant byte first: the first is written without
    reading the reply, the second while reading a byte after each byte
    sent.  The reading is decoded from the first 20 of the 24 bits read
    during the second frame: the eight fault bits, and the payload of the
    kind alone (microstep position for [Position], stall metric for
    [StallGuard], stall metric and current scale for [Current]), the
    fields of the other kinds being 0. *)
Theorem read_status_two_phase
  (H : tmc260_header) (k : tmc260_status_types) (m : machine) :
  let m' := exec (TMC260_spi_read_status H k) m in
  let ret := fst (eval (TMC260_spi_read_status H k) m) in
  let s := snd (eval (TMC260_spi_read_status H k) m) in
  let v := TMC260_DRVCONF_regval (tmc m') in
  let n := spi_count (hw m) in
  let r1 := spi_miso (hw m) (3 + n)%nat in
  let r2 := spi_miso (hw m) (4 + n)%nat in
  let r3 := spi_miso (hw m) (5 + n)%nat in
  let rd := (Z.land r1 0xFF * 65536 + Z.land r2 0xFF * 256 + Z.land r3 0xFF)
            / 16 in
  let get := fun f : field => Z.shiftr (Z.land rd (mask f)) (shift f) in
  ret = TMC260_SUCCESS
  /\ Z.land v (mask (TMC260_DRVCONF_RDSEL H))
     = Z.land (Z.shiftl (status_code k) (shift (TMC260_DRVCONF_RDSEL H))
               mod 2 ^ 32)
         (mask (TMC260_DRVCONF_RDSEL H))
  /\ (exists b1 b2 b3 : Z,
         (0 <= b1 < 256 /\ 0 <= b2 < 256 /\ 0 <= b3 < 256)
         /\ b1 * 65536 + b2 * 256 + b3 = v mod 2 ^ 24
         /\ rev (spi_events (trace (hw m')))
            = rev (spi_events (trace (hw m)))
              ++ [GpioWrite GPIOC GPIO_Pin_13 Bit_RESET;
                  SpiSend b1; SpiSend b2; SpiSend b3;
                  GpioWrite GPIOC GPIO_Pin_13 Bit_SET;
                  GpioWrite GPIOC GPIO_Pin_13 Bit_RESET;
                  SpiSend b1; SpiReceive r1; SpiSend b2; SpiReceive r2;
                  SpiSend b3; SpiReceive r3;
                  GpioWrite GPIOC GPIO_Pin_13 Bit_SET])
  /\ 0 <= rd < 2 ^ 20
  /\ status_type s = k
  /\ STST s = get (TMC260_STATUS_STST H)
  /\ OLB s = get (TMC260_STATUS_OLB H)
  /\ OLA s = get (TMC260_STATUS_OLA H)
  /\ S2GB s = get (TMC260_STATUS_S2GB H)
  /\ S2GA s = get (TMC260_STATUS_S2GA H)
  /\ OTPW s = get (TMC260_STATUS_OTPW H)
  /\ OT s = get (TMC260_STATUS_OT H)
  /\ SG s = get (TMC260_STATUS_SG H)
  /\ match k with
     | TMC260_STATUS_POSITION =>
         position s = get (TMC260_STATUS_MSTEP H)
         /\ stall_guard s = 0 /\ current s = 0
     | TMC260_STATUS_STALLGUARD =>
         position s = 0
         /\ stall_guard s = get (TMC260_STATUS_STALLGUARD_FLD H)
         /\ current s = 0
     | TMC260_STATUS_CURRENT =>
         position s = 0
         /\ stall_guard s = get (TMC260_STATUS_CUR_SG H)
         /\ current s = get (TMC260_STATUS_CUR_SE H)
     end.
Proof.
  intros m' ret s v n r1 r2 r3 rd get.
  pose proof (read_status_frames H k m) as Hf. cbv zeta in Hf.
  fold m' ret s v n r1 r2 r3 in Hf.
  destruct (read_status_run H k m) as (Htmc & _).
  assert (Hv : 0 <= v).
  { subst v m'. rewrite Htmc.
    destruct (tmc m); cbn [TMC260_DRVCONF_regval set_TMC260_DRVCONF_regval].
    apply rdsel_update_nonneg. }
  destruct (reply_of_bytes_value (Z.land r1 0xFF) (Z.land r2 0xFF)
              (Z.land r3 0xFF) (land_byte_range r1) (land_byte_range r2)
              (land_byte_range r3)) as [Hrd Hrange].
  fold rd in Hrd. rewrite Hrd in Hf, Hrange.
  destruct Hf as (F1 & F2 & F3 & F4 & F5 & F6 & F7 & F8 & F9 & F10 & F11
                  & F12 & F13).
  split; [exact F1 |].
  split; [exact F2 |].
  split.
  - pose proof (datagram_bytes_value v Hv) as Hb.
    unfold spi_write_frame, spi_exchange_frame in F3.
    destruct (datagram_bytes v) as [[b1 b2] b3].
    destruct Hb as (B1 & B2 & B3 & Hsum).
    exists b1, b2, b3.
    split; [auto |]. split; [exact Hsum |].
    rewrite F3, rev_app_distr, rev_involutive. reflexivity.
  - split; [exact Hrange |].
    unfold get. unfold unpack in *.
    repeat (split; [assumption |]). exact F13.
Qed.

(** C10.  A status request leaves the DRVCTRL, CHOPCONF, SMARTEN and
    SGCSCONF shadows as they were.  Of the DRVCONF shadow it changes the
    RDSEL field alone, which becomes the requested kind; a DRVCONF shadow
    of zero is taken to be [0xEF000] first. *)
Theorem read_status_shadow_frame
  (H : tmc260_header) (k : tmc260_status_types) (m : machine) :
  0 <= TMC260_DRVCONF_regval (tmc m) < 2 ^ 32 ->
  let g := tmc m in
  let g' := tmc (exec (TMC260_spi_read_status H k) m) in
  let base := if TMC260_DRVCONF_regval g =? 0
              then 0xEF000 else TMC260_DRVCONF_regval g in
  TMC260_DRVCTRL_regval g' = TMC260_DRVCTRL_regval g
  /\ TMC260_CHOPCONF_regval g' = TMC260_CHOPCONF_regval g
  /\ TMC260_SMARTEN_regval g' = TMC260_SMARTEN_regval g
  /\ TMC260_SGCSCONF_regval g' = TMC260_SGCSCONF_regval g
  /\ (forall i, 0 <= i ->
        Z.testbit (mask (TMC260_DRVCONF_RDSEL H)) i = false ->
        Z.testbit (TMC260_DRVCONF_regval g') i = Z.testbit base i)
  /\ Z.land (TMC260_DRVCONF_regval g') (mask (TMC260_DRVCONF_RDSEL H))
     = pack (TMC260_DRVCONF_RDSEL H) (status_code k)
  /\ (exceeds_width (TMC260_DRVCONF_RDSEL H) (status_code k) = false ->
      unpack (TMC260_DRVCONF_RDSEL H) (TMC260_DRVCONF_regval g')
      = status_code k).
Proof.
  intros Hrange g g' base.
  destruct (read_status_run H k m) as (Htmc & _).
  fold g g' in Htmc. rewrite Htmc. clear Htmc g'.
  assert (Hbase : 0 <= base < 2 ^ 32).
  { subst base g. destruct (TMC260_DRVCONF_regval (tmc m) =? 0);
      [split; [discriminate | reflexivity] | exact Hrange]. }
  assert (Hfield :
    Z.land (rdsel_update H k (TMC260_DRVCONF_regval g))
      (mask (TMC260_DRVCONF_RDSEL H))
    = pack (TMC260_DRVCONF_RDSEL H) (status_code k))
    by apply rdsel_update_field.
  destruct g; cbn [set_TMC260_DRVCONF_regval TMC260_DRVCTRL_regval
                   TMC260_CHOPCONF_regval TMC260_SMARTEN_regval
                   TMC260_SGCSCONF_regval TMC260_DRVCONF_regval] in *.
  repeat split; try reflexivity.
  - intros i Hi Hm. apply rdsel_update_frame; assumption.
  - exact Hfield.
  - unfold exceeds_width. intros He.
    apply negb_false_iff, Z.eqb_eq in He.
    unfold unpack in He |- *. rewrite pack_masked in He.
    rewrite Hfield. exact He.
Qed.

Lemma read_status_shadow_witness :
  let m := run [exec (TMC260_initialize datasheet_header)] board in
  let g' := tmc (exec (TMC260_spi_read_status datasheet_header
                         TMC260_STATUS_CURRENT) m) in
  0 <= TMC260_DRVCONF_regval (tmc m) < 2 ^ 32
  /\ exceeds_width (TMC260_DRVCONF_RDSEL datasheet_header)
       (status_code TMC260_STATUS_CURRENT) = false
  /\ TMC260_CHOPCONF_regval g' = TMC260_CHOPCONF_regval (tmc m)
  /\ unpack (TMC260_DRVCONF_RDSEL datasheet_header) (TMC260_DRVCONF_regval g')
     = 2.
Proof.
  intros m g'.
  assert (Hr : 0 <= TMC260_DRVCONF_regval (tmc m) < 2 ^ 32)
    by (vm_compute; split; [discriminate | reflexivity]).
  assert (He : exceeds_width (TMC260_DRVCONF_RDSEL datasheet_header)
                 (status_code TMC260_STATUS_CURRENT) = false)
    by (vm_compute; reflexivity).
  destruct (read_status_shadow_frame datasheet_header TMC260_STATUS_CURRENT m Hr)
    as (_ & Hc & _ & _ & _ & _ & Hsel).
  split; [exact Hr |]. split; [exact He |].
  split; [exact Hc | exact (Hsel He)].
Defined.

(** What the six register writers do with their arguments.  The two
    DRVCTRL writers check their one-bit flags: with [ph_a_dir], [ph_b_dir],
    [intpol] or [dedge] above 1 they return the invalid-input error and
    leave the machine as it was, so that no transaction is issued and no
    shadow is updated.  The writers of CHOPCONF, SMARTEN, SGCSCONF and
    DRVCONF have no check: they mask each value to its field, send the
    datagram, update the shadow and return success, whatever the values. *)
Lemma register_writers (H : tmc260_header) (m : machine) :
  (forall ph_a_dir ph_a_cur ph_b_dir ph_b_cur : Z,
      let r := TMC260_send_drvctrl_sdoff H ph_a_dir ph_a_cur ph_b_dir ph_b_cur m in
      if (1 <? ph_a_dir) || (1 <? ph_b_dir)
      then r = (TMC260_ERROR_INVALID_INPUT, m)
      else fst r = TMC260_SUCCESS
           /\ spi_events (trace (hw (snd r)))
              = rev (spi_write_frame (TMC260_DRVCTRL_regval (tmc (snd r))))
                ++ spi_events (trace (hw m)))
  /\ (forall intpol dedge mres : Z,
         let r := TMC260_send_drvctrl_sdon H intpol dedge mres m in
         if (1 <? intpol) || (1 <? dedge)
         then r = (TMC260_ERROR_INVALID_INPUT, m)
         else fst r = TMC260_SUCCESS
              /\ spi_events (trace (hw (snd r)))
                 = rev (spi_write_frame (TMC260_DRVCTRL_regval (tmc (snd r))))
                   ++ spi_events (trace (hw m)))
  /\ (forall tbl chm rndtf hdec hend hstrt toff : Z,
         let r := TMC260_send_chopconf H tbl chm rndtf hdec hend hstrt toff m in
         let v := chopconf_regval H tbl chm rndtf hdec hend hstrt toff in
         fst r = TMC260_SUCCESS
         /\ TMC260_CHOPCONF_regval (tmc (snd r)) = v
         /\ spi_events (trace (hw (snd r)))
            = rev (spi_write_frame v) ++ spi_events (trace (hw m)))
  /\ (forall seimin sedn semax seup semin : Z,
         let r := TMC260_send_smarten H seimin sedn semax seup semin m in
         let v := smarten_regval H seimin sedn semax seup semin in
         fst r = TMC260_SUCCESS
         /\ TMC260_SMARTEN_regval (tmc (snd r)) = v
         /\ spi_events (trace (hw (snd r)))
            = rev (spi_write_frame v) ++ spi_events (trace (hw m)))
  /\ (forall sfilt sgt cs : Z,
         let r := TMC260_send_sgcsconf H sfilt sgt cs m in
         let v := sgcsconf_regval H sfilt sgt cs in
         fst r = TMC260_SUCCESS
         /\ TMC260_SGCSCONF_regval (tmc (snd r)) = v
         /\ spi_events (trace (hw (snd r)))
            = rev (spi_write_frame v) ++ spi_events (trace (hw m)))
  /\ (forall tst slph slpl diss2g ts2g sdoff vsense rdsel : Z,
         let r := TMC260_send_drvconf H tst slph slpl diss2g ts2g sdoff
                    vsense rdsel m in
         let v := drvconf_regval H tst slph slpl diss2g ts2g sdoff
                    vsense rdsel in
         fst r = TMC260_SUCCESS
         /\ TMC260_DRVCONF_regval (tmc (snd r)) = v
         /\ spi_events (trace (hw (snd r)))
            = rev (spi_write_frame v) ++ spi_events (trace (hw m))).
Proof.
  open_machine m.
  split; [| split; [| repeat split]]; try reflexivity.
  - intros ph_a_dir ph_a_cur ph_b_dir ph_b_cur.
    unfold TMC260_send_drvctrl_sdoff.
    destruct ((1 <? ph_a_dir) || (1 <? ph_b_dir)); [| split]; reflexivity.
  - intros intpol dedge mres.
    unfold TMC260_send_drvctrl_sdon.
    destruct ((1 <? intpol) || (1 <? dedge)); [| split]; reflexivity.
Qed.

(** C3, at the input where the code departs from it.  A field-packing
    write must return the invalid-field error, send nothing and leave the
    shadows alone when a value exceeds the width of its field.  The
    chopper-mode flag of CHOPCONF is one bit wide; written as 2 on the
    board after reset it is accepted: success is returned, a frame goes out
    and the shadow changes. *)
Theorem chopconf_accepts_wide_flag :
  let r := TMC260_send_chopconf datasheet_header 0 2 0 0 0 0 0 board in
  exceeds_width (TMC260_CHOPCONF_CHM datasheet_header) 2 = true
  /\ fst r = TMC260_SUCCESS
  /\ fst r <> TMC260_ERROR_INVALID_INPUT
  /\ spi_events (trace (hw board)) = []
  /\ rev (spi_events (trace (hw (snd r))))
     = [GpioWrite GPIOC GPIO_Pin_13 Bit_RESET;
        SpiSend 0x08; SpiSend 0x00; SpiSend 0x00;
        GpioWrite GPIOC GPIO_Pin_13 Bit_SET]
  /\ TMC260_CHOPCONF_regval (tmc board) = 0
  /\ TMC260_CHOPCONF_regval (tmc (snd r)) = 0x80000.
Proof. vm_compute. repeat split. discriminate. Qed.

(** * Further properties

    ** Datagram transport *)

(** X1.  Datagrams go out right-aligned and replies come in
    left-aligned: a value below [2^24] sent as a frame and read back from
    a looped line comes back divided by 16, that is, without its low four
    bits. *)
Theorem looped_frame_loses_low_nibble (v : Z) :
  0 <= v < 2 ^ 24 ->
  let '(b1, b2, b3) := datagram_bytes v in
  reply_of_bytes b1 b2 b3 = v / 16.
Proof.
  intros Hv. pose proof (datagram_bytes_value v (proj1 Hv)) as Hb.
  destruct (datagram_bytes v) as [[b1 b2] b3].
  destruct Hb as (H1 & H2 & H3 & Hsum).
  rewrite (Z.mod_small v) in Hsum by exact Hv.
  destruct (reply_of_bytes_value b1 b2 b3 H1 H2 H3) as [Hr _].
  rewrite Hr, Hsum. reflexivity.
Qed.

Lemma looped_frame_witness :
  reply_of_bytes 0x0E 0xF0 0x20 = 0xEF02.
Proof.
  assert (Hv : 0 <= 0xEF020 < 2 ^ 24) by (vm_compute; split; discriminate || reflexivity).
  exact (looped_frame_loses_low_nibble 0xEF020 Hv).
Defined.

(** X2.  A datagram write puts the low 24 bits of the value on the
    bus, most significant byte first, between a falling and a rising edge
    of the chip select; it reads nothing, returns success and touches
    neither the shadows nor the tilt variables.  Bits of the value above
    bit 23 are dropped. *)
Theorem write_datagram_sends_low_24_bits
  (H : tmc260_header) (v : Z) (m : machine) :
  0 <= v ->
  let r := TMC260_spi_write_datagram H v m in
  let '(b1, b2, b3) := datagram_bytes v in
  fst r = TMC260_SUCCESS
  /\ rev (spi_events (trace (hw (snd r))))
     = rev (spi_events (trace (hw m)))
       ++ [GpioWrite GPIOC GPIO_Pin_13 Bit_RESET;
           SpiSend b1; SpiSend b2; SpiSend b3;
           GpioWrite GPIOC GPIO_Pin_13 Bit_SET]
  /\ (0 <= b1 < 256 /\ 0 <= b2 < 256 /\ 0 <= b3 < 256)
  /\ b1 * 65536 + b2 * 256 + b3 = v mod 2 ^ 24
  /\ spi_count (hw (snd r)) = (3 + spi_count (hw m))%nat
  /\ tmc (snd r) = tmc m
  /\ tilt (snd r) = tilt m.
Proof.
  intros Hv r. subst r.
  pose proof (datagram_bytes_value v Hv) as Hb.
  assert (Hrun : forall b1 b2 b3, datagram_bytes v = (b1, b2, b3) ->
            fst (TMC260_spi_write_datagram H v m) = TMC260_SUCCESS
            /\ spi_events (trace (hw (snd (TMC260_spi_write_datagram H v m))))
               = [GpioWrite GPIOC GPIO_Pin_13 Bit_SET;
                  SpiSend b3; SpiSend b2; SpiSend b1;
                  GpioWrite GPIOC GPIO_Pin_13 Bit_RESET]
                 ++ spi_events (trace (hw m))
            /\ spi_count (hw (snd (TMC260_spi_write_datagram H v m)))
               = (3 + spi_count (hw m))%nat
            /\ tmc (snd (TMC260_spi_write_datagram H v m)) = tmc m
            /\ tilt (snd (TMC260_spi_write_datagram H v m)) = tilt m).
  { intros b1 b2 b3 Hd. unfold TMC260_spi_write_datagram. rewrite Hd.
    open_machine m. repeat split; reflexivity. }
  destruct (datagram_bytes v) as [[b1 b2] b3].
  destruct (Hrun b1 b2 b3 eq_refl) as (A & B & C & D & E).
  destruct Hb as (H1 & H2 & H3 & Hsum).
  rewrite B.
  rewrite rev_app_distr. cbn [rev app].
  repeat split; try assumption; try lia.
Qed.

Lemma write_datagram_witness :
  rev (spi_events
         (trace (hw (snd (TMC260_spi_write_datagram datasheet_header
                            0x1234567 board)))))
  = [GpioWrite GPIOC GPIO_Pin_13 Bit_RESET;
     SpiSend 0x23; SpiSend 0x45; SpiSend 0x67;
     GpioWrite GPIOC GPIO_Pin_13 Bit_SET].
Proof.
  assert (Hv : 0 <= 0x1234567) by (vm_compute; discriminate).
  exact (proj1 (proj2 (write_datagram_sends_low_24_bits datasheet_header
                         0x1234567 board Hv))).
Defined.

(** X3.  A datagram exchange returns the first 20 of the 24 bits
    the chip shifts out during the three transfers, most significant byte
    first: a value below [2^20], whatever is on the line; the last four
    bits read are dropped, and each byte read is also queued for the
    serial link. *)
Theorem exchange_returns_first_20_bits
  (H : tmc260_header) (v : Z) (m : machine) :
  let r := TMC260_spi_read_write_datagram H v m in
  let n := spi_count (hw m) in
  let r1 := Z.land (spi_miso (hw m) n) 0xFF in
  let r2 := Z.land (spi_miso (hw m) (1 + n)%nat) 0xFF in
  let r3 := Z.land (spi_miso (hw m) (2 + n)%nat) 0xFF in
  fst r = (TMC260_SUCCESS, (r1 * 65536 + r2 * 256 + r3) / 16)
  /\ 0 <= snd (fst r) < 2 ^ 20
  /\ spi_count (hw (snd r)) = (3 + n)%nat
  /\ incl [UsartQueue (UniversalByte r1); UsartQueue (UniversalByte r2);
           UsartQueue (UniversalByte r3)] (trace (hw (snd r)))
  /\ tmc (snd r) = tmc m
  /\ tilt (snd r) = tilt m.
Proof.
  intros r n r1 r2 r3.
  destruct (reply_of_bytes_value r1 r2 r3 (land_byte_range _)
              (land_byte_range _) (land_byte_range _)) as [Hval Hrange].
  assert (Hrun : fst r = (TMC260_SUCCESS, reply_of_bytes r1 r2 r3)
                 /\ spi_count (hw (snd r)) = (3 + n)%nat
                 /\ incl [UsartQueue (UniversalByte r1);
                          UsartQueue (UniversalByte r2);
                          UsartQueue (UniversalByte r3)]
                      (trace (hw (snd r)))
                 /\ tmc (snd r) = tmc m /\ tilt (snd r) = tilt m).
  { subst r n r1 r2 r3. unfold TMC260_spi_read_write_datagram.
    destruct (datagram_bytes v) as [[b1 b2] b3].
    open_machine m. split; [reflexivity |]. split; [reflexivity |].
    split; [| split; reflexivity].
    intros e He. cbn [In] in He.
    destruct He as [<- | [<- | [<- | []]]]; cbn; tauto. }
  destruct Hrun as (A & B & C & D & E).
  rewrite A. cbn [fst snd]. rewrite <- Hval.
  repeat split; try assumption; apply Hrange.
Qed.

(** ** Register packing *)

Lemma unpack_lor (f : field) (a b : Z) :
  unpack f (Z.lor a b) = Z.lor (unpack f a) (unpack f b).
Proof.
  unfold unpack. rewrite Z.land_lor_distr_l, Z.shiftr_lor. reflexivity.
Qed.

Lemma unpack_pack_other (f g : field) (v : Z) :
  Z.land (mask g) (mask f) = 0 -> unpack f (pack g v) = 0.
Proof.
  intros Hd. unfold unpack, pack.
  rewrite <- Z.land_assoc, Hd, Z.land_0_r. apply Z.shiftr_0_l.
Qed.

Lemma unpack_pack_same (f : field) (v : Z) :
  exceeds_width f v = false -> unpack f (pack f v) = v.
Proof.
  unfold exceeds_width. intros He.
  apply negb_false_iff, Z.eqb_eq in He. exact He.
Qed.

Lemma unpack_outside (f : field) (x : Z) :
  Z.land x (mask f) = 0 -> unpack f x = 0.
Proof. intros Hx. unfold unpack. rewrite Hx. apply Z.shiftr_0_l. Qed.

(** Fields or-ed in later do not disturb what a disjoint field decodes. *)
Lemma unpack_pack_fields_outside (f : field) (fvs : list (field * Z)) :
  forall init,
    Forall (fun g => Z.land (mask g) (mask f) = 0) (map fst fvs) ->
    unpack f (pack_fields init fvs) = unpack f init.
Proof.
  induction fvs as [| [g v] fvs IH]; intros init Hd; [reflexivity |].
  inversion Hd as [| g' gs Hg Hgs]; subst.
  cbn [pack_fields fold_left fst snd].
  change (unpack f (pack_fields (Z.lor init (pack g v)) fvs)
          = unpack f init).
  rewrite IH by exact Hgs.
  rewrite unpack_lor, unpack_pack_other by exact Hg. apply Z.lor_0_r.
Qed.

Lemma pack_fields_decodes (fvs : list (field * Z)) :
  forall init,
    (forall f, In f (map fst fvs) -> unpack f init = 0) ->
    ForallOrdPairs (fun f g => Z.land (mask f) (mask g) = 0) (map fst fvs) ->
    values_fit fvs ->
    decodes_to (pack_fields init fvs) fvs.
Proof.
  induction fvs as [| [f v] fvs IH]; intros init Hinit Hpairs Hfit;
    [constructor |].
  inversion Hpairs as [| f' fs Hf Hrest]; subst.
  inversion Hfit as [| fv' fvs' Hv Hfit']; subst. cbn [fst snd] in Hv.
  constructor.
  - cbn [fst snd pack_fields fold_left].
    change (unpack f (pack_fields (Z.lor init (pack f v)) fvs) = v).
    rewrite unpack_pack_fields_outside.
    + rewrite unpack_lor, (Hinit f (or_introl eq_refl)),
        unpack_pack_same by exact Hv.
      apply Z.lor_0_l.
    + apply Forall_forall. intros g Hg.
      rewrite Z.land_comm. revert g Hg. apply Forall_forall. exact Hf.
  - cbn [pack_fields fold_left fst snd].
    change (decodes_to (pack_fields (Z.lor init (pack f v)) fvs) fvs).
    apply IH; [| exact Hrest | exact Hfit'].
    intros g Hg. rewrite unpack_lor, (Hinit g (or_intror Hg)).
    rewrite unpack_pack_other; [reflexivity |].
    revert g Hg. apply Forall_forall. exact Hf.
Qed.

(** Decoding a packed register gives back every field value that fits,
    when the layout keeps the fields apart. *)
Lemma pack_fields_round_trip (init : Z) (fvs : list (field * Z)) :
  layout_ok init (map fst fvs) -> values_fit fvs ->
  decodes_to (pack_fields init fvs) fvs.
Proof.
  intros [Hinit Hpairs] Hfit. apply pack_fields_decodes; try assumption.
  intros f Hf. apply unpack_outside. revert f Hf. apply Forall_forall.
  exact Hinit.
Qed.

Lemma below_pow2_land (n x : Z) :
  0 <= n -> (0 <= x < 2 ^ n <-> Z.land x (Z.ones n) = x).
Proof.
  intros Hn. rewrite Z.land_ones by exact Hn. split.
  - intros Hx. apply Z.mod_small. exact Hx.
  - intros Hx. rewrite <- Hx. apply Z.mod_pos_bound. apply Z.pow_pos_nonneg; lia.
Qed.

(** A register packed from a base pattern and masks below [2^n] is below
    [2^n], whatever the field values. *)
Lemma pack_fields_below (n : Z) (fvs : list (field * Z)) :
  0 <= n ->
  forall init,
    0 <= init < 2 ^ n ->
    Forall (fun f => 0 <= mask f < 2 ^ n) (map fst fvs) ->
    0 <= pack_fields init fvs < 2 ^ n.
Proof.
  intros Hn. induction fvs as [| [f v] fvs IH]; intros init Hinit Hm;
    [exact Hinit |].
  inversion Hm as [| f' fs Hf Hfs]; subst. cbn [fst] in Hf.
  cbn [pack_fields fold_left fst snd].
  change (0 <= pack_fields (Z.lor init (pack f v)) fvs < 2 ^ n).
  apply IH; [| exact Hfs].
  apply below_pow2_land; [exact Hn |].
  apply (below_pow2_land n) in Hinit, Hf; try exact Hn.
  unfold pack.
  rewrite Z.land_lor_distr_l, Hinit, <- Z.land_assoc, Hf. reflexivity.
Qed.

(** X4.  For each of the six register writers: when the header keeps the
    fields of the register apart and outside its base pattern, and the
    values fit their fields, every field decodes from the packed value (for
    DRVCTRL, from the shadow the writer leaves) to the value passed in. *)
Theorem register_values_decode (H : tmc260_header) :
  (forall tbl chm rndtf hdec hend hstrt toff : Z,
      let fvs := combine (chopconf_fields H)
                   [tbl; chm; rndtf; hdec; hend; hstrt; toff] in
      layout_ok (TMC260_CHOPCONF_INIT H) (chopconf_fields H) ->
      values_fit fvs ->
      decodes_to (chopconf_regval H tbl chm rndtf hdec hend hstrt toff) fvs)
  /\ (forall seimin sedn semax seup semin : Z,
         let fvs := combine (smarten_fields H)
                      [seimin; sedn; semax; seup; semin] in
         layout_ok (TMC260_SMARTEN_INIT H) (smarten_fields H) ->
         values_fit fvs ->
         decodes_to (smarten_regval H seimin sedn semax seup semin) fvs)
  /\ (forall sfilt sgt cs : Z,
         let fvs := combine (sgcsconf_fields H) [sfilt; sgt; cs] in
         layout_ok (TMC260_SGCSCONF_INIT H) (sgcsconf_fields H) ->
         values_fit fvs ->
         decodes_to (sgcsconf_regval H sfilt sgt cs) fvs)
  /\ (forall tst slph slpl diss2g ts2g sdoff vsense rdsel : Z,
         let fvs := combine (drvconf_fields H)
                      [tst; slph; slpl; diss2g; ts2g; sdoff; vsense; rdsel] in
         layout_ok (TMC260_DRVCONF_INIT H) (drvconf_fields H) ->
         values_fit fvs ->
         decodes_to
           (drvconf_regval H tst slph slpl diss2g ts2g sdoff vsense rdsel) fvs)
  /\ (forall (intpol dedge mres : Z) (m : machine),
         let fvs := combine (drvctrl_sdon_fields H) [intpol; dedge; mres] in
         layout_ok (TMC260_DRVCTRL_SDON_INIT H) (drvctrl_sdon_fields H) ->
         values_fit fvs ->
         intpol <= 1 -> dedge <= 1 ->
         decodes_to
           (TMC260_DRVCTRL_regval
              (tmc (exec (TMC260_send_drvctrl_sdon H intpol dedge mres) m)))
           fvs)
  /\ (forall (ph_a_dir ph_a_cur ph_b_dir ph_b_cur : Z) (m : machine),
         let fvs := combine (drvctrl_sdoff_fields H)
                      [ph_a_dir; ph_a_cur; ph_b_dir; ph_b_cur] in
         layout_ok (TMC260_DRVCTRL_SDOFF_INIT H) (drvctrl_sdoff_fields H) ->
         values_fit fvs ->
         ph_a_dir <= 1 -> ph_b_dir <= 1 ->
         decodes_to
           (TMC260_DRVCTRL_regval
              (tmc (exec (TMC260_send_drvctrl_sdoff H ph_a_dir ph_a_cur
                            ph_b_dir ph_b_cur) m)))
           fvs).
Proof.
  repeat split.
  - intros. apply (pack_fields_round_trip (TMC260_CHOPCONF_INIT H) fvs);
      assumption.
  - intros. apply (pack_fields_round_trip (TMC260_SMARTEN_INIT H) fvs);
      assumption.
  - intros. apply (pack_fields_round_trip (TMC260_SGCSCONF_INIT H) fvs);
      assumption.
  - intros. apply (pack_fields_round_trip (TMC260_DRVCONF_INIT H) fvs);
      assumption.
  - intros intpol dedge mres m fvs Hl Hf Hi Hd.
    assert (Hgo : (1 <? intpol) || (1 <? dedge) = false).
    { apply orb_false_iff. split; apply Z.ltb_ge; assumption. }
    replace (TMC260_DRVCTRL_regval
               (tmc (exec (TMC260_send_drvctrl_sdon H intpol dedge mres) m)))
      with (pack_fields (TMC260_DRVCTRL_SDON_INIT H) fvs).
    + apply pack_fields_round_trip; assumption.
    + unfold exec, TMC260_send_drvctrl_sdon. rewrite Hgo.
      destruct m as [g c h]. reflexivity.
  - intros a ac b bc m fvs Hl Hf Hi Hd.
    assert (Hgo : (1 <? a) || (1 <? b) = false).
    { apply orb_false_iff. split; apply Z.ltb_ge; assumption. }
    replace (TMC260_DRVCTRL_regval
               (tmc (exec (TMC260_send_drvctrl_sdoff H a ac b bc) m)))
      with (pack_fields (TMC260_DRVCTRL_SDOFF_INIT H) fvs).
    + apply pack_fields_round_trip; assumption.
    + unfold exec, TMC260_send_drvctrl_sdoff. rewrite Hgo.
      destruct m as [g c h]. reflexivity.
Qed.

Lemma register_values_decode_witness :
  let H := datasheet_header in
  let fvs := combine (chopconf_fields H) [0; 1; 0; 0; 0; 4; 4] in
  layout_ok (TMC260_CHOPCONF_INIT H) (chopconf_fields H)
  /\ values_fit fvs
  /\ decodes_to (chopconf_regval H 0 1 0 0 0 4 4) fvs.
Proof.
  intros H fvs.
  assert (Hl : layout_ok (TMC260_CHOPCONF_INIT H) (chopconf_fields H))
    by (split; repeat constructor).
  assert (Hf : values_fit fvs) by (repeat constructor).
  split; [exact Hl |]. split; [exact Hf |].
  exact (proj1 (register_values_decode H) 0 1 0 0 0 4 4 Hl Hf).
Defined.

(** X5.  With a header whose base patterns and masks lie below [2^20],
    the value each writer packs lies below [2^20] whatever the arguments,
    so its frame starts with four zero bits and its three bytes are the
    value itself. *)
Theorem register_values_20_bits (H : tmc260_header) :
  header_20_bits H ->
  forall v : Z,
    (exists tbl chm rndtf hdec hend hstrt toff,
        v = chopconf_regval H tbl chm rndtf hdec hend hstrt toff)
    \/ (exists seimin sedn semax seup semin,
           v = smarten_regval H seimin sedn semax seup semin)
    \/ (exists sfilt sgt cs, v = sgcsconf_regval H sfilt sgt cs)
    \/ (exists tst slph slpl diss2g ts2g sdoff vsense rdsel,
           v = drvconf_regval H tst slph slpl diss2g ts2g sdoff vsense rdsel) ->
    0 <= v < 2 ^ 20
    /\ let '(b1, b2, b3) := datagram_bytes v in
       0 <= b1 < 16 /\ 0 <= b2 < 256 /\ 0 <= b3 < 256
       /\ b1 * 65536 + b2 * 256 + b3 = v.
Proof.
  intros [Hinit Hmask] v Hv.
  assert (Hr : 0 <= v < 2 ^ 20).
  { rewrite Forall_forall in Hinit. rewrite !Forall_app in Hmask.
    destruct Hmask as (_ & _ & Hc & Hs & Hg & Hd).
    destruct Hv as [Hv | [Hv | [Hv | Hv]]].
    - destruct Hv as (tbl & chm & rndtf & hdec & hend & hstrt & toff & ->).
      apply (pack_fields_below 20
               (combine (chopconf_fields H)
                  [tbl; chm; rndtf; hdec; hend; hstrt; toff]));
        [lia | apply Hinit; cbn; tauto | exact Hc].
    - destruct Hv as (seimin & sedn & semax & seup & semin & ->).
      apply (pack_fields_below 20
               (combine (smarten_fields H) [seimin; sedn; semax; seup; semin]));
        [lia | apply Hinit; cbn; tauto | exact Hs].
    - destruct Hv as (sfilt & sgt & cs & ->).
      apply (pack_fields_below 20
               (combine (sgcsconf_fields H) [sfilt; sgt; cs]));
        [lia | apply Hinit; cbn; tauto | exact Hg].
    - destruct Hv as (tst & slph & slpl & diss2g & ts2g & sdoff & vsense
                      & rdsel & ->).
      apply (pack_fields_below 20
               (combine (drvconf_fields H)
                  [tst; slph; slpl; diss2g; ts2g; sdoff; vsense; rdsel]));
        [lia | apply Hinit; cbn; tauto | exact Hd]. }
  split; [exact Hr |].
  pose proof (datagram_bytes_value v (proj1 Hr)) as Hb.
  destruct (datagram_bytes v) as [[b1 b2] b3].
  destruct Hb as (H1 & H2 & H3 & Hsum).
  rewrite Z.mod_small in Hsum
    by (change (2 ^ 24) with 16777216; change (2 ^ 20) with 1048576 in Hr; lia).
  change (2 ^ 20) with 1048576 in Hr.
  repeat split; try lia.
Qed.

Lemma register_values_20_bits_witness :
  header_20_bits datasheet_header
  /\ 0 <= drvconf_regval datasheet_header 0 3 3 0 0 0 1 2 < 2 ^ 20
  /\ datagram_bytes (drvconf_regval datasheet_header 0 3 3 0 0 0 1 2)
     = (0x0E, 0xF0, 0x60).
Proof.
  assert (Hh : header_20_bits datasheet_header).
  { split; repeat constructor; discriminate. }
  split; [exact Hh |].
  split.
  - apply (register_values_20_bits datasheet_header Hh).
    right. right. right. exists 0, 3, 3, 0, 0, 0, 1, 2. reflexivity.
  - reflexivity.
Defined.

(** ** Status requests in sequence *)

Lemma land_mask_not_u32 (mk : Z) : Z.land mk (Cint.not_u32 mk) = 0.
Proof.
  apply Z.bits_inj'. intros i Hi.
  rewrite Z.land_spec, testbit_not_u32, Z.bits_0 by exact Hi.
  destruct (Z.testbit mk i), (i <? 32); reflexivity.
Qed.

Lemma pack_outside_mask (f : field) (c : Z) :
  Z.land (pack f c) (Cint.not_u32 (mask f)) = 0.
Proof.
  unfold pack. rewrite <- Z.land_assoc, land_mask_not_u32. apply Z.land_0_r.
Qed.

Lemma rdsel_update_twice (H : tmc260_header) (k1 k2 : tmc260_status_types)
  (v : Z) :
  rdsel_update H k1 v <> 0 ->
  rdsel_update H k2 (rdsel_update H k1 v) = rdsel_update H k2 v.
Proof.
  intros Hnz. unfold rdsel_update at 1.
  destruct (Z.eqb_spec (rdsel_update H k1 v) 0) as [Hz | _]; [contradiction |].
  unfold rdsel_update.
  rewrite Z.land_lor_distr_l, pack_outside_mask, Z.lor_0_r.
  rewrite <- Z.land_assoc, Z.land_diag. reflexivity.
Qed.

(** X6.  The shadows after a status request depend only on the kind
    last requested: a request that follows another leaves the shadows a
    single request for its kind leaves, provided the first did not leave
    the DRVCONF shadow zero (which the next request would take for
    unconfigured).  A repeated request changes no shadow. *)
Theorem status_requests_compose
  (H : tmc260_header) (k1 k2 : tmc260_status_types) (m : machine) :
  TMC260_DRVCONF_regval (tmc (exec (TMC260_spi_read_status H k1) m)) <> 0 ->
  tmc (exec (TMC260_spi_read_status H k2)
         (exec (TMC260_spi_read_status H k1) m))
  = tmc (exec (TMC260_spi_read_status H k2) m)
  /\ tmc (exec (TMC260_spi_read_status H k1)
            (exec (TMC260_spi_read_status H k1) m))
     = tmc (exec (TMC260_spi_read_status H k1) m).
Proof.
  intros Hnz.
  destruct (read_status_run H k1 m) as (H1 & _).
  assert (Hgen : forall k,
    tmc (exec (TMC260_spi_read_status H k)
           (exec (TMC260_spi_read_status H k1) m))
    = tmc (exec (TMC260_spi_read_status H k) m)).
  { intros k.
    destruct (read_status_run H k (exec (TMC260_spi_read_status H k1) m))
      as (H2 & _).
    destruct (read_status_run H k m) as (H3 & _).
    rewrite H2, H3. rewrite H1 in Hnz |- *.
    destruct (tmc m); cbn in Hnz |- *.
    rewrite rdsel_update_twice by exact Hnz. reflexivity. }
  split; apply Hgen.
Qed.

Lemma status_requests_compose_witness :
  tmc (exec (TMC260_spi_read_status datasheet_header TMC260_STATUS_CURRENT)
         (exec (TMC260_spi_read_status datasheet_header TMC260_STATUS_POSITION)
            board))
  = tmc (exec (TMC260_spi_read_status datasheet_header TMC260_STATUS_CURRENT)
           board).
Proof.
  assert (Hnz : TMC260_DRVCONF_regval
                  (tmc (exec (TMC260_spi_read_status datasheet_header
                                TMC260_STATUS_POSITION) board)) <> 0)
    by (vm_compute; discriminate).
  exact (proj1 (status_requests_compose datasheet_header
                  TMC260_STATUS_POSITION TMC260_STATUS_CURRENT board Hnz)).
Defined.

(** ** Invariants of the three handlers *)

Arguments reply_of_bytes : simpl never.
Arguments parse_status : simpl never.
Arguments pack : simpl never.
Arguments unpack : simpl never.
Arguments Z.land : simpl never.
Arguments Z.lor : simpl never.
Arguments Z.shiftr : simpl never.
Arguments Z.shiftl : simpl never.

Ltac run_handler := unfold_tilt; unfold_gpio; fw_unfold; cbn.

Lemma sane_power_on (P : tilt_header) (miso : nat -> Z) :
  sane (power_on P miso).
Proof.
  unfold sane, dir_line_agrees. cbn.
  repeat split; try reflexivity; try congruence. right. reflexivity.
Qed.

Ltac use_sane Hs :=
  unfold sane, dir_line_agrees in Hs |- *;
  cbn [tilt tmc hw ts_state current_step_dir pins trace TMC260_initialized]
    in Hs;
  destruct Hs as (Hphase & Hdir & Hpulse & Hup).

Ltac bring_up_known :=
  match goal with
  | Hup : ?a <> ?b -> _ |- _ =>
      let X := fresh in
      assert (X : a <> b) by discriminate;
      destruct (Hup X) as (Hi & Hc); clear X
  end.

Ltac close_sane :=
  cbn;
  repeat match goal with
         | |- _ /\ _ => split
         | |- _ -> _ => intro
         end;
  try reflexivity; try assumption; try congruence;
  try (left; first [reflexivity | assumption]);
  try (right; assumption).

Lemma step_tick_sane (H : tmc260_header) (P : tilt_header) (m : machine) :
  sane m -> sane (fire H P StepTick m).
Proof.
  open_machine m. intros Hs. use_sane Hs. unfold fire.
  destruct state0; try discriminate Hphase; run_handler.
  - close_sane.
  - bring_up_known.
    destruct dir0; cbn; destruct (TOS_100_DEV_BOARD H); cbn;
      destruct (pins0 GPIOA GPIO_Pin_2); cbn; close_sane.
  - bring_up_known.
    split_ifs;
      try (destruct dir0; cbn; destruct (TOS_100_DEV_BOARD H); cbn;
           destruct (pins0 GPIOA GPIO_Pin_2); cbn);
      close_sane.
  - bring_up_known. close_sane.
Qed.

Lemma sensor_edge_sane (H : tmc260_header) (P : tilt_header)
  (l : BitAction) (m : machine) :
  sane m -> sane (fire H P (SensorEdge l) m).
Proof.
  open_machine m. intros Hs. use_sane Hs. unfold fire, sensor_level.
  unfold home_crossed, home_far_side. run_handler.
  destruct state0; try discriminate Hphase;
    destruct l; cbn; destruct dir0; cbn;
    try (destruct (steps_of_pos P (F32.lit 314 100) =? 0); cbn);
    try bring_up_known; close_sane.
Qed.

Lemma state_tick_sane (H : tmc260_header) (P : tilt_header) (m : machine) :
  sane m -> sane (fire H P StateTick m).
Proof.
  open_machine m. intros Hs. use_sane Hs. unfold fire.
  destruct state0; try discriminate Hphase.
  - run_handler. split_ifs; close_sane.
  - bring_up_known. run_handler. split_ifs; close_sane.
  - bring_up_known. run_handler. split_ifs; close_sane.
  - bring_up_known. destruct drvconf0; run_handler; split_ifs; close_sane.
Qed.

Lemma fire_sane (H : tmc260_header) (P : tilt_header) (i : irq)
  (m : machine) :
  sane m -> sane (fire H P i m).
Proof.
  destruct i;
    [apply state_tick_sane | apply step_tick_sane | apply sensor_edge_sane].
Qed.

(** Every state the handlers reach from reset is sane. *)
Lemma reachable_sane (H : tmc260_header) (P : tilt_header)
  (miso : nat -> Z) (irqs : list irq) :
  sane (fire_all H P irqs (power_on P miso)).
Proof.
  unfold fire_all.
  generalize (sane_power_on P miso). generalize (power_on P miso).
  induction irqs as [| i irqs IH]; intros m Hm; [exact Hm |].
  cbn [fold_left]. apply IH, fire_sane, Hm.
Qed.

(** X7.  From reset, whatever interrupts fire and in whatever order,
    the phase is one of [Initialize], [Home], [TestDelay] and the sweep:
    the two test phases and [Error] are never entered. *)
Theorem test_and_error_phases_unreachable
  (H : tmc260_header) (P : tilt_header) (miso : nat -> Z)
  (irqs : list irq) :
  let st := ts_state (tilt (fire_all H P irqs (power_on P miso))) in
  st = TILT_STEPPER_INITIALIZE \/ st = TILT_STEPPER_HOME
  \/ st = TILT_STEPPER_TEST_DELAY \/ st = TILT_STEPPER_TILT_TABLE.
Proof.
  intros st. destruct (reachable_sane H P miso irqs) as (Hp & _).
  fold st in Hp. destruct st; try discriminate Hp; tauto.
Qed.

(** X8.  From reset, after every handler the direction line carries
    the commanded direction: it is low when the direction is CW and high
    when it is CCW. *)
Theorem direction_line_follows_command
  (H : tmc260_header) (P : tilt_header) (miso : nat -> Z)
  (irqs : list irq) :
  let m := fire_all H P irqs (power_on P miso) in
  (current_step_dir (tilt m) = TILT_STEPPER_DIR_CW ->
   pins (hw m) GPIOA GPIO_Pin_1 = Bit_RESET)
  /\ (current_step_dir (tilt m) = TILT_STEPPER_DIR_CCW ->
      pins (hw m) GPIOA GPIO_Pin_1 = Bit_SET).
Proof.
  intros m. destruct (reachable_sane H P miso irqs) as (_ & Hd & _).
  fold m in Hd. unfold dir_line_agrees in Hd.
  split; intros Hc; rewrite Hc in Hd; exact Hd.
Qed.

Lemma direction_line_witness :
  let m := fire_all datasheet_header example_tilt
             [StateTick; SensorEdge uncovered; StateTick] board in
  current_step_dir (tilt m) = TILT_STEPPER_DIR_CCW
  /\ pins (hw m) GPIOA GPIO_Pin_1 = Bit_SET.
Proof.
  intros m.
  assert (Hc : current_step_dir (tilt m) = TILT_STEPPER_DIR_CCW)
    by (vm_compute; reflexivity).
  split; [exact Hc |].
  exact (proj2 (direction_line_follows_command datasheet_header example_tilt
                  (miso_const 0)
                  [StateTick; SensorEdge uncovered; StateTick]) Hc).
Defined.

(** X9.  From reset, no step pulse is issued before the driver is
    brought up: as long as the driver is not marked initialised the trace
    holds no write of the step line; and once the phase has left
    [Initialize] the driver is initialised and the chip select is released
    (high) whenever a handler has returned. *)
Theorem no_step_before_bring_up
  (H : tmc260_header) (P : tilt_header) (miso : nat -> Z)
  (irqs : list irq) :
  let m := fire_all H P irqs (power_on P miso) in
  (TMC260_initialized (tmc m) <> 1 ->
   forall l, ~ In (GpioWrite GPIOA GPIO_Pin_2 l) (trace (hw m)))
  /\ (ts_state (tilt m) <> TILT_STEPPER_INITIALIZE ->
      TMC260_initialized (tmc m) = 1
      /\ pins (hw m) GPIOC GPIO_Pin_13 = Bit_SET).
Proof.
  intros m. destruct (reachable_sane H P miso irqs) as (_ & _ & Hp & Hup).
  fold m in Hp, Hup. split; [| exact Hup].
  intros Hn l Hin. destruct Hp as [Hp | Hp]; [contradiction |].
  assert (Ht : existsb is_step_pulse (trace (hw m)) = true).
  { apply existsb_exists. exists (GpioWrite GPIOA GPIO_Pin_2 l).
    split; [exact Hin | reflexivity]. }
  rewrite Hp in Ht. discriminate Ht.
Qed.

Lemma no_step_before_bring_up_witness :
  let m := fire_all datasheet_header example_tilt
             [StepTick; SensorEdge covered; StepTick] board in
  TMC260_initialized (tmc m) <> 1
  /\ ~ In (GpioWrite GPIOA GPIO_Pin_2 Bit_SET) (trace (hw m))
  /\ ts_state (tilt (fire_all datasheet_header example_tilt [StateTick] board))
     <> TILT_STEPPER_INITIALIZE
  /\ pins (hw (fire_all datasheet_header example_tilt [StateTick] board))
       GPIOC GPIO_Pin_13 = Bit_SET.
Proof.
  intros m.
  assert (Hn : TMC260_initialized (tmc m) <> 1) by (vm_compute; discriminate).
  assert (Hs : ts_state (tilt (fire_all datasheet_header example_tilt
                                 [StateTick] board))
               <> TILT_STEPPER_INITIALIZE) by (vm_compute; discriminate).
  split; [exact Hn |].
  split.
  - exact (proj1 (no_step_before_bring_up datasheet_header example_tilt
                    (miso_const 0) [StepTick; SensorEdge covered; StepTick])
             Hn Bit_SET).
  - split; [exact Hs |].
    exact (proj2 (proj2 (no_step_before_bring_up datasheet_header example_tilt
                           (miso_const 0) [StateTick])
                    Hs)).
Defined.

(** ** Phase changes *)

Lemma step_tick_keeps (H : tmc260_header) (P : tilt_header) (m : machine) :
  let m' := fire H P StepTick m in
  ts_state (tilt m') = ts_state (tilt m)
  /\ last_dir (tilt m') = last_dir (tilt m)
  /\ current_step_dir (tilt m') = current_step_dir (tilt m)
  /\ tmc m' = tmc m
  /\ spi_count (hw m') = spi_count (hw m)
  /\ spi_events (trace (hw m')) = spi_events (trace (hw m)).
Proof.
  open_machine m. unfold fire.
  destruct state0; run_handler; split_ifs;
    try (destruct dir0; cbn; destruct (TOS_100_DEV_BOARD H); cbn;
         destruct (pins0 GPIOA GPIO_Pin_2); cbn);
    repeat split; reflexivity.
Qed.

Lemma sensor_edge_keeps (H : tmc260_header) (P : tilt_header)
  (l : BitAction) (m : machine) :
  let m' := fire H P (SensorEdge l) m in
  (ts_state (tilt m') = ts_state (tilt m)
   \/ (ts_state (tilt m) = TILT_STEPPER_HOME
       /\ steps_from_home (tilt m') = 0
       /\ ts_state (tilt m') = TILT_STEPPER_TEST_DELAY
       /\ ts_state_timer (tilt m') = 0
       /\ last_dir (tilt m') = 1))
  /\ current_step_dir (tilt m') = current_step_dir (tilt m)
  /\ tmc m' = tmc m
  /\ spi_count (hw m') = spi_count (hw m)
  /\ spi_events (trace (hw m')) = spi_events (trace (hw m)).
Proof.
  open_machine m. unfold fire, sensor_level.
  unfold home_crossed, home_far_side. run_handler.
  destruct l; cbn; destruct dir0; cbn;
    try (destruct (steps_of_pos P (F32.lit 314 100) =? 0) eqn:E; cbn);
    destruct state0; cbn; repeat split; try reflexivity;
    try (left; reflexivity); right; repeat split; try reflexivity.
  all: apply Z.eqb_eq; exact E.
Qed.

Lemma state_tick_follows (H : tmc260_header) (P : tilt_header) (m : machine) :
  may_follow StateTick (ts_state (tilt m))
    (ts_state (tilt (fire H P StateTick m))) = true.
Proof.
  open_machine m. unfold fire.
  destruct state0;
    try (destruct drvconf0); run_handler; split_ifs; reflexivity.
Qed.

(** X10.  The phase changes only along these edges.  A step tick
    never changes it.  A sensor edge changes it only from [Home] to
    [TestDelay].  A state-machine tick takes
    [Initialize] to [Home], keeps [Home], and takes every other phase to
    itself, to its successor ([TestDelay] to the sweep, a test phase to
    the other) or to [Home]. *)
Theorem phase_changes_along_graph
  (H : tmc260_header) (P : tilt_header) (i : irq) (m : machine) :
  may_follow i (ts_state (tilt m)) (ts_state (tilt (fire H P i m))) = true.
Proof.
  destruct i.
  - apply state_tick_follows.
  - destruct (step_tick_keeps H P m) as (Hs & _).
    cbn [may_follow]. rewrite Hs. destruct (ts_state (tilt m)); reflexivity.
  - destruct (sensor_edge_keeps H P level m) as ([Hs | (Ha & _ & Hb & _)] & _);
      cbn [may_follow].
    + rewrite Hs. destruct (ts_state (tilt m)); reflexivity.
    + rewrite Ha, Hb. reflexivity.
Qed.

(** X11.  Timer ticks alone never end homing: from [Home], after any
    sequence of state-machine and step ticks the phase is still [Home]. *)
Theorem homing_ends_only_on_sensor_edge
  (H : tmc260_header) (P : tilt_header) (irqs : list irq) :
  forallb is_tick irqs = true ->
  forall m : machine,
    ts_state (tilt m) = TILT_STEPPER_HOME ->
    ts_state (tilt (fire_all H P irqs m)) = TILT_STEPPER_HOME.
Proof.
  unfold fire_all.
  induction irqs as [| i irqs IH]; intros Ht m Hm; [exact Hm |].
  cbn [forallb] in Ht. apply andb_true_iff in Ht. destruct Ht as [Hi Ht].
  cbn [fold_left]. apply (IH Ht).
  destruct i; try discriminate Hi.
  - pose proof (state_tick_follows H P m) as Hg. rewrite Hm in Hg.
    cbn [may_follow] in Hg.
    destruct (ts_state (tilt (fire H P StateTick m))); try discriminate Hg.
    reflexivity.
  - destruct (step_tick_keeps H P m) as (Hs & _). rewrite Hs. exact Hm.
Qed.

Lemma homing_ends_only_witness :
  ts_state
    (tilt (fire_all datasheet_header example_tilt
             [StateTick; StepTick; StepTick; StateTick]
             (in_phase TILT_STEPPER_HOME 0 board)))
  = TILT_STEPPER_HOME.
Proof.
  apply (homing_ends_only_on_sensor_edge datasheet_header example_tilt
           [StateTick; StepTick; StepTick; StateTick]);
    reflexivity.
Defined.

(** ** The delay after homing and the sweeps *)

Lemma wrap_u32_succ (t : Z) :
  0 <= t < 2 ^ 32 - 1 -> Cint.wrap_u32 (t + 1) = t + 1.
Proof.
  intros Ht. unfold Cint.wrap_u32. apply Z.mod_small. lia.
Qed.

(** A step tick outside the stepping phases leaves the variables alone. *)
Lemma step_tick_idle (H : tmc260_header) (P : tilt_header) (m : machine) :
  ts_state (tilt m) = TILT_STEPPER_TEST_DELAY ->
  tilt (fire H P StepTick m) = tilt m.
Proof.
  open_machine m. cbn [tilt ts_state]. intros Hs. subst state0.
  unfold fire. run_handler. reflexivity.
Qed.

(** A state-machine tick in the delay phase, the guard not tripping. *)
Lemma delay_tick (H : tmc260_header) (P : tilt_header) (m : machine) :
  ts_state (tilt m) = TILT_STEPPER_TEST_DELAY ->
  within_guard (current_pos_rad (tilt m)) ->
  let m' := fire H P StateTick m in
  let t := Cint.wrap_u32 (ts_state_timer (tilt m) + 1) in
  (if 200 <? t
   then ts_state (tilt m') = TILT_STEPPER_TILT_TABLE
        /\ ts_state_timer (tilt m') = 0
   else ts_state (tilt m') = TILT_STEPPER_TEST_DELAY
        /\ ts_state_timer (tilt m') = t)
  /\ current_pos_rad (tilt m') = current_pos_rad (tilt m)
  /\ steps_from_home (tilt m') = steps_from_home (tilt m)
  /\ last_dir (tilt m') = last_dir (tilt m)
  /\ current_step_dir (tilt m') = current_step_dir (tilt m)
  /\ tilt_index (tilt m') = tilt_index (tilt m).
Proof.
  open_machine m.
  cbn [tilt ts_state current_pos_rad ts_state_timer steps_from_home last_dir
       current_step_dir tilt_index].
  intros Hs [Hg Hl]. subst state0. unfold fire.
  destruct drvconf0; run_handler; rewrite ?Hg, ?Hl; cbn;
    split_ifs; rewrite ?Hg, ?Hl; cbn; try (repeat split; reflexivity); lia.
Qed.

(** Entering a sweep: the state-machine tick that finds the tick counter
    at 0 in the sweep phase. *)
Lemma sweep_entry (H : tmc260_header) (P : tilt_header) (m : machine) :
  ts_state (tilt m) = TILT_STEPPER_TILT_TABLE ->
  ts_state_timer (tilt m) = 0 ->
  within_guard (current_pos_rad (tilt m)) ->
  let m' := fire H P StateTick m in
  ts_state (tilt m') = TILT_STEPPER_TILT_TABLE
  /\ ts_state_timer (tilt m') = 1
  /\ tilt_index (tilt m') = 0
  /\ TIM5_ARR (hw m') = nth 0 (stepper_profile P) 0
  /\ current_step_dir (tilt m')
     = (if last_dir (tilt m) =? 0
        then TILT_STEPPER_DIR_CCW else TILT_STEPPER_DIR_CW)
  /\ last_dir (tilt m') = (if last_dir (tilt m) =? 0 then 1 else 0)
  /\ steps_from_home (tilt m') = steps_from_home (tilt m)
  /\ current_pos_rad (tilt m') = current_pos_rad (tilt m)
  /\ pins (hw m') GPIOA GPIO_Pin_1
     = (if last_dir (tilt m) =? 0 then Bit_SET else Bit_RESET).
Proof.
  open_machine m.
  cbn [tilt hw ts_state current_pos_rad ts_state_timer steps_from_home
       last_dir].
  intros Hs Ht [Hg Hl]. subst state0 timer0. unfold fire.
  run_handler. rewrite ?Hg, ?Hl. cbn.
  split_ifs; try discriminate; rewrite ?Hg, ?Hl; cbn;
    try match goal with
        | E : (Cint.wrap_u32 1 =? 1) = false |- _ =>
            vm_compute in E; discriminate
        end;
    repeat split; reflexivity.
Qed.

(** A step tick of a sweep: on an entry to step on, and at the end of the
    profile. *)
Lemma sweep_step (H : tmc260_header) (P : tilt_header) (m : machine) :
  ts_state (tilt m) = TILT_STEPPER_TILT_TABLE ->
  let m' := fire H P StepTick m in
  let i := Cint.wrap_u32 (tilt_index (tilt m) + 1) in
  tilt_index (tilt m') = i
  /\ ts_state (tilt m') = TILT_STEPPER_TILT_TABLE
  /\ last_dir (tilt m') = last_dir (tilt m)
  /\ current_step_dir (tilt m') = current_step_dir (tilt m)
  /\ (if (i <? tilt_elements P) && (0 <? nth (Z.to_nat i) (stepper_profile P) 0)
      then steps_from_home (tilt m')
           = stepped (current_step_dir (tilt m)) (steps_from_home (tilt m))
           /\ current_pos_rad (tilt m')
              = pos_of_steps P (steps_from_home (tilt m'))
           /\ ts_state_timer (tilt m') = ts_state_timer (tilt m)
           /\ TIM5_ARR (hw m') = nth (Z.to_nat i) (stepper_profile P) 0
      else steps_from_home (tilt m') = steps_from_home (tilt m)
           /\ current_pos_rad (tilt m') = current_pos_rad (tilt m)
           /\ ts_state_timer (tilt m') = 0
           /\ TIM5_ARR (hw m') = TIM5_ARR (hw m)).
Proof.
  open_machine m. cbn [tilt hw ts_state tilt_index]. intros Hs. subst state0.
  unfold fire. run_handler.
  destruct (Cint.wrap_u32 (index0 + 1) <? tilt_elements P); cbn;
    [destruct (0 <? nth (Z.to_nat (Cint.wrap_u32 (index0 + 1)))
                      (stepper_profile P) 0); cbn |];
    try (destruct dir0; cbn; destruct (TOS_100_DEV_BOARD H); cbn;
         destruct (pins0 GPIOA GPIO_Pin_2); cbn);
    repeat split; reflexivity.
Qed.

(** A state-machine tick during a sweep, past its first tick. *)
Lemma sweep_idle_tick (H : tmc260_header) (P : tilt_header) (m : machine) :
  ts_state (tilt m) = TILT_STEPPER_TILT_TABLE ->
  1 <= ts_state_timer (tilt m) < 2 ^ 32 - 1 ->
  within_guard (current_pos_rad (tilt m)) ->
  let m' := fire H P StateTick m in
  ts_state (tilt m') = TILT_STEPPER_TILT_TABLE
  /\ ts_state_timer (tilt m') = ts_state_timer (tilt m) + 1
  /\ tilt_index (tilt m') = tilt_index (tilt m)
  /\ last_dir (tilt m') = last_dir (tilt m)
  /\ current_step_dir (tilt m') = current_step_dir (tilt m)
  /\ steps_from_home (tilt m') = steps_from_home (tilt m)
  /\ current_pos_rad (tilt m') = current_pos_rad (tilt m)
  /\ TIM5_ARR (hw m') = TIM5_ARR (hw m).
Proof.
  open_machine m.
  cbn [tilt hw ts_state current_pos_rad ts_state_timer].
  intros Hs Ht [Hg Hl]. subst state0. unfold fire.
  pose proof (wrap_u32_succ timer0 ltac:(lia)) as Hw.
  run_handler.
  split_ifs; try discriminate; rewrite ?Hw in *;
    try match goal with
        | E : (timer0 + 1 =? 1) = true |- _ => apply Z.eqb_eq in E; lia
        end;
    repeat split; reflexivity.
Qed.

Lemma fire_all_snoc (H : tmc260_header) (P : tilt_header)
  (irqs : list irq) (i : irq) (m : machine) :
  fire_all H P (irqs ++ [i]) m = fire H P i (fire_all H P irqs m).
Proof. unfold fire_all. rewrite fold_left_app. reflexivity. Qed.

Lemma fire_all_app (H : tmc260_header) (P : tilt_header)
  (a b : list irq) (m : machine) :
  fire_all H P (a ++ b) m = fire_all H P b (fire_all H P a m).
Proof. unfold fire_all. apply fold_left_app. Qed.

Lemma state_ticks_cons (i : irq) (irqs : list irq) :
  state_ticks (i :: irqs)
  = (if is_state_tick i then 1 else 0) + state_ticks irqs.
Proof.
  unfold state_ticks. cbn [filter].
  destruct (is_state_tick i); cbn [length]; lia.
Qed.

Lemma state_ticks_nonneg (irqs : list irq) : 0 <= state_ticks irqs.
Proof. unfold state_ticks. lia. Qed.

(** The ticks of the delay phase, as long as the tick counter stays at or
    below 200. *)
Lemma delay_run (H : tmc260_header) (P : tilt_header) (irqs : list irq) :
  forallb is_tick irqs = true ->
  forall m : machine,
    ts_state (tilt m) = TILT_STEPPER_TEST_DELAY ->
    within_guard (current_pos_rad (tilt m)) ->
    0 <= ts_state_timer (tilt m) ->
    ts_state_timer (tilt m) + state_ticks irqs <= 200 ->
    let m' := fire_all H P irqs m in
    ts_state (tilt m') = TILT_STEPPER_TEST_DELAY
    /\ ts_state_timer (tilt m') = ts_state_timer (tilt m) + state_ticks irqs
    /\ current_pos_rad (tilt m') = current_pos_rad (tilt m)
    /\ steps_from_home (tilt m') = steps_from_home (tilt m)
    /\ last_dir (tilt m') = last_dir (tilt m)
    /\ current_step_dir (tilt m') = current_step_dir (tilt m)
    /\ tilt_index (tilt m') = tilt_index (tilt m).
Proof.
  induction irqs as [| i irqs IH]; intros Ht m Hs Hg H0 Hn.
  - cbn. unfold state_ticks. cbn. rewrite Z.add_0_r.
    repeat split; try reflexivity. exact Hs.
  - cbn [forallb] in Ht. apply andb_true_iff in Ht. destruct Ht as [Hi Ht].
    rewrite state_ticks_cons in Hn |- *.
    pose proof (state_ticks_nonneg irqs) as Hk.
    change (fire_all H P (i :: irqs) m)
      with (fire_all H P irqs (fire H P i m)).
    destruct i; try discriminate Hi; cbn [is_state_tick] in Hn |- *.
    + destruct (delay_tick H P m Hs Hg) as (Hd & Hp & Hst & Hld & Hdir & Hix).
      rewrite wrap_u32_succ in Hd by lia.
      destruct (200 <? ts_state_timer (tilt m) + 1) eqn:E;
        [apply Z.ltb_lt in E; lia |].
      destruct Hd as [Hs' Ht'].
      destruct (IH Ht (fire H P StateTick m)) as (A & B & C & D & E' & F & G).
      * exact Hs'.
      * rewrite Hp. exact Hg.
      * rewrite Ht'. lia.
      * rewrite Ht'. lia.
      * cbv zeta. rewrite A, B, C, D, E', F, G, Ht', Hp, Hst, Hld, Hdir, Hix.
        repeat split; try reflexivity. lia.
    + pose proof (step_tick_idle H P m Hs) as Hsame.
      destruct (IH Ht (fire H P StepTick m)) as (A & B & C & D & E' & F & G);
        rewrite ?Hsame; try assumption.
      cbv zeta. rewrite A, B, C, D, E', F, G, Hsame.
      repeat split; reflexivity.
Qed.

(** X12.  The delay after homing lasts 201 ticks of the state-machine
    timer, whatever step ticks fall in between: up to the 200th tick the
    phase is still the delay, with the tracker, the direction and the
    sweep flag untouched, and the 201st tick enters the sweep phase with
    the tick counter back at 0. *)
Theorem delay_lasts_201_ticks
  (H : tmc260_header) (P : tilt_header) (irqs : list irq) (m : machine) :
  forallb is_tick irqs = true ->
  ts_state (tilt m) = TILT_STEPPER_TEST_DELAY ->
  ts_state_timer (tilt m) = 0 ->
  within_guard (current_pos_rad (tilt m)) ->
  state_ticks irqs <= 200 ->
  let m' := fire_all H P irqs m in
  ts_state (tilt m') = TILT_STEPPER_TEST_DELAY
  /\ ts_state_timer (tilt m') = state_ticks irqs
  /\ steps_from_home (tilt m') = steps_from_home (tilt m)
  /\ current_pos_rad (tilt m') = current_pos_rad (tilt m)
  /\ current_step_dir (tilt m') = current_step_dir (tilt m)
  /\ last_dir (tilt m') = last_dir (tilt m)
  /\ (state_ticks irqs = 200 ->
      ts_state (tilt (fire H P StateTick m')) = TILT_STEPPER_TILT_TABLE
      /\ ts_state_timer (tilt (fire H P StateTick m')) = 0).
Proof.
  intros Ht Hs H0 Hg Hn.
  destruct (delay_run H P irqs Ht m Hs Hg) as (A & B & C & D & E & F & G);
    try (rewrite H0; lia).
  cbv zeta. rewrite A, B, C, D, E, F, H0.
  do 6 (split; [reflexivity |]).
  intros Hk.
  assert (Hg' : within_guard (current_pos_rad (tilt (fire_all H P irqs m))))
    by (rewrite C; exact Hg).
  destruct (delay_tick H P _ A Hg') as (Hd & _).
  rewrite B, H0, Hk in Hd. exact Hd.
Qed.

Lemma delay_lasts_201_ticks_witness :
  let m := in_phase TILT_STEPPER_TEST_DELAY 0 board in
  let irqs := repeat StateTick 200 in
  ts_state (tilt (fire_all datasheet_header example_tilt irqs m))
  = TILT_STEPPER_TEST_DELAY
  /\ ts_state (tilt (fire datasheet_header example_tilt StateTick
                       (fire_all datasheet_header example_tilt irqs m)))
     = TILT_STEPPER_TILT_TABLE.
Proof.
  cbv zeta.
  destruct (delay_lasts_201_ticks datasheet_header example_tilt
              (repeat StateTick 200)
              (in_phase TILT_STEPPER_TEST_DELAY 0 board))
    as (A & _ & _ & _ & _ & _ & G).
  - vm_compute. reflexivity.
  - reflexivity.
  - reflexivity.
  - split; vm_compute; reflexivity.
  - vm_compute. discriminate.
  - split; [exact A | apply G; vm_compute; reflexivity].
Defined.






(** ** Sweeps *)

Lemma leading_positive_nth (l : list Z) (j : nat) :
  (j < leading_positive l)%nat -> (j < length l)%nat /\ 0 < nth j l 0.
Proof.
  revert j. induction l as [| v l IH]; intros j Hj; cbn in Hj; [lia |].
  destruct (0 <? v) eqn:E; [| lia].
  destruct j as [| j]; cbn.
  - split; [lia | apply Z.ltb_lt; exact E].
  - destruct (IH j) as [A B]; [lia |]. split; [lia | exact B].
Qed.

Lemma leading_positive_stop (l : list Z) :
  (0 <? nth (leading_positive l) l 0) = false.
Proof.
  induction l as [| v l IH]; cbn; [reflexivity |].
  destruct (0 <? v) eqn:E; [exact IH | exact E].
Qed.

Lemma nth_tl (l : list Z) (j : nat) : nth j (tl l) 0 = nth (S j) l 0.
Proof. destruct l; [destruct j |]; reflexivity. Qed.

Lemma sweep_steps_length (P : tilt_header) :
  (sweep_steps P < Nat.max 1 (length (stepper_profile P)))%nat.
Proof.
  unfold sweep_steps. destruct (stepper_profile P) as [| v l]; cbn; [lia |].
  assert (leading_positive l <= length l)%nat; [| lia].
  clear. induction l as [| w l IH]; cbn; [lia |].
  destruct (0 <? w); lia.
Qed.

Lemma wrap_s32_small (z : Z) :
  Cint.INT32_MIN <= z <= Cint.INT32_MAX -> Cint.wrap_s32 z = z.
Proof.
  unfold Cint.wrap_s32, Cint.INT32_MIN, Cint.INT32_MAX. intros Hz.
  rewrite Z.mod_small; lia.
Qed.

(** The first [k] step ticks of a sweep, from its entry. *)
Lemma sweep_run (H : tmc260_header) (P : tilt_header) (m : machine) (k : nat) :
  ts_state (tilt m) = TILT_STEPPER_TILT_TABLE ->
  tilt_index (tilt m) = 0 ->
  tilt_elements P = Z.of_nat (length (stepper_profile P)) ->
  tilt_elements P < 2 ^ 32 ->
  (k <= sweep_steps P)%nat ->
  Cint.INT32_MIN <= steps_from_home (tilt m) <= Cint.INT32_MAX ->
  Cint.INT32_MIN
  <= steps_from_home (tilt m)
     + Z.of_nat k * step_delta (current_step_dir (tilt m))
  <= Cint.INT32_MAX ->
  let m' := fire_all H P (repeat StepTick k) m in
  ts_state (tilt m') = TILT_STEPPER_TILT_TABLE
  /\ tilt_index (tilt m') = Z.of_nat k
  /\ ts_state_timer (tilt m') = ts_state_timer (tilt m)
  /\ last_dir (tilt m') = last_dir (tilt m)
  /\ current_step_dir (tilt m') = current_step_dir (tilt m)
  /\ steps_from_home (tilt m')
     = steps_from_home (tilt m)
       + Z.of_nat k * step_delta (current_step_dir (tilt m))
  /\ ((0 < k)%nat ->
      current_pos_rad (tilt m') = pos_of_steps P (steps_from_home (tilt m'))
      /\ TIM5_ARR (hw m') = nth k (stepper_profile P) 0)
  /\ (k = O -> current_pos_rad (tilt m') = current_pos_rad (tilt m)).
Proof.
  intros Hs Hi He Hlen. induction k as [| k IH]; intros Hk Hlo Hhi.
  - cbn. rewrite Hi. repeat split; try reflexivity; try lia. exact Hs.
  - assert (Hd : step_delta (current_step_dir (tilt m)) = 1
                 \/ step_delta (current_step_dir (tilt m)) = -1
                 \/ step_delta (current_step_dir (tilt m)) = 0)
      by (destruct (current_step_dir (tilt m)); cbn; auto).
    destruct IH as (A & B & C & D & E & F & _); try lia.
    replace (repeat StepTick (S k)) with (repeat StepTick k ++ [StepTick])
      by (rewrite <- repeat_cons; reflexivity).
    cbv zeta. rewrite fire_all_snoc.
    set (m1 := fire_all H P (repeat StepTick k) m) in *.
    destruct (sweep_step H P m1 A) as (S1 & S2 & S3 & S4 & S5).
    pose proof (sweep_steps_length P) as Hsl.
    assert (Hw : Cint.wrap_u32 (tilt_index (tilt m1) + 1) = Z.of_nat (S k)).
    { rewrite B. unfold Cint.wrap_u32. rewrite Z.mod_small; lia. }
    rewrite Hw in S1, S5.
    destruct (leading_positive_nth (tl (stepper_profile P)) k) as [L1 L2];
      [exact Hk |].
    rewrite nth_tl in L2.
    assert (Hin : (Z.of_nat (S k) <? tilt_elements P) = true).
    { apply Z.ltb_lt. rewrite He.
      destruct (stepper_profile P); cbn in L1 |- *; lia. }
    rewrite Nat2Z.id, Hin in S5.
    apply Z.ltb_lt in L2. rewrite L2 in S5. cbn [andb] in S5.
    destruct S5 as (T1 & T2 & T3 & T4).
    rewrite S1, S2, S3, S4, T3, C, D, E.
    repeat split; try reflexivity; try lia; try assumption.
    rewrite T1, F, E. clear Hd.
    destruct (current_step_dir (tilt m)); cbn [stepped step_delta] in *;
      rewrite ?wrap_s32_small; lia.
Qed.

(** The step tick that ends a sweep. *)
Lemma sweep_end (H : tmc260_header) (P : tilt_header) (m : machine) :
  ts_state (tilt m) = TILT_STEPPER_TILT_TABLE ->
  tilt_index (tilt m) = Z.of_nat (sweep_steps P) ->
  tilt_elements P = Z.of_nat (length (stepper_profile P)) ->
  tilt_elements P < 2 ^ 32 ->
  let m' := fire H P StepTick m in
  ts_state (tilt m') = TILT_STEPPER_TILT_TABLE
  /\ ts_state_timer (tilt m') = 0
  /\ last_dir (tilt m') = last_dir (tilt m)
  /\ current_step_dir (tilt m') = current_step_dir (tilt m)
  /\ steps_from_home (tilt m') = steps_from_home (tilt m)
  /\ current_pos_rad (tilt m') = current_pos_rad (tilt m).
Proof.
  intros Hs Hi He Hlen.
  destruct (sweep_step H P m Hs) as (S1 & S2 & S3 & S4 & S5).
  pose proof (sweep_steps_length P) as Hsl.
  assert (Hw : Cint.wrap_u32 (tilt_index (tilt m) + 1)
               = Z.of_nat (S (sweep_steps P))).
  { rewrite Hi. unfold Cint.wrap_u32. rewrite Z.mod_small; lia. }
  rewrite Hw, Nat2Z.id in S5.
  pose proof (leading_positive_stop (tl (stepper_profile P))) as Hstop.
  rewrite nth_tl in Hstop. fold (sweep_steps P) in Hstop.
  rewrite Hstop, andb_false_r in S5.
  destruct S5 as (T1 & T2 & T3 & _).
  cbv zeta. rewrite S2, S3, S4, T1, T2, T3. repeat split; reflexivity.
Qed.

(** X14.  A sweep steps once for each positive profile entry after
    the first, up to the first entry that is not positive: from its entry
    (cursor at 0), the [k]-th step tick moves the count by one in the
    direction of the sweep, recomputes the position and programs entry [k]
    as the next period; the tick after the last such entry makes no step
    and resets the tick counter, which ends the sweep.  The first entry
    is never stepped on: it only times the first step. *)
Theorem sweep_steps_once_per_entry
  (H : tmc260_header) (P : tilt_header) (m : machine) (k : nat) :
  ts_state (tilt m) = TILT_STEPPER_TILT_TABLE ->
  tilt_index (tilt m) = 0 ->
  tilt_elements P = Z.of_nat (length (stepper_profile P)) ->
  tilt_elements P < 2 ^ 32 ->
  (0 < k <= sweep_steps P)%nat ->
  Cint.INT32_MIN <= steps_from_home (tilt m) - Z.of_nat (sweep_steps P) ->
  steps_from_home (tilt m) + Z.of_nat (sweep_steps P) <= Cint.INT32_MAX ->
  let d := current_step_dir (tilt m) in
  let m' := fire_all H P (repeat StepTick k) m in
  let m_end := fire_all H P (repeat StepTick (S (sweep_steps P))) m in
  steps_from_home (tilt m') = steps_from_home (tilt m) + Z.of_nat k * step_delta d
  /\ current_pos_rad (tilt m') = pos_of_steps P (steps_from_home (tilt m'))
  /\ TIM5_ARR (hw m') = nth k (stepper_profile P) 0
  /\ tilt_index (tilt m') = Z.of_nat k
  /\ ts_state_timer (tilt m') = ts_state_timer (tilt m)
  /\ steps_from_home (tilt m_end)
     = steps_from_home (tilt m) + Z.of_nat (sweep_steps P) * step_delta d
  /\ ts_state_timer (tilt m_end) = 0
  /\ ts_state (tilt m_end) = TILT_STEPPER_TILT_TABLE.
Proof.
  intros Hs Hi He Hlen Hk Hlo Hhi.
  assert (Hd : -1 <= step_delta (current_step_dir (tilt m)) <= 1)
    by (destruct (current_step_dir (tilt m)); cbn; lia).
  destruct (sweep_run H P m k Hs Hi He Hlen) as (A & B & C & D & E & F & G & _);
    try nia.
  destruct G as [G1 G2]; [lia |].
  cbv zeta. rewrite B, C. do 5 (split; [assumption || reflexivity |]).
  destruct (sweep_run H P m (sweep_steps P) Hs Hi He Hlen)
    as (A' & B' & C' & D' & E' & F' & _); try nia.
  replace (repeat StepTick (S (sweep_steps P)))
    with (repeat StepTick (sweep_steps P) ++ [StepTick])
    by (rewrite <- repeat_cons; reflexivity).
  rewrite fire_all_snoc.
  destruct (sweep_end H P _ A' B' He Hlen) as (S1 & S2 & S3 & S4 & S5 & S6).
  rewrite S1, S2, S5, F'. repeat split; reflexivity.
Qed.

Lemma sweep_steps_once_per_entry_witness :
  let m := with_tracker TILT_STEPPER_DIR_CCW 0 F32.zero
             (in_phase TILT_STEPPER_TILT_TABLE 1 board) in
  steps_from_home
    (tilt (fire_all datasheet_header example_tilt (repeat StepTick 3) m)) = -3
  /\ steps_from_home
       (tilt (fire_all datasheet_header example_tilt (repeat StepTick 5) m))
     = -4.
Proof.
  cbv zeta.
  destruct (sweep_steps_once_per_entry datasheet_header example_tilt
              (with_tracker TILT_STEPPER_DIR_CCW 0 F32.zero
                 (in_phase TILT_STEPPER_TILT_TABLE 1 board)) 3)
    as (A & _ & _ & _ & _ & B & _).
  - reflexivity.
  - reflexivity.
  - reflexivity.
  - reflexivity.
  - vm_compute. lia.
  - vm_compute. discriminate.
  - vm_compute. discriminate.
  - split; [exact A | exact B].
Defined.

(** The interrupts of one sweep with nothing in between: the tick of the
    state machine that enters it and the step ticks up to the one that
    ends it. *)
Lemma one_sweep (H : tmc260_header) (P : tilt_header) (m : machine) :
  ts_state (tilt m) = TILT_STEPPER_TILT_TABLE ->
  ts_state_timer (tilt m) = 0 ->
  within_guard (current_pos_rad (tilt m)) ->
  tilt_elements P = Z.of_nat (length (stepper_profile P)) ->
  tilt_elements P < 2 ^ 32 ->
  Cint.INT32_MIN <= steps_from_home (tilt m) <= Cint.INT32_MAX ->
  Cint.INT32_MIN
  <= steps_from_home (tilt m)
     + Z.of_nat (sweep_steps P) * step_delta (sweep_dir (last_dir (tilt m)))
  <= Cint.INT32_MAX ->
  let d := sweep_dir (last_dir (tilt m)) in
  let m' := fire_all H P (sweep_irqs P) m in
  ts_state (tilt m') = TILT_STEPPER_TILT_TABLE
  /\ ts_state_timer (tilt m') = 0
  /\ current_step_dir (tilt m') = d
  /\ last_dir (tilt m') = (if last_dir (tilt m) =? 0 then 1 else 0)
  /\ steps_from_home (tilt m')
     = steps_from_home (tilt m) + Z.of_nat (sweep_steps P) * step_delta d
  /\ ((0 < sweep_steps P)%nat ->
      current_pos_rad (tilt m') = pos_of_steps P (steps_from_home (tilt m'))).
Proof.
  intros Hs Ht Hg He Hlen Hlo Hhi.
  unfold sweep_irqs.
  change (fire_all H P (StateTick :: repeat StepTick (S (sweep_steps P))) m)
    with (fire_all H P (repeat StepTick (S (sweep_steps P)))
            (fire H P StateTick m)).
  destruct (sweep_entry H P m Hs Ht Hg)
    as (A1 & A2 & A3 & A4 & A5 & A6 & A7 & A8 & _).
  set (m1 := fire H P StateTick m) in *.
  destruct (sweep_run H P m1 (sweep_steps P) A1 A3 He Hlen)
    as (B1 & B2 & B3 & B4 & B5 & B6 & B7 & _);
    try (rewrite ?A7, ?A5; assumption); try lia.
  replace (repeat StepTick (S (sweep_steps P)))
    with (repeat StepTick (sweep_steps P) ++ [StepTick])
    by (rewrite <- repeat_cons; reflexivity).
  rewrite fire_all_snoc.
  set (m2 := fire_all H P (repeat StepTick (sweep_steps P)) m1) in *.
  destruct (sweep_end H P m2 B1 B2 He Hlen) as (C1 & C2 & C3 & C4 & C5 & C6).
  cbv zeta. rewrite C1, C2, C3, C4, C5, C6, B4, B5, B6, A5, A6, A7.
  unfold sweep_dir. repeat split; try reflexivity.
  intros Hn. destruct (B7 Hn) as [B8 _]. rewrite B8, B6, A5, A7. reflexivity.
Qed.

(** X15.  Sweeps alternate and cancel: two sweeps in a row, each run
    from the tick that enters it to the step tick that ends it, go in
    opposite directions over the same number of steps, so that the step
    count is back where it started and the position is the closed form of
    that count. *)
Theorem two_sweeps_return_to_start
  (H : tmc260_header) (P : tilt_header) (m : machine) :
  ts_state (tilt m) = TILT_STEPPER_TILT_TABLE ->
  ts_state_timer (tilt m) = 0 ->
  tilt_elements P = Z.of_nat (length (stepper_profile P)) ->
  tilt_elements P < 2 ^ 32 ->
  (0 < sweep_steps P)%nat ->
  let d := sweep_dir (last_dir (tilt m)) in
  let far := steps_from_home (tilt m) + Z.of_nat (sweep_steps P) * step_delta d in
  Cint.INT32_MIN <= steps_from_home (tilt m) <= Cint.INT32_MAX ->
  Cint.INT32_MIN <= far <= Cint.INT32_MAX ->
  within_guard (current_pos_rad (tilt m)) ->
  within_guard (pos_of_steps P far) ->
  let m1 := fire_all H P (sweep_irqs P) m in
  let m2 := fire_all H P (sweep_irqs P ++ sweep_irqs P) m in
  steps_from_home (tilt m1) = far
  /\ current_step_dir (tilt m1) = d
  /\ current_step_dir (tilt m2) <> d
  /\ current_step_dir (tilt m2) <> TILT_STEPPER_DIR_STOPPED
  /\ steps_from_home (tilt m2) = steps_from_home (tilt m)
  /\ current_pos_rad (tilt m2) = pos_of_steps P (steps_from_home (tilt m))
  /\ ts_state (tilt m2) = TILT_STEPPER_TILT_TABLE.
Proof.
  intros Hs Ht He Hlen Hn d far Hlo Hhi Hg Hgfar.
  destruct (one_sweep H P m Hs Ht Hg He Hlen Hlo Hhi)
    as (A1 & A2 & A3 & A4 & A5 & A6).
  specialize (A6 Hn).
  cbv zeta. rewrite fire_all_app.
  set (m1 := fire_all H P (sweep_irqs P) m) in *.
  fold d in A3, A5. fold far in A5.
  assert (Hd : step_delta d = 1 \/ step_delta d = -1).
  { unfold d, sweep_dir. destruct (last_dir (tilt m) =? 0); cbn; auto. }
  assert (Hg1 : within_guard (current_pos_rad (tilt m1))).
  { rewrite A6, A5. exact Hgfar. }
  destruct (one_sweep H P m1 A1 A2 Hg1 He Hlen)
    as (B1 & B2 & B3 & B4 & B5 & B6).
  { rewrite A5. exact Hhi. }
  { rewrite A5, A4. unfold far, d, sweep_dir.
    unfold Cint.INT32_MIN, Cint.INT32_MAX in *.
    destruct (last_dir (tilt m) =? 0); cbn; lia. }
  specialize (B6 Hn).
  assert (Hback : steps_from_home (tilt (fire_all H P (sweep_irqs P) m1))
                  = steps_from_home (tilt m)).
  { rewrite B5, A5, A4. unfold far, d, sweep_dir.
    destruct (last_dir (tilt m) =? 0); cbn; lia. }
  rewrite B6, B3, B1, Hback, A4.
  split; [exact A5 |]. split; [exact A3 |].
  unfold d, sweep_dir.
  destruct (last_dir (tilt m) =? 0); cbn;
    repeat split; try reflexivity; discriminate.
Qed.

Lemma two_sweeps_return_to_start_witness :
  let m := in_phase TILT_STEPPER_TILT_TABLE 0 board in
  steps_from_home
    (tilt (fire_all datasheet_header example_tilt
             (sweep_irqs example_tilt) m)) = -4
  /\ steps_from_home
       (tilt (fire_all datasheet_header example_tilt
                (sweep_irqs example_tilt ++ sweep_irqs example_tilt) m)) = 0.
Proof.
  cbv zeta.
  destruct (two_sweeps_return_to_start datasheet_header example_tilt
              (in_phase TILT_STEPPER_TILT_TABLE 0 board))
    as (A & _ & _ & _ & B & _).
  - reflexivity.
  - reflexivity.
  - reflexivity.
  - reflexivity.
  - vm_compute. lia.
  - vm_compute. split; discriminate.
  - vm_compute. split; discriminate.
  - split; vm_compute; reflexivity.
  - split; vm_compute; reflexivity.
  - split; [exact A | exact B].
Defined.

(** ** The SPI bus and the register shadows *)

Lemma state_tick_bus (H : tmc260_header) (P : tilt_header) (m : machine) :
  bus_idle StateTick m = true ->
  let m' := fire H P StateTick m in
  tmc m' = tmc m
  /\ spi_count (hw m') = spi_count (hw m)
  /\ spi_events (trace (hw m')) = spi_events (trace (hw m)).
Proof.
  open_machine m. unfold bus_idle. cbn [tilt ts_state ts_state_timer].
  intros Hb. unfold fire.
  destruct state0; try discriminate Hb;
    try (apply negb_true_iff in Hb);
    run_handler; rewrite ?Hb; cbn; split_ifs; try discriminate;
    repeat split; reflexivity.
Qed.

(** X16.  Only bring-up and the status request use the SPI bus: a step
    tick, a sensor edge and every tick of the state machine other than
    the one that runs bring-up and the first one of the delay send and
    read nothing on the bus and leave all register shadows as they were. *)
Theorem bus_used_only_by_bring_up_and_status
  (H : tmc260_header) (P : tilt_header) (i : irq) (m : machine) :
  bus_idle i m = true ->
  let m' := fire H P i m in
  tmc m' = tmc m
  /\ spi_count (hw m') = spi_count (hw m)
  /\ spi_events (trace (hw m')) = spi_events (trace (hw m)).
Proof.
  intros Hb. destruct i.
  - apply state_tick_bus. exact Hb.
  - destruct (step_tick_keeps H P m) as (_ & _ & _ & A & B & C). auto.
  - destruct (sensor_edge_keeps H P level m) as (_ & _ & A & B & C). auto.
Qed.

Lemma bus_used_only_witness :
  let m := in_phase TILT_STEPPER_TILT_TABLE 0 board in
  tmc (fire datasheet_header example_tilt StateTick m) = tmc m.
Proof.
  cbv zeta.
  apply (bus_used_only_by_bring_up_and_status datasheet_header example_tilt
           StateTick (in_phase TILT_STEPPER_TILT_TABLE 0 board)).
  reflexivity.
Defined.

(** X17.  Bring-up writes each of the five registers once, in
    the order DRVCONF, DRVCTRL, CHOPCONF, SMARTEN, SGCSCONF: the bus
    carries exactly these five frames, each between a falling and a rising
    edge of the chip select, fifteen bytes in all and none read; every
    shadow holds the value sent, the chip select is left high and the driver is marked
    initialised. *)
Theorem bring_up_writes_five_registers (H : tmc260_header) (m : machine) :
  let m' := exec (TMC260_initialize H) m in
  spi_events (trace (hw m'))
  = rev (concat (map spi_write_frame (init_config_datagrams H)))
    ++ spi_events (trace (hw m))
  /\ spi_count (hw m') = (15 + spi_count (hw m))%nat
  /\ [TMC260_DRVCONF_regval (tmc m'); TMC260_DRVCTRL_regval (tmc m');
      TMC260_CHOPCONF_regval (tmc m'); TMC260_SMARTEN_regval (tmc m');
      TMC260_SGCSCONF_regval (tmc m')]
     = init_config_datagrams H
  /\ TMC260_initialized (tmc m') = 1
  /\ pins (hw m') GPIOC GPIO_Pin_13 = Bit_SET
  /\ tilt m' = tilt m.
Proof.
  open_machine m. cbv zeta. repeat split; reflexivity.
Qed.

(** What a tick of the state machine does to the configuration shadows. *)
Lemma state_tick_configured (H : tmc260_header) (P : tilt_header)
  (m : machine) :
  let m' := fire H P StateTick m in
  (TMC260_initialized (tmc m') = 1 /\ configured H m')
  \/ (TMC260_initialized (tmc m') = TMC260_initialized (tmc m)
      /\ TMC260_DRVCTRL_regval (tmc m') = TMC260_DRVCTRL_regval (tmc m)
      /\ TMC260_CHOPCONF_regval (tmc m') = TMC260_CHOPCONF_regval (tmc m)
      /\ TMC260_SMARTEN_regval (tmc m') = TMC260_SMARTEN_regval (tmc m)
      /\ TMC260_SGCSCONF_regval (tmc m') = TMC260_SGCSCONF_regval (tmc m)).
Proof.
  open_machine m. unfold fire, configured.
  destruct state0;
    [ left | right .. ];
    try (destruct drvconf0); run_handler; split_ifs;
    repeat split; reflexivity.
Qed.

Lemma fire_configured (H : tmc260_header) (P : tilt_header) (i : irq)
  (m : machine) :
  (TMC260_initialized (tmc m) = 1 -> configured H m) ->
  TMC260_initialized (tmc (fire H P i m)) = 1 -> configured H (fire H P i m).
Proof.
  intros Hc Hi. destruct i.
  - destruct (state_tick_configured H P m) as [[_ A] | (A & B & C & D & E)];
      [exact A |].
    rewrite A in Hi. destruct (Hc Hi) as (F & G & I & J).
    unfold configured. rewrite B, C, D, E. auto.
  - destruct (step_tick_keeps H P m) as (_ & _ & _ & A & _).
    unfold configured in *. rewrite A in *. auto.
  - destruct (sensor_edge_keeps H P level m) as (_ & _ & A & _).
    unfold configured in *. rewrite A in *. auto.
Qed.

Lemma reachable_configured (H : tmc260_header) (P : tilt_header)
  (miso : nat -> Z) (irqs : list irq) :
  let m := fire_all H P irqs (power_on P miso) in
  TMC260_initialized (tmc m) = 1 -> configured H m.
Proof.
  cbv zeta. unfold fire_all.
  assert (H0 : TMC260_initialized (tmc (power_on P miso)) = 1 ->
               configured H (power_on P miso)) by (cbn; discriminate).
  revert H0. generalize (power_on P miso).
  induction irqs as [| i irqs IH]; intros m Hm; [exact Hm |].
  cbn [fold_left]. apply IH. apply fire_configured. exact Hm.
Qed.

(** X18.  The configuration is written once and stays: at every
    moment after reset at which the driver is marked initialised, whatever
    interrupts have run, the shadows of DRVCTRL, CHOPCONF, SMARTEN and
    SGCSCONF hold the values of bring-up.  With a header that keeps the
    DRVCTRL fields apart, the shadow then decodes to stepping on both
    edges without interpolation, which is what the step routine, toggling
    the step line once per step, relies on. *)
Theorem configuration_stays_as_written
  (H : tmc260_header) (P : tilt_header) (miso : nat -> Z)
  (irqs : list irq) :
  let m := fire_all H P irqs (power_on P miso) in
  TMC260_initialized (tmc m) = 1 ->
  configured H m
  /\ (layout_ok (TMC260_DRVCTRL_SDON_INIT H) (drvctrl_sdon_fields H) ->
      values_fit (combine (drvctrl_sdon_fields H)
                    [0; 1; MICROSTEP_CONFIG_64 H]) ->
      unpack (TMC260_DRVCTRL_SDON_DEDGE H) (TMC260_DRVCTRL_regval (tmc m)) = 1
      /\ unpack (TMC260_DRVCTRL_SDON_INTPOL H)
           (TMC260_DRVCTRL_regval (tmc m)) = 0
      /\ unpack (TMC260_DRVCTRL_SDON_MRES H)
           (TMC260_DRVCTRL_regval (tmc m)) = MICROSTEP_CONFIG_64 H).
Proof.
  intros m Hi.
  pose proof (reachable_configured H P miso irqs Hi) as Hc.
  split; [exact Hc |].
  intros Hl Hf. destruct Hc as (A & _). fold m in A. rewrite A.
  pose proof (pack_fields_round_trip (TMC260_DRVCTRL_SDON_INIT H)
                (combine (drvctrl_sdon_fields H)
                   [0; 1; MICROSTEP_CONFIG_64 H]) Hl Hf) as Hd.
  unfold decodes_to in Hd. cbn [combine drvctrl_sdon_fields] in Hd.
  inversion Hd as [| ? ? D1 Hd1]; subst.
  inversion Hd1 as [| ? ? D2 Hd2]; subst.
  inversion Hd2 as [| ? ? D3 _]; subst.
  cbn [fst snd] in D1, D2, D3.
  repeat split; assumption.
Qed.

Lemma configuration_stays_witness :
  let m := fire_all datasheet_header example_tilt
             [StateTick; StepTick; SensorEdge covered; StateTick; StepTick]
             board in
  unpack (TMC260_DRVCTRL_SDON_DEDGE datasheet_header)
    (TMC260_DRVCTRL_regval (tmc m)) = 1.
Proof.
  cbv zeta.
  destruct (configuration_stays_as_written datasheet_header example_tilt
              (miso_const 0)
              [StateTick; StepTick; SensorEdge covered; StateTick; StepTick])
    as (_ & Hd).
  - vm_compute. reflexivity.
  - destruct Hd as (A & _).
    + split; repeat constructor.
    + repeat constructor.
    + exact A.
Defined.

(** ** Recovery from over-rotation *)

Lemma above_guard_positive (p : F32.float) :
  F32.gtb p (F32.lit 35 10) = true -> F32.gtb p F32.zero = true.
Proof.
  change (F32.lit 35 10) with (S754_finite false 14680064 (-22)).
  unfold F32.gtb, F32.zero, SFltb, SFcompare.
  destruct p as [s | s | | s mant e]; try destruct s;
    intros Hp; try discriminate Hp; reflexivity.
Qed.

Lemma below_guard_negative (p : F32.float) :
  F32.ltb p (F32.lit (-5) 10) = true -> F32.gtb p F32.zero = false.
Proof.
  change (F32.lit (-5) 10) with (S754_finite true 8388608 (-24)).
  unfold F32.ltb, F32.gtb, F32.zero, SFltb, SFcompare.
  destruct p as [s | s | | s mant e]; try destruct s;
    intros Hp; try discriminate Hp; reflexivity.
Qed.

(** The tick of the state machine on which the guard trips. *)
Lemma guard_trip (H : tmc260_header) (P : tilt_header) (m : machine) :
  ts_state (tilt m) <> TILT_STEPPER_HOME ->
  ts_state (tilt m) <> TILT_STEPPER_INITIALIZE ->
  F32.gtb (current_pos_rad (tilt m)) (F32.lit 35 10)
  || F32.ltb (current_pos_rad (tilt m)) (F32.lit (-5) 10) = true ->
  let m' := fire H P StateTick m in
  ts_state (tilt m') = TILT_STEPPER_HOME
  /\ ts_state_timer (tilt m') = 0
  /\ steps_from_home (tilt m') = steps_from_home (tilt m)
  /\ current_pos_rad (tilt m') = current_pos_rad (tilt m)
  /\ pscale (tilt m') = pscale (tilt m).
Proof.
  open_machine m. cbn [tilt ts_state current_pos_rad].
  intros Hh Hi Hg. unfold fire.
  destruct state0; try congruence; run_handler;
    destruct (F32.gtb pos0 (F32.lit 35 10)) eqn:E1;
    destruct (F32.ltb pos0 (F32.lit (-5) 10)) eqn:E2;
    try discriminate Hg; cbn; split_ifs; try discriminate;
    repeat split; reflexivity.
Qed.

(** The first tick of homing when the tracker is away from zero. *)
Lemma home_first_tick (H : tmc260_header) (P : tilt_header) (m : machine) :
  ts_state (tilt m) = TILT_STEPPER_HOME ->
  ts_state_timer (tilt m) = 0 ->
  steps_from_home (tilt m) <> 0 ->
  let m' := fire H P StateTick m in
  let d := if F32.gtb (current_pos_rad (tilt m)) F32.zero
           then TILT_STEPPER_DIR_CCW else TILT_STEPPER_DIR_CW in
  ts_state (tilt m') = TILT_STEPPER_HOME
  /\ ts_state_timer (tilt m') = 1
  /\ current_step_dir (tilt m') = d
  /\ pins (hw m') GPIOA GPIO_Pin_1
     = (if F32.gtb (current_pos_rad (tilt m)) F32.zero
        then Bit_SET else Bit_RESET)
  /\ TIM5_ARR (hw m') = step_period P (HOME_STEP_FREQ_HZ P) (pscale (tilt m))
  /\ steps_from_home (tilt m') = steps_from_home (tilt m).
Proof.
  open_machine m.
  cbn [tilt ts_state ts_state_timer steps_from_home current_pos_rad pscale].
  intros Hs Ht Hn. subst state0 timer0. unfold fire.
  apply Z.eqb_neq in Hn.
  run_handler. rewrite ?Hn. cbn.
  split_ifs; try discriminate; rewrite ?Hn; cbn;
    try match goal with
        | E : (Cint.wrap_u32 1 =? 1) = false |- _ =>
            vm_compute in E; discriminate
        end;
    repeat split; reflexivity.
Qed.

(** X19.  Recovery from over-rotation heads back towards the flag:
    when the guard trips (position above 3.5 rad or below -0.5 rad in a
    phase other than [Home] and [Initialize]) with the step count away
    from zero, the tick after it, the first of homing, programs the homing
    cadence and commands the direction that reduces the position: CCW from
    above 3.5 rad, CW from below -0.5 rad; the direction line follows. *)
Theorem overrotation_recovery_heads_home
  (H : tmc260_header) (P : tilt_header) (m : machine) :
  ts_state (tilt m) <> TILT_STEPPER_HOME ->
  ts_state (tilt m) <> TILT_STEPPER_INITIALIZE ->
  steps_from_home (tilt m) <> 0 ->
  F32.gtb (current_pos_rad (tilt m)) (F32.lit 35 10)
  || F32.ltb (current_pos_rad (tilt m)) (F32.lit (-5) 10) = true ->
  let m' := fire_all H P [StateTick; StateTick] m in
  let above := F32.gtb (current_pos_rad (tilt m)) (F32.lit 35 10) in
  ts_state (tilt m') = TILT_STEPPER_HOME
  /\ current_step_dir (tilt m')
     = (if above then TILT_STEPPER_DIR_CCW else TILT_STEPPER_DIR_CW)
  /\ pins (hw m') GPIOA GPIO_Pin_1 = (if above then Bit_SET else Bit_RESET)
  /\ TIM5_ARR (hw m') = step_period P (HOME_STEP_FREQ_HZ P) (pscale (tilt m))
  /\ steps_from_home (tilt m') = steps_from_home (tilt m).
Proof.
  intros Hh Hi Hn Hg.
  change (fire_all H P [StateTick; StateTick] m)
    with (fire H P StateTick (fire H P StateTick m)).
  destruct (guard_trip H P m Hh Hi Hg) as (A1 & A2 & A3 & A4 & A5).
  set (m1 := fire H P StateTick m) in *.
  assert (Hn1 : steps_from_home (tilt m1) <> 0) by (rewrite A3; exact Hn).
  destruct (home_first_tick H P m1 A1 A2 Hn1) as (B1 & _ & B3 & B4 & B5 & B6).
  cbv zeta. rewrite B1, B3, B4, B5, B6, A3, A4, A5.
  assert (Hsame : F32.gtb (current_pos_rad (tilt m)) F32.zero
                  = F32.gtb (current_pos_rad (tilt m)) (F32.lit 35 10)).
  { destruct (F32.gtb (current_pos_rad (tilt m)) (F32.lit 35 10)) eqn:E.
    - apply above_guard_positive. exact E.
    - apply below_guard_negative. cbn [orb] in Hg. exact Hg. }
  rewrite Hsame. repeat split; reflexivity.
Qed.

Lemma overrotation_recovery_witness :
  let m := with_tracker TILT_STEPPER_DIR_CW 7400 (F32.lit 36 10)
             (in_phase TILT_STEPPER_TILT_TABLE 5 board) in
  current_step_dir
    (tilt (fire_all datasheet_header example_tilt [StateTick; StateTick] m))
  = TILT_STEPPER_DIR_CCW.
Proof.
  cbv zeta.
  destruct (overrotation_recovery_heads_home datasheet_header example_tilt
              (with_tracker TILT_STEPPER_DIR_CW 7400 (F32.lit 36 10)
                 (in_phase TILT_STEPPER_TILT_TABLE 5 board)))
    as (_ & A & _).
  - discriminate.
  - discriminate.
  - discriminate.
  - vm_compute. reflexivity.
  - exact A.
Defined.

(** ** The step period *)

(** X20.  The period programmed for a step rate: with the divisor
    [hz * 2 * (pscale + 1)] within 32 bits and not above the core clock,
    the period is the quotient less one, so that the divisor fits
    [period + 1] times into the core clock and not once more; with a
    divisor above the core clock the quotient is 0 and the subtraction
    wraps, which programs the longest period, [0xFFFFFFFF]. *)
Theorem step_period_is_quotient_less_one
  (P : tilt_header) (hz pscale : Z) :
  let d := hz * 2 * (pscale + 1) in
  0 < d < 2 ^ 32 ->
  0 <= SystemCoreClock P < 2 ^ 32 ->
  let p := step_period P hz pscale in
  if d <=? SystemCoreClock P
  then 0 <= p < 2 ^ 32 /\ (p + 1) * d <= SystemCoreClock P < (p + 2) * d
  else p = 0xFFFFFFFF.
Proof.
  intros d Hd Hc p. subst p. unfold step_period, Cint.wrap_u32.
  fold d. rewrite (Z.mod_small d) by lia.
  destruct (d <=? SystemCoreClock P) eqn:E.
  - apply Z.leb_le in E.
    assert (Hq : 1 <= SystemCoreClock P / d).
    { apply Z.div_le_lower_bound; lia. }
    assert (Hq' : SystemCoreClock P / d <= SystemCoreClock P).
    { apply Z.div_le_upper_bound; nia. }
    rewrite Z.mod_small by lia.
    pose proof (Z.mul_div_le (SystemCoreClock P) d ltac:(lia)).
    pose proof (Z.mul_succ_div_gt (SystemCoreClock P) d ltac:(lia)).
    nia.
  - apply Z.leb_gt in E. rewrite Z.div_small by lia. reflexivity.
Qed.

Lemma step_period_witness :
  let p := step_period example_tilt 500 0 in
  0 <= p < 2 ^ 32 /\ (p + 1) * 1000 <= 168000000 < (p + 2) * 1000.
Proof.
  assert (Hd : 0 < 500 * 2 * (0 + 1) < 2 ^ 32) by (cbn; lia).
  assert (Hc : 0 <= SystemCoreClock example_tilt < 2 ^ 32) by (cbn; lia).
  exact (step_period_is_quotient_less_one example_tilt 500 0 Hd Hc).
Defined.

(** ** The register set of the data sheet *)

(** X21.  [TMC260_send_default_regs] puts five fixed datagrams on
    the bus and returns success, but records none of them: the register
    shadows, from which every later status request rebuilds DRVCONF, are
    left as they were. *)
Theorem default_regs_bypass_shadows (H : tmc260_header) (m : machine) :
  let r := TMC260_send_default_regs H m in
  fst r = TMC260_SUCCESS
  /\ tmc (snd r) = tmc m
  /\ tilt (snd r) = tilt m
  /\ spi_events (trace (hw (snd r)))
     = rev (concat (map spi_write_frame
                      [0x00000; 0x90131; 0xA0000; 0xD0505; 0xEF440]))
       ++ spi_events (trace (hw m))
  /\ map datagram_bytes [0x00000; 0x90131; 0xA0000; 0xD0505; 0xEF440]
     = [(0x00, 0x00, 0x00); (0x09, 0x01, 0x31); (0x0A, 0x00, 0x00);
        (0x0D, 0x05, 0x05); (0x0E, 0xF4, 0x40)]
  /\ pins (hw (snd r)) GPIOC GPIO_Pin_13 = Bit_SET.
Proof.
  open_machine m. cbv zeta. repeat split; reflexivity.
Qed.

(** ** The thermal camera *)

Lemma lepton_read_bytes (n : nat) (c : Lepton.camera) :
  Lepton.read_bytes n c
  = (map (fun j => Z.land (Lepton.rx c (Lepton.rx_count c + j)%nat) 0xFF)
       (seq 0 n),
     {| Lepton.rx := Lepton.rx c;
        Lepton.rx_count := (Lepton.rx_count c + n)%nat;
        Lepton.frame := Lepton.frame c;
        Lepton.trace := Lepton.trace c |}).
Proof.
  revert c. induction n as [| n IH]; intros c.
  - cbn. rewrite Nat.add_0_r. destruct c; reflexivity.
  - cbn [Lepton.read_bytes Lepton.spi_read_byte]. rewrite IH.
    cbn [Lepton.rx Lepton.rx_count Lepton.frame Lepton.trace seq map].
    rewrite Nat.add_0_r, <- seq_shift, map_map.
    f_equal.
    + f_equal. apply map_ext. intros j. rewrite Nat.add_succ_comm.
      reflexivity.
    + f_equal. lia.
Qed.

Lemma lepton_fill_frame (ii : Z) (c : Lepton.camera) :
  Lepton.fill_frame ii c
  = {| Lepton.rx := Lepton.rx c;
       Lepton.rx_count := (Lepton.rx_count c + 164)%nat;
       Lepton.frame :=
         fun i => if i =? ii then Lepton.stream_frame c 0 else Lepton.frame c i;
       Lepton.trace := Lepton.FrameStore ii :: Lepton.trace c |}.
Proof.
  unfold Lepton.fill_frame, Lepton.stream_frame.
  change (Z.to_nat Lepton.VOSPI_FRAME_SIZE) with 164%nat.
  rewrite lepton_read_bytes.
  cbn [Lepton.rx Lepton.rx_count Lepton.frame Lepton.trace].
  change (164 * 0)%nat with 0%nat. rewrite Nat.add_0_r. reflexivity.
Qed.

Lemma lepton_stream_shift (ii : Z) (c : Lepton.camera) (n : nat) :
  Lepton.stream_frame (Lepton.fill_frame ii c) n
  = Lepton.stream_frame c (S n).
Proof.
  rewrite lepton_fill_frame. unfold Lepton.stream_frame.
  cbn [Lepton.rx Lepton.rx_count].
  apply map_ext. intros j. do 2 f_equal. lia.
Qed.

Lemma lepton_sends_tail (ii : Z) (c : Lepton.camera)
  (f : list Z) (fs : list (list Z)) :
  Lepton.sends c (f :: fs) ->
  Lepton.stream_frame c 0 = f /\ Lepton.sends (Lepton.fill_frame ii c) fs.
Proof.
  intros Hs. split.
  - apply (Hs O). cbn. lia.
  - intros n Hn. rewrite lepton_stream_shift. apply (Hs (S n)). cbn. lia.
Qed.

(** The three ways an iteration of the acquisition loop goes. *)
Lemma lepton_acquire_discard (fuel : nat) (ii r : Z) (c : Lepton.camera) :
  ii < 60 -> r <> 750 ->
  Lepton.is_discard (Lepton.stream_frame c 0) = true ->
  Lepton.acquire (S fuel) ii r c
  = Lepton.acquire fuel ii r (Lepton.fill_frame ii c).
Proof.
  intros Hi Hr Hd. cbn [Lepton.acquire].
  change Lepton.VOSPI_NUM_FRAMES_IN_IMAGE with 60.
  destruct (Z.ltb_spec ii 60) as [_ | ?]; [| lia].
  rewrite lepton_fill_frame.
  cbn [Lepton.frame]. rewrite Z.eqb_refl.
  unfold Lepton.is_discard in Hd. rewrite Hd.
  destruct (Z.eqb_spec r 750) as [? | _]; [contradiction |].
  rewrite Z.sub_add. reflexivity.
Qed.

Lemma lepton_acquire_in_place (fuel : nat) (ii r : Z) (c : Lepton.camera) :
  ii < 60 -> r <> 750 ->
  Lepton.is_discard (Lepton.stream_frame c 0) = false ->
  Lepton.frame_number (Lepton.stream_frame c 0) = ii ->
  Lepton.acquire (S fuel) ii r c
  = Lepton.acquire fuel (ii + 1) r (Lepton.fill_frame ii c).
Proof.
  intros Hi Hr Hd Hn. cbn [Lepton.acquire].
  change Lepton.VOSPI_NUM_FRAMES_IN_IMAGE with 60.
  destruct (Z.ltb_spec ii 60) as [_ | ?]; [| lia].
  rewrite lepton_fill_frame.
  cbn [Lepton.frame]. rewrite Z.eqb_refl.
  unfold Lepton.is_discard in Hd. rewrite Hd.
  unfold Lepton.frame_number in Hn. rewrite Hn, Z.eqb_refl. cbn [negb].
  destruct (Z.eqb_spec r 750) as [? | _]; [contradiction |].
  reflexivity.
Qed.

Lemma lepton_acquire_reset (fuel : nat) (ii r : Z) (c : Lepton.camera) :
  ii < 60 ->
  Lepton.is_discard (Lepton.stream_frame c 0) = false ->
  Lepton.frame_number (Lepton.stream_frame c 0) <> ii ->
  Lepton.acquire (S fuel) ii r c
  = Lepton.acquire fuel (if r + 1 =? 750 then 62 else 0) (r + 1)
      (Lepton.emit (Lepton.BlockingWait 1) (Lepton.fill_frame ii c)).
Proof.
  intros Hi Hd Hn. cbn [Lepton.acquire].
  change Lepton.VOSPI_NUM_FRAMES_IN_IMAGE with 60.
  destruct (Z.ltb_spec ii 60) as [_ | ?]; [| lia].
  rewrite lepton_fill_frame.
  cbn [Lepton.frame]. rewrite Z.eqb_refl.
  unfold Lepton.is_discard in Hd. rewrite Hd.
  unfold Lepton.frame_number in Hn.
  destruct (Z.eqb_spec (nth 1 (Lepton.stream_frame c 0) 0) ii) as [? | _];
    [contradiction |].
  cbn [negb]. destruct (r + 1 =? 750); reflexivity.
Qed.

Lemma lepton_acquire_exit (fuel : nat) (ii r : Z) (c : Lepton.camera) :
  60 <= ii ->
  Lepton.acquire fuel ii r c
  = {| Lepton.finished := true; Lepton.index := ii; Lepton.resets := r;
       Lepton.cam := c |}.
Proof.
  intros Hi. destruct fuel; cbn [Lepton.acquire];
    change Lepton.VOSPI_NUM_FRAMES_IN_IMAGE with 60;
    destruct (Z.ltb_spec ii 60); try lia; reflexivity.
Qed.

Lemma lepton_kept_last (fs : list (list Z)) :
  fs <> [] -> Lepton.is_discard (last fs []) = false -> Lepton.kept fs <> [].
Proof.
  intros Hne Hl Hk.
  assert (Hin : In (last fs []) (Lepton.kept fs)).
  { unfold Lepton.kept. apply filter_In. split.
    - destruct (exists_last Hne) as (l & a & ->). rewrite last_last.
      apply in_or_app. right. left. reflexivity.
    - rewrite Hl. reflexivity. }
  rewrite Hk in Hin. exact Hin.
Qed.

Lemma lepton_fill_frame_fields (ii : Z) (c : Lepton.camera) :
  Lepton.rx_count (Lepton.fill_frame ii c) = (Lepton.rx_count c + 164)%nat
  /\ Lepton.trace (Lepton.fill_frame ii c)
     = Lepton.FrameStore ii :: Lepton.trace c
  /\ Lepton.frame (Lepton.fill_frame ii c) ii = Lepton.stream_frame c 0
  /\ (forall z, z <> ii ->
      Lepton.frame (Lepton.fill_frame ii c) z = Lepton.frame c z).
Proof.
  rewrite lepton_fill_frame. cbn. rewrite Z.eqb_refl.
  repeat split; try reflexivity.
  intros z Hz. destruct (Z.eqb_spec z ii); [contradiction | reflexivity].
Qed.

(** The acquisition loop on an image in step with the row it is at. *)
Lemma lepton_acquire_in_step (fs : list (list Z)) :
  forall (i : nat) (r : Z) (c : Lepton.camera),
    r <> 750 -> (i <= 60)%nat ->
    Lepton.sends c fs ->
    map Lepton.frame_number (Lepton.kept fs)
    = map Z.of_nat (seq i (60 - i)) ->
    fs = [] \/ Lepton.is_discard (last fs []) = false ->
    let res := Lepton.acquire (length fs) (Z.of_nat i) r c in
    Lepton.finished res = true
    /\ Lepton.resets res = r
    /\ Lepton.rx_count (Lepton.cam res)
       = (Lepton.rx_count c + 164 * length fs)%nat
    /\ Lepton.waits (Lepton.trace (Lepton.cam res))
       = Lepton.waits (Lepton.trace c)
    /\ Lepton.uploaded (Lepton.trace (Lepton.cam res))
       = Lepton.uploaded (Lepton.trace c)
    /\ (forall j : nat, (i <= j < 60)%nat ->
        Lepton.frame (Lepton.cam res) (Z.of_nat j)
        = nth (j - i) (Lepton.kept fs) [])
    /\ (forall z : Z, z < Z.of_nat i \/ 60 <= z ->
        Lepton.frame (Lepton.cam res) z = Lepton.frame c z).
Proof.
  induction fs as [| f fs IH]; intros i r c Hr Hi Hs Hk Hl.
  - cbn [Lepton.kept filter map] in Hk.
    assert (i = 60)%nat as ->.
    { destruct (60 - i)%nat eqn:E; [lia | discriminate Hk]. }
    cbn [length]. rewrite lepton_acquire_exit by (cbn; lia).
    cbn. rewrite Nat.add_0_r. repeat split; try reflexivity.
    intros j Hj. lia.
  - destruct (lepton_sends_tail (Z.of_nat i) c f fs Hs) as [Hf Hs'].
    destruct Hl as [Hl | Hl]; [discriminate Hl |].
    assert (Hlt : (i < 60)%nat).
    { destruct (Nat.eq_dec i 60) as [-> | ?]; [| lia]. exfalso.
      cbn in Hk. apply map_eq_nil in Hk.
      apply (lepton_kept_last (f :: fs)); [discriminate | exact Hl | exact Hk]. }
    cbn [length].
    destruct (Lepton.is_discard f) eqn:Ed.
    + rewrite lepton_acquire_discard; try lia; [| rewrite Hf; exact Ed].
      assert (Hk' : map Lepton.frame_number (Lepton.kept fs)
                    = map Z.of_nat (seq i (60 - i))).
      { unfold Lepton.kept in Hk |- *. cbn [filter] in Hk.
        rewrite Ed in Hk. exact Hk. }
      assert (Hl' : fs = [] \/ Lepton.is_discard (last fs []) = false).
      { destruct fs as [| g fs]; [left; reflexivity | right].
        exact Hl. }
      assert (Hfs : fs <> []).
      { intros ->. cbn in Hl. rewrite Hl in Ed. discriminate Ed. }
      destruct (IH i r (Lepton.fill_frame (Z.of_nat i) c) Hr Hi Hs' Hk' Hl')
        as (A & B & C & D & E & F & G).
      destruct (lepton_fill_frame_fields (Z.of_nat i) c)
        as (Q1 & Q2 & Q3 & Q4).
      cbv zeta. rewrite A, B, C, D, E, Q1, Q2.
      split; [reflexivity |]. split; [reflexivity |].
      split; [lia |]. split; [reflexivity |]. split; [reflexivity |].
      split.
      * intros j Hj. rewrite (F j Hj). unfold Lepton.kept. cbn [filter].
        rewrite Ed. reflexivity.
      * intros z Hz. rewrite (G z Hz). apply Q4. lia.
    + assert (Hseq : seq i (60 - i) = i :: seq (S i) (60 - S i)).
      { replace (60 - i)%nat with (S (60 - S i)) by lia. reflexivity. }
      unfold Lepton.kept in Hk. cbn [filter] in Hk. rewrite Ed in Hk.
      cbn [negb map] in Hk. rewrite Hseq in Hk. cbn [map] in Hk.
      injection Hk as Hn Hk'.
      rewrite lepton_acquire_in_place; try lia;
        [| rewrite Hf; exact Ed | rewrite Hf; exact Hn].
      replace (Z.of_nat i + 1) with (Z.of_nat (S i)) by lia.
      assert (Hl' : fs = [] \/ Lepton.is_discard (last fs []) = false).
      { destruct fs as [| g fs]; [left; reflexivity | right].
        exact Hl. }
      destruct (IH (S i) r (Lepton.fill_frame (Z.of_nat i) c) Hr
                  ltac:(lia) Hs' Hk' Hl')
        as (A & B & C & D & E & F & G).
      destruct (lepton_fill_frame_fields (Z.of_nat i) c)
        as (Q1 & Q2 & Q3 & Q4).
      cbv zeta. rewrite A, B, C, D, E, Q1, Q2.
      split; [reflexivity |]. split; [reflexivity |].
      split; [lia |]. split; [reflexivity |]. split; [reflexivity |].
      split.
      * intros j Hj. unfold Lepton.kept. cbn [filter]. rewrite Ed.
        cbn [negb]. destruct (Nat.eq_dec j i) as [-> | Hne].
        -- rewrite G by lia. rewrite Q3, Nat.sub_diag. cbn [nth]. exact Hf.
        -- rewrite (F j) by lia.
           replace (j - i)%nat with (S (j - S i)) by lia. reflexivity.
      * intros z Hz. rewrite G by lia. apply Q4. lia.
Qed.

Lemma lepton_upload (c : Lepton.camera) :
  let c' := Lepton.upload c in
  Lepton.uploaded (Lepton.trace c')
  = Lepton.uploaded (Lepton.trace c)
    ++ map (fun j => Lepton.frame c (Z.of_nat j)) (seq 0 60)
  /\ Lepton.waits (Lepton.trace c') = Lepton.waits (Lepton.trace c)
  /\ Lepton.rx_count c' = Lepton.rx_count c.
Proof.
  unfold Lepton.upload.
  change (Z.to_nat Lepton.VOSPI_NUM_FRAMES_IN_IMAGE) with 60%nat.
  generalize (seq 0 60). intros l. revert c.
  induction l as [| j l IH]; intros c.
  - cbn. rewrite app_nil_r. repeat split; reflexivity.
  - cbn [map fold_left].
    destruct (IH (Lepton.emit (Lepton.VospiWrite (Lepton.frame c (Z.of_nat j)))
                    c)) as (A & B & C).
    cbv zeta. rewrite A, B, C. unfold Lepton.uploaded, Lepton.waits.
    cbn. rewrite <- app_assoc. repeat split; reflexivity.
Qed.

Lemma map_nth_seq (A : Type) (l : list A) (d : A) :
  map (fun j => nth j l d) (seq 0 (length l)) = l.
Proof.
  apply (nth_ext _ _ d d).
  - rewrite length_map, length_seq. reflexivity.
  - intros n Hn. rewrite length_map, length_seq in Hn.
    rewrite (nth_indep _ d (nth 0 l d)) by (rewrite length_map, length_seq; exact Hn).
    rewrite (map_nth (fun j => nth j l d) (seq 0 (length l)) 0%nat).
    rewrite seq_nth by exact Hn. reflexivity.
Qed.

Lemma lepton_emit_quiet (e : Lepton.event) (c : Lepton.camera) :
  match e with
  | Lepton.VospiWrite _ | Lepton.BlockingWait _ => False
  | _ => True
  end ->
  Lepton.uploaded (Lepton.trace (Lepton.emit e c))
  = Lepton.uploaded (Lepton.trace c)
  /\ Lepton.waits (Lepton.trace (Lepton.emit e c))
     = Lepton.waits (Lepton.trace c).
Proof.
  destruct e; intros He; try contradiction; split; reflexivity.
Qed.

(** What [lepton_transfer] leaves once its first loop has ended. *)
Lemma lepton_transfer_finish (fuel : nat) (c : Lepton.camera) :
  let c0 := Lepton.emit (Lepton.SpiCs true)
              (Lepton.emit (Lepton.LedOrange Bit_SET) c) in
  let res := Lepton.acquire fuel 0 0 c0 in
  Lepton.finished res = true ->
  exists c' : Lepton.camera,
    Lepton.lepton_transfer fuel c = Some c'
    /\ Lepton.uploaded (Lepton.trace c')
       = Lepton.uploaded (Lepton.trace (Lepton.cam res))
         ++ map (fun j => Lepton.frame (Lepton.cam res) (Z.of_nat j))
              (seq 0 60)
    /\ Lepton.waits (Lepton.trace c')
       = Lepton.waits (Lepton.trace (Lepton.cam res))
    /\ Lepton.rx_count c' = Lepton.rx_count (Lepton.cam res).
Proof.
  intros c0 res Hf. unfold Lepton.lepton_transfer. fold c0. fold res.
  rewrite Hf. eexists. split; [reflexivity |].
  set (c1 := Lepton.emit (Lepton.SpiCs false) (Lepton.cam res)).
  destruct (lepton_upload c1) as (U1 & U2 & U3).
  destruct (lepton_emit_quiet (Lepton.LedOrange Bit_RESET) (Lepton.upload c1) I)
    as (E1 & E2).
  destruct (lepton_emit_quiet (Lepton.SpiCs false) (Lepton.cam res) I)
    as (F1 & F2).
  fold c1 in F1, F2.
  rewrite E1, E2, U1, U2, F1, F2.
  repeat split; try reflexivity; exact U3.
Qed.

(** X22.  An image in step is passed on as received: when the
    frames the camera sends next are, apart from discard frames, the
    frames numbered 0 to 59 in order, ending with frame 59,
    [lepton_transfer] reads exactly these frames, waits for nothing, and
    queues the 60 frames that are not discard frames, in order and byte
    for byte. *)
Theorem lepton_image_in_step_is_queued
  (c : Lepton.camera) (fs : list (list Z)) :
  Lepton.sends c fs ->
  map Lepton.frame_number (Lepton.kept fs) = map Z.of_nat (seq 0 60) ->
  Lepton.is_discard (last fs []) = false ->
  exists c' : Lepton.camera,
    Lepton.lepton_transfer (length fs) c = Some c'
    /\ Lepton.uploaded (Lepton.trace c')
       = Lepton.uploaded (Lepton.trace c) ++ Lepton.kept fs
    /\ Lepton.waits (Lepton.trace c') = Lepton.waits (Lepton.trace c)
    /\ Lepton.rx_count c' = (Lepton.rx_count c + 164 * length fs)%nat.
Proof.
  intros Hs Hk Hl.
  set (c0 := Lepton.emit (Lepton.SpiCs true)
               (Lepton.emit (Lepton.LedOrange Bit_SET) c)).
  assert (Hs0 : Lepton.sends c0 fs) by exact Hs.
  destruct (lepton_acquire_in_step fs 0 0 c0 ltac:(lia) ltac:(lia) Hs0 Hk
              (or_intror Hl)) as (A & B & C & D & E & F & _).
  change (Z.of_nat 0) with 0 in *.
  destruct (lepton_transfer_finish (length fs) c A) as (c' & T1 & T2 & T3 & T4).
  exists c'. split; [exact T1 |].
  fold c0 in T2, T3, T4. rewrite T2, T3, T4, C, D, E.
  assert (Hlen : length (Lepton.kept fs) = 60%nat).
  { rewrite <- (length_map Lepton.frame_number), Hk, length_map, length_seq.
    reflexivity. }
  assert (Hrows : map (fun j => Lepton.frame
                                  (Lepton.cam (Lepton.acquire (length fs) 0 0 c0))
                                  (Z.of_nat j))
                    (seq 0 60) = Lepton.kept fs).
  { etransitivity; [| apply (map_nth_seq _ (Lepton.kept fs) [])].
    rewrite Hlen.
    apply map_ext_in. intros j Hj. apply in_seq in Hj.
    rewrite F by lia. rewrite Nat.sub_0_r. reflexivity. }
  rewrite Hrows. repeat split; reflexivity.
Qed.

Lemma lepton_image_witness :
  exists c' : Lepton.camera,
    Lepton.lepton_transfer 60 Lepton.steady = Some c'
    /\ Lepton.waits (Lepton.trace c') = 0%nat
    /\ Lepton.rx_count c' = (164 * 60)%nat.
Proof.
  set (fs := map (Lepton.stream_frame Lepton.steady) (seq 0 60)).
  assert (Hs : Lepton.sends Lepton.steady fs).
  { intros n Hn. unfold fs in Hn |- *. rewrite length_map, length_seq in Hn.
    rewrite (nth_indep _ [] (Lepton.stream_frame Lepton.steady 0))
      by (rewrite length_map, length_seq; exact Hn).
    rewrite (map_nth (Lepton.stream_frame Lepton.steady) (seq 0 60) 0%nat).
    rewrite seq_nth by exact Hn. reflexivity. }
  assert (Hk : map Lepton.frame_number (Lepton.kept fs)
               = map Z.of_nat (seq 0 60)) by (vm_compute; reflexivity).
  assert (Hl : Lepton.is_discard (last fs []) = false)
    by (vm_compute; reflexivity).
  destruct (lepton_image_in_step_is_queued Lepton.steady fs Hs Hk Hl)
    as (c' & A & _ & C & D).
  exists c'. split; [exact A |]. split; [exact C | exact D].
Defined.

Lemma lepton_stream_emit (e : Lepton.event) (c : Lepton.camera) (n : nat) :
  Lepton.stream_frame (Lepton.emit e c) n = Lepton.stream_frame c n.
Proof. reflexivity. Qed.

Lemma lepton_emit_fields (e : Lepton.event) (c : Lepton.camera) :
  Lepton.rx_count (Lepton.emit e c) = Lepton.rx_count c
  /\ Lepton.trace (Lepton.emit e c) = e :: Lepton.trace c
  /\ Lepton.frame (Lepton.emit e c) = Lepton.frame c.
Proof. repeat split; reflexivity. Qed.

Lemma lepton_acquire_exit_fields (fuel : nat) (ii r : Z) (c : Lepton.camera) :
  60 <= ii ->
  Lepton.finished (Lepton.acquire fuel ii r c) = true
  /\ Lepton.index (Lepton.acquire fuel ii r c) = ii
  /\ Lepton.resets (Lepton.acquire fuel ii r c) = r
  /\ Lepton.cam (Lepton.acquire fuel ii r c) = c.
Proof.
  intros Hi. rewrite lepton_acquire_exit by exact Hi.
  repeat split; reflexivity.
Qed.

(** The acquisition loop while every frame is out of place. *)
Lemma lepton_acquire_out_of_step (k : nat) :
  forall (r : Z) (c : Lepton.camera),
    r + Z.of_nat (S k) = 750 ->
    (forall n : nat, (n <= k)%nat ->
       Lepton.is_discard (Lepton.stream_frame c n) = false
       /\ Lepton.frame_number (Lepton.stream_frame c n) <> 0) ->
    let res := Lepton.acquire (S k) 0 r c in
    Lepton.finished res = true
    /\ Lepton.resets res = 750
    /\ Lepton.rx_count (Lepton.cam res)
       = (Lepton.rx_count c + 164 * S k)%nat
    /\ Lepton.waits (Lepton.trace (Lepton.cam res))
       = (Lepton.waits (Lepton.trace c) + S k)%nat
    /\ Lepton.uploaded (Lepton.trace (Lepton.cam res))
       = Lepton.uploaded (Lepton.trace c)
    /\ Lepton.frame (Lepton.cam res) 0 = Lepton.stream_frame c k
    /\ (forall z : Z, z <> 0 ->
        Lepton.frame (Lepton.cam res) z = Lepton.frame c z).
Proof.
  induction k as [| k IH]; intros r c Hr Hbad.
  - destruct (Hbad O ltac:(lia)) as [Hd Hn].
    rewrite lepton_acquire_reset by (try lia; assumption).
    replace (r + 1 =? 750) with true by (symmetry; apply Z.eqb_eq; lia).
    destruct (lepton_acquire_exit_fields 0 62 (r + 1)
                (Lepton.emit (Lepton.BlockingWait 1) (Lepton.fill_frame 0 c))
                ltac:(lia)) as (X1 & _ & X3 & X4).
    destruct (lepton_emit_fields (Lepton.BlockingWait 1)
                (Lepton.fill_frame 0 c)) as (E1 & E2 & E3).
    destruct (lepton_fill_frame_fields 0 c) as (Q1 & Q2 & Q3 & Q4).
    cbv zeta. rewrite X1, X3, X4, E1, E2, E3, Q1, Q2, Q3.
    unfold Lepton.waits, Lepton.uploaded.
    cbn [filter flat_map length app].
    split; [reflexivity |]. split; [lia |]. split; [lia |].
    split; [lia |]. split; [reflexivity |]. split; [reflexivity |].
    exact Q4.
  - destruct (Hbad O ltac:(lia)) as [Hd Hn].
    rewrite lepton_acquire_reset by (try lia; assumption).
    replace (r + 1 =? 750) with false by (symmetry; apply Z.eqb_neq; lia).
    destruct (lepton_emit_fields (Lepton.BlockingWait 1)
                (Lepton.fill_frame 0 c)) as (E1 & E2 & E3).
    destruct (lepton_fill_frame_fields 0 c) as (Q1 & Q2 & Q3 & Q4).
    assert (Hbad1 : forall n : nat, (n <= k)%nat ->
              Lepton.is_discard
                (Lepton.stream_frame
                   (Lepton.emit (Lepton.BlockingWait 1) (Lepton.fill_frame 0 c))
                   n) = false
              /\ Lepton.frame_number
                   (Lepton.stream_frame
                      (Lepton.emit (Lepton.BlockingWait 1)
                         (Lepton.fill_frame 0 c)) n) <> 0).
    { intros n Hle.
      rewrite lepton_stream_emit, lepton_stream_shift. apply Hbad. lia. }
    destruct (IH (r + 1) _ ltac:(lia) Hbad1) as (A & B & C & D & E & F & G).
    cbv zeta. rewrite A, B, C, D, E, F.
    rewrite lepton_stream_emit, lepton_stream_shift.
    rewrite E1, E2, Q1, Q2.
    unfold Lepton.waits, Lepton.uploaded.
    cbn [filter flat_map length app].
    split; [reflexivity |]. split; [reflexivity |]. split; [lia |].
    split; [lia |]. split; [reflexivity |]. split; [reflexivity |].
    intros z Hz. rewrite (G z Hz), E3.
    apply Q4. exact Hz.
Qed.

(** X23.  The acquisition gives up after 750 frames out of
    place: when the next 750 frames of the camera are no discard frames
    and none of them is numbered 0, [lepton_transfer] reads exactly these
    750 frames, waits 1 ms after each, and then queues 60 rows as it does
    after an image: the first row is the last frame read, the other 59
    are whatever the array held on entry. *)
Theorem lepton_gives_up_after_750_resets (c : Lepton.camera) :
  (forall n : nat, (n < 750)%nat ->
     Lepton.is_discard (Lepton.stream_frame c n) = false
     /\ Lepton.frame_number (Lepton.stream_frame c n) <> 0) ->
  exists c' : Lepton.camera,
    Lepton.lepton_transfer 750 c = Some c'
    /\ Lepton.rx_count c' = (Lepton.rx_count c + 164 * 750)%nat
    /\ Lepton.waits (Lepton.trace c') = (Lepton.waits (Lepton.trace c) + 750)%nat
    /\ Lepton.uploaded (Lepton.trace c')
       = Lepton.uploaded (Lepton.trace c)
         ++ Lepton.stream_frame c 749
            :: map (fun j => Lepton.frame c (Z.of_nat j)) (seq 1 59).
Proof.
  intros Hbad.
  set (c0 := Lepton.emit (Lepton.SpiCs true)
               (Lepton.emit (Lepton.LedOrange Bit_SET) c)).
  assert (Hbad0 : forall n : nat, (n <= 749)%nat ->
            Lepton.is_discard (Lepton.stream_frame c0 n) = false
            /\ Lepton.frame_number (Lepton.stream_frame c0 n) <> 0).
  { intros n Hn. apply (Hbad n). lia. }
  destruct (lepton_acquire_out_of_step 749 0 c0 ltac:(lia) Hbad0)
    as (A & B & C & D & E & F & G).
  destruct (lepton_transfer_finish 750 c A) as (c' & T1 & T2 & T3 & T4).
  exists c'. split; [exact T1 |].
  fold c0 in T2, T3, T4. rewrite T2, T3, T4, C, D, E.
  split; [reflexivity |]. split; [reflexivity |].
  f_equal. change (seq 0 60) with (0%nat :: seq 1 59). cbn [map].
  f_equal; [exact F |].
  apply map_ext_in. intros j Hj. apply in_seq in Hj.
  rewrite G by lia. reflexivity.
Qed.

Lemma lepton_gives_up_witness :
  let c := {| Lepton.rx := fun _ => 7; Lepton.rx_count := 0;
              Lepton.frame := fun _ => []; Lepton.trace := [] |} in
  exists c' : Lepton.camera,
    Lepton.lepton_transfer 750 c = Some c'
    /\ Lepton.waits (Lepton.trace c') = 750%nat.
Proof.
  intros c.
  assert (Hbad : forall n : nat, (n < 750)%nat ->
            Lepton.is_discard (Lepton.stream_frame c n) = false
            /\ Lepton.frame_number (Lepton.stream_frame c n) <> 0).
  { intros n _. split; [reflexivity | discriminate]. }
  destruct (lepton_gives_up_after_750_resets c Hbad) as (c' & A & _ & B & _).
  exists c'. split; [exact A | exact B].
Defined.

(** The acquisition loop while only discard frames arrive. *)
Lemma lepton_acquire_discards (fuel : nat) :
  forall (ii r : Z) (c : Lepton.camera),
    ii < 60 -> r <> 750 ->
    (forall n : nat, (n < fuel)%nat ->
       Lepton.is_discard (Lepton.stream_frame c n) = true) ->
    let res := Lepton.acquire fuel ii r c in
    Lepton.finished res = false
    /\ Lepton.index res = ii
    /\ Lepton.resets res = r
    /\ Lepton.rx_count (Lepton.cam res)
       = (Lepton.rx_count c + 164 * fuel)%nat
    /\ Lepton.waits (Lepton.trace (Lepton.cam res))
       = Lepton.waits (Lepton.trace c).
Proof.
  induction fuel as [| fuel IH]; intros ii r c Hi Hr Hd.
  - cbn [Lepton.acquire]. change Lepton.VOSPI_NUM_FRAMES_IN_IMAGE with 60.
    destruct (Z.ltb_spec ii 60); [| lia].
    cbn. rewrite Nat.add_0_r. repeat split; reflexivity.
  - rewrite lepton_acquire_discard; try assumption;
      [| apply (Hd O); lia].
    destruct (lepton_fill_frame_fields ii c) as (Q1 & Q2 & _).
    destruct (IH ii r (Lepton.fill_frame ii c) Hi Hr) as (A & B & C & D & E).
    { intros n Hn. rewrite lepton_stream_shift. apply Hd. lia. }
    cbv zeta. rewrite A, B, C, D, E, Q1, Q2.
    unfold Lepton.waits. cbn [filter].
    repeat split; try reflexivity. lia.
Qed.

(** X24.  Discard frames do not count towards giving up: as
    long as the camera sends nothing but discard frames the acquisition
    loop stays at its first row with no reset counted and no wait made, so
    [lepton_transfer] has not returned after any number of frames. *)
Theorem lepton_discard_frames_never_time_out
  (c : Lepton.camera) (fuel : nat) :
  (forall n : nat, (n < fuel)%nat ->
     Lepton.is_discard (Lepton.stream_frame c n) = true) ->
  Lepton.lepton_transfer fuel c = None
  /\ let res := Lepton.acquire fuel 0 0
                  (Lepton.emit (Lepton.SpiCs true)
                     (Lepton.emit (Lepton.LedOrange Bit_SET) c)) in
     Lepton.index res = 0
     /\ Lepton.resets res = 0
     /\ Lepton.rx_count (Lepton.cam res) = (Lepton.rx_count c + 164 * fuel)%nat
     /\ Lepton.waits (Lepton.trace (Lepton.cam res))
        = Lepton.waits (Lepton.trace c).
Proof.
  intros Hd.
  set (c0 := Lepton.emit (Lepton.SpiCs true)
               (Lepton.emit (Lepton.LedOrange Bit_SET) c)).
  destruct (lepton_acquire_discards fuel 0 0 c0 ltac:(lia) ltac:(lia))
    as (A & B & C & D & E).
  { intros n Hn. unfold c0. rewrite !lepton_stream_emit. apply Hd. exact Hn. }
  split.
  - unfold Lepton.lepton_transfer. fold c0. rewrite A. reflexivity.
  - cbv zeta. rewrite B, C, D, E. repeat split; reflexivity.
Qed.

Lemma lepton_discard_witness :
  let c := {| Lepton.rx := fun _ => 0x0F; Lepton.rx_count := 0;
              Lepton.frame := fun _ => []; Lepton.trace := [] |} in
  Lepton.lepton_transfer 1000 c = None.
Proof.
  intros c.
  apply (lepton_discard_frames_never_time_out c 1000).
  intros n _. reflexivity.
Defined.

(** The acquisition loop from any head it reaches: the rows it stores
    to, the resets it counts and the index it ends with. *)
Lemma lepton_acquire_bounds (fuel : nat) :
  forall (ii r : Z) (c : Lepton.camera),
    (0 <= ii <= 60 /\ 0 <= r < 750) \/ (ii = 62 /\ r = 750) ->
    let res := Lepton.acquire fuel ii r c in
    (forall k : Z,
        In (Lepton.FrameStore k) (Lepton.trace (Lepton.cam res)) ->
        In (Lepton.FrameStore k) (Lepton.trace c) \/ 0 <= k < 60)
    /\ r <= Lepton.resets res <= 750
    /\ Z.of_nat (Lepton.waits (Lepton.trace (Lepton.cam res)))
       = Z.of_nat (Lepton.waits (Lepton.trace c)) + (Lepton.resets res - r)
    /\ (Lepton.finished res = true ->
        (Lepton.index res = 60 /\ Lepton.resets res < 750)
        \/ (Lepton.index res = 62 /\ Lepton.resets res = 750)).
Proof.
  induction fuel as [| fuel IH]; intros ii r c Hh.
  - cbn [Lepton.acquire]. change Lepton.VOSPI_NUM_FRAMES_IN_IMAGE with 60.
    destruct (Z.ltb_spec ii 60);
      cbn [Lepton.finished Lepton.index Lepton.resets Lepton.cam].
    + split; [intros k Hk; left; exact Hk |].
      split; [lia |]. split; [lia | discriminate].
    + split; [intros k Hk; left; exact Hk |].
      split; [lia |]. split; [lia |]. intros _. lia.
  - destruct (Z.lt_ge_cases ii 60) as [Hlt | Hge].
    + destruct Hh as [[Hi Hr] | [Hi _]]; [| lia].
      destruct (lepton_fill_frame_fields ii c) as (_ & Q2 & _).
      assert (Hstore : forall (t : list Lepton.event) k,
                In (Lepton.FrameStore k) (Lepton.FrameStore ii :: t) ->
                In (Lepton.FrameStore k) t \/ 0 <= k < 60).
      { intros t k [Hk | Hk]; [right | left; exact Hk].
        injection Hk as <-. lia. }
      destruct (Lepton.is_discard (Lepton.stream_frame c 0)) eqn:Ed.
      * rewrite lepton_acquire_discard by (try lia; exact Ed).
        destruct (IH ii r (Lepton.fill_frame ii c)) as (A & B & C & D);
          [left; lia |].
        rewrite Q2 in A, C.
        split; [| split; [exact B | split; [| exact D]]].
        -- intros k Hk. destruct (A k Hk) as [Hin | Hin]; [| right; exact Hin].
           apply Hstore. exact Hin.
        -- rewrite C. unfold Lepton.waits. cbn [filter]. reflexivity.
      * destruct (Z.eq_dec (Lepton.frame_number (Lepton.stream_frame c 0)) ii)
          as [Hn | Hn].
        -- rewrite lepton_acquire_in_place by (try lia; assumption).
           destruct (IH (ii + 1) r (Lepton.fill_frame ii c)) as (A & B & C & D);
             [left; lia |].
           rewrite Q2 in A, C.
           split; [| split; [exact B | split; [| exact D]]].
           ++ intros k Hk.
              destruct (A k Hk) as [Hin | Hin]; [| right; exact Hin].
              apply Hstore. exact Hin.
           ++ rewrite C. unfold Lepton.waits. cbn [filter]. reflexivity.
        -- rewrite lepton_acquire_reset by (try lia; assumption).
           destruct (IH (if r + 1 =? 750 then 62 else 0) (r + 1)
                       (Lepton.emit (Lepton.BlockingWait 1)
                          (Lepton.fill_frame ii c))) as (A & B & C & D).
           { destruct (Z.eqb_spec (r + 1) 750); [right | left]; lia. }
           destruct (lepton_emit_fields (Lepton.BlockingWait 1)
                       (Lepton.fill_frame ii c)) as (_ & E2 & _).
           rewrite E2, Q2 in A, C.
           split; [| split; [lia | split; [| exact D]]].
           ++ intros k Hk.
              destruct (A k Hk) as [Hin | Hin]; [| right; exact Hin].
              destruct Hin as [Hin | Hin]; [discriminate Hin |].
              apply Hstore. exact Hin.
           ++ rewrite C. unfold Lepton.waits. cbn [filter length].
              lia.
    + destruct (lepton_acquire_exit_fields (S fuel) ii r c Hge)
        as (X1 & X2 & X3 & X4).
      cbv zeta. rewrite X2, X3, X4.
      split; [intros k Hk; left; exact Hk |].
      split; [lia |]. split; [lia |]. intros _. lia.
Qed.

(** X25.  Whatever the camera sends and however long the
    acquisition runs, every row it fills is one of the 60 rows of the
    array, it counts at most 750 resets and waits 1 ms once for each, so
    at most 750 ms in all; and when it ends it does so either with the
    image complete and fewer than 750 resets, or by giving up at 750. *)
Theorem lepton_acquisition_stays_in_bounds
  (c : Lepton.camera) (fuel : nat) :
  let res := Lepton.acquire fuel 0 0 c in
  (forall k : Z,
      In (Lepton.FrameStore k) (Lepton.trace (Lepton.cam res)) ->
      In (Lepton.FrameStore k) (Lepton.trace c) \/ 0 <= k < 60)
  /\ 0 <= Lepton.resets res <= 750
  /\ Z.of_nat (Lepton.waits (Lepton.trace (Lepton.cam res)))
     = Z.of_nat (Lepton.waits (Lepton.trace c)) + Lepton.resets res
  /\ (Lepton.finished res = true ->
      (Lepton.index res = 60 /\ Lepton.resets res < 750)
      \/ (Lepton.index res = 62 /\ Lepton.resets res = 750)).
Proof.
  destruct (lepton_acquire_bounds fuel 0 0 c ltac:(left; lia))
    as (A & B & C & D).
  cbv zeta. rewrite C. repeat split; try assumption; try lia.
Qed.

Lemma lepton_bounds_witness :
  let res := Lepton.acquire 60 0 0 Lepton.steady in
  Lepton.finished res = true
  /\ In (Lepton.FrameStore 59) (Lepton.trace (Lepton.cam res))
  /\ 0 <= 59 < 60
  /\ Lepton.index res = 60.
Proof.
  intros res.
  assert (Hf : Lepton.finished res = true) by (vm_compute; reflexivity).
  assert (Hin : In (Lepton.FrameStore 59) (Lepton.trace (Lepton.cam res)))
    by (vm_compute; left; reflexivity).
  destruct (lepton_acquisition_stays_in_bounds Lepton.steady 60)
    as (A & _ & _ & D).
  split; [exact Hf |]. split; [exact Hin |].
  split.
  - destruct (A 59 Hin) as [Hold | Hk]; [destruct Hold | exact Hk].
  - destruct (D Hf) as [[Hi _] | [Hi Hr]]; [exact Hi |].
    exfalso. vm_compute in Hr. discriminate Hr.
Defined.
